(** * The asynchronous gateway client of the inspection HMI

  A shallow embedding of [src/core/Types.h] and [src/core/GatewayClient.cpp]:
  the domain value types, the wire-to-domain conversion helpers, the
  connection bookkeeping of [GatewayClient], the dispatch of the one-shot
  calls, and the bodies of the upload, subscription and download threads.

  Conventions.  Fixed-width C++ integers are [Z] with the casts written out
  in [Cxx]; a [double] is a binary64 number and a [float] a binary32 number
  held as the double it widens to.  [QString] and [std::string] are
  [string]; [QByteArray] is a list of bytes.  A method of [GatewayClient] is
  a computation in the monad [M], which threads the object and collects
  what happens to the outside while it runs: queued signal emissions and
  thread starts and joins.  The two methods that join the monitor thread
  take what that thread stores into the liveness flag while they run.  The
  body of a spawned thread is a function from a script of what the file or
  the stream does to the signals the thread queues, in order. *)

From Stdlib Require Import ZArith List String Ascii Bool Lia Sorted.
From Stdlib.Strings Require Import Byte.
From Stdlib Require Import Floats DecimalString.
Import ListNotations.

Open Scope string_scope.
Open Scope list_scope.
Open Scope Z_scope.

(* A decimal literal denotes the double nearest to it, as in C++. *)
Set Warnings "-inexact-float".

(* ====================================================================== *)
(** ** C++ integer types *)
(* ====================================================================== *)

Module Cxx.

(** Reduction of a mathematical integer to a signed two's complement
    integer of [w] bits, as a narrowing [static_cast] performs it. *)
Definition wrap_signed (w : Z) (z : Z) : Z :=
  (z + 2 ^ (w - 1)) mod 2 ^ w - 2 ^ (w - 1).

Definition wrap_unsigned (w : Z) (z : Z) : Z := z mod 2 ^ w.

Definition to_int (z : Z) : Z := wrap_signed 32 z.
Definition to_qint64 (z : Z) : Z := wrap_signed 64 z.
Definition to_uint32 (z : Z) : Z := wrap_unsigned 32 z.

Definition INT_MAX : Z := 2 ^ 31 - 1.
Definition INT64_MAX : Z := 2 ^ 63 - 1.

(** A [double] is a binary64 number. *)
Definition double : Type := PrimFloat.float.
Definition zero : double := 0%float.

(** Rounding of a binary64 number to the nearest binary32 number, ties to
    even: 24 bits of precision, exponents up to 128, overflow to infinity. *)
Definition round_binary32 (d : PrimFloat.float) : PrimFloat.float :=
  SF2Prim
    match Prim2SF d with
    | S754_finite s m e => SpecFloat.binary_round 24 128 s m e
    | special => special
    end.

(** A [float] is a binary32 number.  It is held as the binary64 number of
    the same value, which is what [static_cast<double>] gives of it;
    [static_cast<float>] of a double rounds. *)
Record float : Type := { widen : PrimFloat.float }.

Definition to_double (f : float) : double := widen f.
Definition to_float (d : double) : float := {| widen := round_binary32 d |}.

Definition zerof : float := {| widen := 0%float |}.
Definition onef : float := {| widen := 1%float |}.

End Cxx.

(* ====================================================================== *)
(** ** The parts of Qt the client uses *)
(* ====================================================================== *)

Module Qt.

Definition QString : Type := string.
Definition QByteArray : Type := list byte.

(** [QString::fromStdString]: the text is carried over as it is. *)
Definition fromStdString (s : string) : QString := s.
Definition toStdString (s : QString) : string := s.

(** [QString::arg] applied to an unsigned number: its decimal digits. *)
Definition number (n : Z) : QString :=
  NilZero.string_of_uint (N.to_uint (Z.to_N n)).

(** [QDateTime] (Qt 6): either a value without valid date and time, as a
    default construction gives it, or an instant held as a [qint64] of
    milliseconds since the epoch.  The date and time of the local zone,
    which Qt derives from the milliseconds, are left out. *)
Inductive QDateTime : Type :=
| QDateTime_null
| QDateTime_msecs (msecs : Z).

Definition isNull (dt : QDateTime) : bool :=
  match dt with QDateTime_null => true | QDateTime_msecs _ => false end.

(** Whether a number fits a [qint64]. *)
Definition fits_qint64 (z : Z) : bool :=
  (- 2 ^ 63 <=? z) && (z <=? Cxx.INT64_MAX).

(** [setSecsSinceEpoch]: the seconds are multiplied by 1000
    ([qMulOverflow]); when the product does not fit a [qint64] the value
    is stripped of its validity instead, and [isNull()] holds of it. *)
Definition setSecsSinceEpoch (dt : QDateTime) (secs : Z) : QDateTime :=
  if fits_qint64 (secs * 1000) then QDateTime_msecs (secs * 1000)
  else QDateTime_null.

(** [toSecsSinceEpoch]: the milliseconds divided by 1000, as C++ divides.
    The conversions here ask it, and [toMSecsSinceEpoch], of no null
    value. *)
Definition toSecsSinceEpoch (dt : QDateTime) : Z :=
  match dt with
  | QDateTime_null => 0
  | QDateTime_msecs ms => Z.quot ms 1000
  end.

Definition toMSecsSinceEpoch (dt : QDateTime) : Z :=
  match dt with QDateTime_null => 0 | QDateTime_msecs ms => ms end.

(** The first [len] bytes of a buffer, all of it when it is shorter. *)
Fixpoint prefix (len : Z) (buf : list byte) : list byte :=
  match buf with
  | [] => []
  | b :: rest => if len <=? 0 then [] else b :: prefix (len - 1) rest
  end.

(** The bytes of a C string up to its terminating NUL. *)
Fixpoint qstrlen_prefix (str : list byte) : list byte :=
  match str with
  | [] => []
  | b :: rest => if Byte.eqb b x00 then [] else b :: qstrlen_prefix rest
  end.

(** [QByteArray::append(const char* str, len)]: the first [len] bytes, or,
    for a negative [len], the bytes up to the first NUL. *)
Definition append (a : QByteArray) (str : list byte) (len : Z) : QByteArray :=
  if len <? 0 then a ++ qstrlen_prefix str
  else a ++ prefix len str.

Definition size (a : QByteArray) : Z := Z.of_nat (List.length a).

Definition isEmpty (a : QByteArray) : bool :=
  match a with [] => true | _ :: _ => false end.

(** [QVector3D] and [QQuaternion]; a default quaternion is the identity. *)
Record QVector3D : Type := { v_x : Cxx.float; v_y : Cxx.float; v_z : Cxx.float }.
Record QQuaternion : Type :=
  { q_scalar : Cxx.float; q_x : Cxx.float; q_y : Cxx.float; q_z : Cxx.float }.

Definition QVector3D_default : QVector3D :=
  {| v_x := Cxx.zerof; v_y := Cxx.zerof; v_z := Cxx.zerof |}.
Definition QQuaternion_default : QQuaternion :=
  {| q_scalar := Cxx.onef; q_x := Cxx.zerof; q_y := Cxx.zerof;
     q_z := Cxx.zerof |}.

(** [QFileInfo(path).fileName()]: what follows the last slash. *)
Fixpoint fileName_from (acc : string) (path : string) : string :=
  match path with
  | EmptyString => acc
  | String c rest =>
      if Ascii.eqb c "/"%char then fileName_from rest rest
      else fileName_from acc rest
  end.

Definition fileName (path : QString) : QString := fileName_from path path.

(** A [QFile] as the upload thread sees it: whether [open] succeeds, the
    [size()] reported once opened, and the buffers the successive [read]
    calls will hand out before [atEnd()] holds.  An empty buffer in the
    script is a read that returned nothing. *)
Record QFile : Type := {
  opens : bool;
  file_size : Z;
  pending : list QByteArray
}.

(** [atEnd()], on what is still to be read. *)
Definition atEnd (to_read : list QByteArray) : bool :=
  match to_read with [] => true | _ :: _ => false end.

(** [read(maxSize)] hands out at most [maxSize] bytes of the next buffer. *)
Definition read (maxSize : Z) (next : QByteArray) : QByteArray :=
  prefix maxSize next.
Arguments read : simpl never.

End Qt.

(* ====================================================================== *)
(** ** The parts of gRPC the client uses *)
(* ====================================================================== *)

Module grpc.

Inductive StatusCode : Type :=
| OK | CANCELLED | UNKNOWN | INVALID_ARGUMENT | DEADLINE_EXCEEDED
| NOT_FOUND | ALREADY_EXISTS | PERMISSION_DENIED | RESOURCE_EXHAUSTED
| FAILED_PRECONDITION | ABORTED | OUT_OF_RANGE | UNIMPLEMENTED
| INTERNAL | UNAVAILABLE | DATA_LOSS | UNAUTHENTICATED.

Definition StatusCode_eqb (a b : StatusCode) : bool :=
  match a, b with
  | OK, OK | CANCELLED, CANCELLED | UNKNOWN, UNKNOWN
  | INVALID_ARGUMENT, INVALID_ARGUMENT
  | DEADLINE_EXCEEDED, DEADLINE_EXCEEDED | NOT_FOUND, NOT_FOUND
  | ALREADY_EXISTS, ALREADY_EXISTS | PERMISSION_DENIED, PERMISSION_DENIED
  | RESOURCE_EXHAUSTED, RESOURCE_EXHAUSTED
  | FAILED_PRECONDITION, FAILED_PRECONDITION | ABORTED, ABORTED
  | OUT_OF_RANGE, OUT_OF_RANGE | UNIMPLEMENTED, UNIMPLEMENTED
  | INTERNAL, INTERNAL | UNAVAILABLE, UNAVAILABLE | DATA_LOSS, DATA_LOSS
  | UNAUTHENTICATED, UNAUTHENTICATED => true
  | _, _ => false
  end.

Record Status : Type := {
  error_code : StatusCode;
  error_message : string
}.

Definition ok (st : Status) : bool := StatusCode_eqb (error_code st) OK.

(** A [ClientContext]: the deadline set on it, if any, in seconds from the
    moment of the call, and whether [TryCancel] was called. *)
Record ClientContext : Type := {
  deadline : option Z;
  cancelled : bool
}.

Definition ClientContext_new : ClientContext :=
  {| deadline := None; cancelled := false |}.

Definition TryCancel (c : ClientContext) : ClientContext :=
  {| deadline := deadline c; cancelled := true |}.

Definition set_deadline (c : ClientContext) (seconds : Z) : ClientContext :=
  {| deadline := Some seconds; cancelled := cancelled c |}.

(** A channel is known by its target; a stub by the channel it is bound to. *)
Record Channel : Type := { target : string }.
Record Stub : Type := { stub_channel : Channel }.

End grpc.

(* ====================================================================== *)
(** ** The wire schema, as far as the client reads and writes it *)
(* ====================================================================== *)

Module proto.

(** Modelled from the spec: the generated header [inspection_gateway.pb.h]
    is not among the sources.  The numeric values of the three wire
    enumerations are the ones [Types.h] mirrors ("Mirrors proto ErrorCode
    enum values", and likewise for the task phase and the event type); a
    wire enumeration value is any 32-bit integer. *)
Definition ErrorCode : Type := Z.
Definition ERROR_CODE_UNSPECIFIED : ErrorCode := 0.
Definition OK : ErrorCode := 1.
Definition INVALID_ARGUMENT : ErrorCode := 2.
Definition NOT_FOUND : ErrorCode := 3.
Definition TIMEOUT : ErrorCode := 4.
Definition BUSY : ErrorCode := 5.
Definition INTERNAL : ErrorCode := 6.
Definition UNAVAILABLE : ErrorCode := 7.
Definition CONFLICT : ErrorCode := 8.

Definition TaskPhase : Type := Z.
Definition TASK_PHASE_UNSPECIFIED : TaskPhase := 0.
Definition IDLE : TaskPhase := 1.
Definition LOCALIZING : TaskPhase := 2.
Definition PLANNING : TaskPhase := 3.
Definition EXECUTING : TaskPhase := 4.
Definition PAUSED : TaskPhase := 5.
Definition COMPLETED : TaskPhase := 6.
Definition FAILED : TaskPhase := 7.
Definition STOPPED : TaskPhase := 8.

Definition InspectionEventType : Type := Z.
Definition INSPECTION_EVENT_TYPE_UNSPECIFIED : InspectionEventType := 0.
Definition INFO : InspectionEventType := 1.
Definition WARN : InspectionEventType := 2.
Definition ERROR : InspectionEventType := 3.
Definition CAPTURED : InspectionEventType := 4.
Definition DEFECT_FOUND : InspectionEventType := 5.

(** The case labels of the three conversion switches. *)
Definition known_error_codes : list ErrorCode :=
  [OK; INVALID_ARGUMENT; NOT_FOUND; TIMEOUT; BUSY; INTERNAL; UNAVAILABLE;
   CONFLICT].
Definition known_task_phases : list TaskPhase :=
  [IDLE; LOCALIZING; PLANNING; EXECUTING; PAUSED; COMPLETED; FAILED; STOPPED].
Definition known_event_types : list InspectionEventType :=
  [INFO; WARN; ERROR; CAPTURED; DEFECT_FOUND].

(** [google::protobuf::Timestamp]: [seconds] is an int64, [nanos] an int32. *)
Record Timestamp : Type := { seconds : Z; nanos : Z }.

Record Result : Type := { code : ErrorCode; message : string }.

(** What an unset message field reads as. *)
Definition Result_default : Result :=
  {| code := ERROR_CODE_UNSPECIFIED; message := "" |}.

Record UploadCadChunk : Type := {
  upload_id : string;
  filename : string;
  data : list byte;
  chunk_index : Z;
  eof : bool
}.

Record UploadCadResponse : Type := { result : Result; model_id : string }.

Record MediaChunk : Type := { chunk_data : list byte }.

End proto.

(* ====================================================================== *)
(** ** Types.h: the domain value types *)
(* ====================================================================== *)

Module hmi.

Module ErrorCode.
Inductive t : Type :=
| Unspecified | Ok | InvalidArgument | NotFound | Timeout | Busy | Internal
| Unavailable | Conflict.

(** The enumerators' values ([enum class ErrorCode : int32_t]). *)
Definition value (e : t) : Z :=
  match e with
  | Unspecified => 0 | Ok => 1 | InvalidArgument => 2 | NotFound => 3
  | Timeout => 4 | Busy => 5 | Internal => 6 | Unavailable => 7
  | Conflict => 8
  end.

Definition eqb (a b : t) : bool := value a =? value b.
End ErrorCode.

Module Result.
Record t : Type := { code : ErrorCode.t; message : Qt.QString }.
Definition init : t := {| code := ErrorCode.Unspecified; message := "" |}.
Definition ok (r : t) : bool := ErrorCode.eqb (code r) ErrorCode.Ok.
End Result.

Module Pose2D.
Record t : Type :=
  { x : Cxx.double; y : Cxx.double; yaw : Cxx.double; frameId : Qt.QString }.
Definition init : t :=
  {| x := Cxx.zero; y := Cxx.zero; yaw := Cxx.zero; frameId := "" |}.
End Pose2D.

Module Pose3D.
Record t : Type := {
  position : Qt.QVector3D;
  orientation : Qt.QQuaternion;
  frameId : Qt.QString
}.
Definition init : t :=
  {| position := Qt.QVector3D_default;
     orientation := Qt.QQuaternion_default;
     frameId := "" |}.
End Pose3D.

Module SurfacePoint.
Record t : Type := {
  position : Qt.QVector3D;
  normal : Qt.QVector3D;
  frameId : Qt.QString;
  faceIndex : Z
}.
Definition init : t :=
  {| position := Qt.QVector3D_default; normal := Qt.QVector3D_default;
     frameId := ""; faceIndex := 0 |}.
End SurfacePoint.

Module ViewHint.
Record t : Type := { viewDirection : Qt.QVector3D; rollDeg : Cxx.double }.
Definition init : t :=
  {| viewDirection := Qt.QVector3D_default; rollDeg := Cxx.zero |}.
End ViewHint.

Module MediaRef.
Record t : Type := {
  mediaId : Qt.QString;
  mimeType : Qt.QString;
  sha256 : Qt.QString;
  url : Qt.QString;
  sizeBytes : Z
}.
Definition init : t :=
  {| mediaId := ""; mimeType := ""; sha256 := ""; url := ""; sizeBytes := 0 |}.
End MediaRef.

Module ImageRef.
Record t : Type := {
  media : MediaRef.t;
  width : Z;
  height : Z;
  thumbnailJpeg : Qt.QByteArray
}.
Definition init : t :=
  {| media := MediaRef.init; width := 0; height := 0; thumbnailJpeg := [] |}.
End ImageRef.

Module BoundingBox2D.
Record t : Type := { x : Z; y : Z; w : Z; h : Z }.
Definition init : t := {| x := 0; y := 0; w := 0; h := 0 |}.
End BoundingBox2D.

Module DefectResult.
Record t : Type := {
  hasDefect : bool;
  defectType : Qt.QString;
  confidence : Cxx.float;
  bbox : BoundingBox2D.t
}.
Definition init : t :=
  {| hasDefect := false; defectType := ""; confidence := Cxx.zerof;
     bbox := BoundingBox2D.init |}.
End DefectResult.

Module CaptureConfig.
Record t : Type := {
  cameraId : Qt.QString;
  focusDistanceM : Cxx.double;
  fovHDeg : Cxx.double;
  fovVDeg : Cxx.double;
  maxTiltFromNormalDeg : Cxx.double
}.
Definition init : t :=
  {| cameraId := ""; focusDistanceM := Cxx.zero; fovHDeg := Cxx.zero;
     fovVDeg := Cxx.zero; maxTiltFromNormalDeg := Cxx.zero |}.
End CaptureConfig.

Module InspectionTarget.
Record t : Type := {
  pointId : Z;
  groupId : Qt.QString;
  surface : SurfacePoint.t;
  view : ViewHint.t
}.
Definition init : t :=
  {| pointId := 0; groupId := ""; surface := SurfacePoint.init;
     view := ViewHint.init |}.
End InspectionTarget.

Module InspectionPoint.
Record t : Type := {
  pointId : Z;
  groupId : Qt.QString;
  agvPose : Pose2D.t;
  armPose : Pose3D.t;
  armJointGoal : list Cxx.double;
  expectedQuality : Cxx.double;
  planningCost : Cxx.double;
  tcpPoseGoal : Pose3D.t;
  cameraPose : Pose3D.t;
  cameraId : Qt.QString
}.
Definition init : t :=
  {| pointId := 0; groupId := ""; agvPose := Pose2D.init;
     armPose := Pose3D.init; armJointGoal := repeat Cxx.zero 6;
     expectedQuality := Cxx.zero; planningCost := Cxx.zero;
     tcpPoseGoal := Pose3D.init; cameraPose := Pose3D.init; cameraId := "" |}.
End InspectionPoint.

Module InspectionPath.
Record t : Type := {
  waypoints : list InspectionPoint.t;
  totalPoints : Z;
  estimatedDistanceM : Cxx.double;
  estimatedDurationS : Cxx.double
}.
Definition init : t :=
  {| waypoints := []; totalPoints := 0; estimatedDistanceM := Cxx.zero;
     estimatedDurationS := Cxx.zero |}.
End InspectionPath.

Module PlanningWeights.
Record t : Type := {
  wAgvDistance : Cxx.double;
  wJointDelta : Cxx.double;
  wManipulability : Cxx.double;
  wViewError : Cxx.double;
  wJointLimit : Cxx.double
}.
Definition init : t :=
  {| wAgvDistance := Cxx.zero; wJointDelta := Cxx.zero;
     wManipulability := Cxx.zero; wViewError := Cxx.zero;
     wJointLimit := Cxx.zero |}.
End PlanningWeights.

Module PlanOptions.
Record t : Type := {
  candidateRadiusM : Cxx.double;
  candidateYawStepDeg : Cxx.double;
  enableCollisionCheck : bool;
  enableTspOptimization : bool;
  ikSolver : Qt.QString;
  weights : PlanningWeights.t
}.
Definition init : t :=
  {| candidateRadiusM := Cxx.zero; candidateYawStepDeg := Cxx.zero;
     enableCollisionCheck := true; enableTspOptimization := true;
     ikSolver := ""; weights := PlanningWeights.init |}.
End PlanOptions.

Module PlanningStatistics.
Record t : Type := {
  candidatePoseCount : Z;
  ikSuccessCount : Z;
  collisionFilteredCount : Z;
  planningTimeMs : Cxx.double
}.
Definition init : t :=
  {| candidatePoseCount := 0; ikSuccessCount := 0;
     collisionFilteredCount := 0; planningTimeMs := Cxx.zero |}.
End PlanningStatistics.

Module TaskPhase.
Inductive t : Type :=
| Unspecified | Idle | Localizing | Planning | Executing | Paused | Completed
| Failed | Stopped.

Definition value (p : t) : Z :=
  match p with
  | Unspecified => 0 | Idle => 1 | Localizing => 2 | Planning => 3
  | Executing => 4 | Paused => 5 | Completed => 6 | Failed => 7
  | Stopped => 8
  end.
End TaskPhase.

Module AgvStatus.
Record t : Type := {
  connected : bool;
  arrived : bool;
  moving : bool;
  stopped : bool;
  currentPose : Pose2D.t;
  batteryPercent : Cxx.float;
  errorCode : Qt.QString;
  linearVelocityMps : Cxx.float;
  angularVelocityRps : Cxx.float;
  goalPose : Pose2D.t;
  mapId : Qt.QString;
  localizationQuality : Cxx.float
}.
Definition init : t :=
  {| connected := false; arrived := false; moving := false; stopped := false;
     currentPose := Pose2D.init; batteryPercent := Cxx.zerof; errorCode := "";
     linearVelocityMps := Cxx.zerof; angularVelocityRps := Cxx.zerof;
     goalPose := Pose2D.init; mapId := ""; localizationQuality := Cxx.zerof |}.
End AgvStatus.

Module ArmStatus.
Record t : Type := {
  connected : bool;
  arrived : bool;
  moving : bool;
  currentJoints : list Cxx.double;
  manipulability : Cxx.double;
  errorCode : Qt.QString;
  servoEnabled : bool;
  tcpPose : Pose3D.t;
  basePose : Pose3D.t
}.
Definition init : t :=
  {| connected := false; arrived := false; moving := false;
     currentJoints := repeat Cxx.zero 6; manipulability := Cxx.zero;
     errorCode := ""; servoEnabled := false; tcpPose := Pose3D.init;
     basePose := Pose3D.init |}.
End ArmStatus.

Module TaskStatus.
Record t : Type := {
  taskId : Qt.QString;
  phase : TaskPhase.t;
  progressPercent : Cxx.float;
  currentAction : Qt.QString;
  errorMessage : Qt.QString;
  agv : AgvStatus.t;
  arm : ArmStatus.t;
  updatedAt : Qt.QDateTime;
  planId : Qt.QString;
  taskName : Qt.QString;
  currentWaypointIndex : Z;
  currentPointId : Z;
  totalWaypoints : Z;
  interlockOk : bool;
  interlockMessage : Qt.QString;
  remainingTimeEstS : Cxx.double;
  startedAt : Qt.QDateTime;
  finishedAt : Qt.QDateTime
}.
Definition init : t :=
  {| taskId := ""; phase := TaskPhase.Unspecified;
     progressPercent := Cxx.zerof; currentAction := ""; errorMessage := "";
     agv := AgvStatus.init; arm := ArmStatus.init;
     updatedAt := Qt.QDateTime_null; planId := ""; taskName := "";
     currentWaypointIndex := 0; currentPointId := 0; totalWaypoints := 0;
     interlockOk := false; interlockMessage := "";
     remainingTimeEstS := Cxx.zero; startedAt := Qt.QDateTime_null;
     finishedAt := Qt.QDateTime_null |}.
End TaskStatus.

Module InspectionEventType.
Inductive t : Type :=
| Unspecified | Info | Warn | Error | Captured | DefectFound.

Definition value (e : t) : Z :=
  match e with
  | Unspecified => 0 | Info => 1 | Warn => 2 | Error => 3 | Captured => 4
  | DefectFound => 5
  end.
End InspectionEventType.

Module InspectionEvent.
Record t : Type := {
  taskId : Qt.QString;
  pointId : Z;
  type : InspectionEventType.t;
  message : Qt.QString;
  defect : DefectResult.t;
  timestamp : Qt.QDateTime;
  captureId : Qt.QString;
  cameraId : Qt.QString;
  image : ImageRef.t;
  defects : list DefectResult.t;
  cameraPose : Pose3D.t
}.
Definition init : t :=
  {| taskId := ""; pointId := 0; type := InspectionEventType.Unspecified;
     message := ""; defect := DefectResult.init;
     timestamp := Qt.QDateTime_null; captureId := ""; cameraId := "";
     image := ImageRef.init; defects := []; cameraPose := Pose3D.init |}.
End InspectionEvent.

Module CaptureRecord.
Record t : Type := {
  taskId : Qt.QString;
  pointId : Z;
  captureId : Qt.QString;
  cameraId : Qt.QString;
  image : ImageRef.t;
  defects : list DefectResult.t;
  capturedAt : Qt.QDateTime
}.
Definition init : t :=
  {| taskId := ""; pointId := 0; captureId := ""; cameraId := "";
     image := ImageRef.init; defects := []; capturedAt := Qt.QDateTime_null |}.
End CaptureRecord.

Module NavMapInfo.
Record t : Type := {
  mapId : Qt.QString;
  name : Qt.QString;
  resolutionMPerPixel : Cxx.double;
  width : Z;
  height : Z;
  origin : Pose2D.t;
  image : ImageRef.t;
  updatedAt : Qt.QDateTime
}.
Definition init : t :=
  {| mapId := ""; name := ""; resolutionMPerPixel := Cxx.zero; width := 0;
     height := 0; origin := Pose2D.init; image := ImageRef.init;
     updatedAt := Qt.QDateTime_null |}.
End NavMapInfo.

Module PlanResponse.
Record t : Type := {
  result : Result.t;
  planId : Qt.QString;
  path : InspectionPath.t;
  stats : PlanningStatistics.t
}.
Definition init : t :=
  {| result := Result.init; planId := ""; path := InspectionPath.init;
     stats := PlanningStatistics.init |}.
Definition set_result (r : Result.t) (p : t) : t :=
  {| result := r; planId := planId p; path := path p; stats := stats p |}.
End PlanResponse.

Module GetPlanResponse.
Record t : Type := {
  result : Result.t;
  planId : Qt.QString;
  modelId : Qt.QString;
  taskName : Qt.QString;
  options : PlanOptions.t;
  path : InspectionPath.t;
  stats : PlanningStatistics.t;
  createdAt : Qt.QDateTime
}.
Definition init : t :=
  {| result := Result.init; planId := ""; modelId := ""; taskName := "";
     options := PlanOptions.init; path := InspectionPath.init;
     stats := PlanningStatistics.init; createdAt := Qt.QDateTime_null |}.
Definition set_result (r : Result.t) (p : t) : t :=
  {| result := r; planId := planId p; modelId := modelId p;
     taskName := taskName p; options := options p; path := path p;
     stats := stats p; createdAt := createdAt p |}.
End GetPlanResponse.

End hmi.

(* ====================================================================== *)
(** ** GatewayClient.cpp: conversion helpers *)
(* ====================================================================== *)

(** [fromTimestamp]: the zero wire value becomes the null [QDateTime]; any
    other becomes the instant [seconds] after the epoch. *)
Definition fromTimestamp (ts : proto.Timestamp) : Qt.QDateTime :=
  if (proto.seconds ts =? 0) && (proto.nanos ts =? 0) then Qt.QDateTime_null
  else
    let dt := Qt.QDateTime_null in
    Qt.setSecsSinceEpoch dt (Cxx.to_qint64 (proto.seconds ts)).

(** Modelled from the spec: the sources convert timestamps from the wire
    only; the spec speaks of "converting an absent domain timestamp to wire
    format" and of a wire timestamp that "round-trips to the same
    second-resolution instant".  The way back sends the absent value to the
    zero wire value and an instant to its whole seconds. *)
Definition toTimestamp (dt : Qt.QDateTime) : proto.Timestamp :=
  if Qt.isNull dt then {| proto.seconds := 0; proto.nanos := 0 |}
  else {| proto.seconds := Qt.toSecsSinceEpoch dt; proto.nanos := 0 |}.

Definition fromProtoError (ec : proto.ErrorCode) : hmi.ErrorCode.t :=
  if ec =? proto.OK then hmi.ErrorCode.Ok
  else if ec =? proto.INVALID_ARGUMENT then hmi.ErrorCode.InvalidArgument
  else if ec =? proto.NOT_FOUND then hmi.ErrorCode.NotFound
  else if ec =? proto.TIMEOUT then hmi.ErrorCode.Timeout
  else if ec =? proto.BUSY then hmi.ErrorCode.Busy
  else if ec =? proto.INTERNAL then hmi.ErrorCode.Internal
  else if ec =? proto.UNAVAILABLE then hmi.ErrorCode.Unavailable
  else if ec =? proto.CONFLICT then hmi.ErrorCode.Conflict
  else hmi.ErrorCode.Unspecified.

Definition fromProtoResult (r : proto.Result) : hmi.Result.t :=
  {| hmi.Result.code := fromProtoError (proto.code r);
     hmi.Result.message := Qt.fromStdString (proto.message r) |}.

(** [fromGrpcStatus]: starts from a default [Result] and fills it in. *)
Definition fromGrpcStatus (st : grpc.Status) : hmi.Result.t :=
  let out := hmi.Result.init in
  if grpc.ok st then
    {| hmi.Result.code := hmi.ErrorCode.Ok;
       hmi.Result.message := hmi.Result.message out |}
  else
    {| hmi.Result.code := hmi.ErrorCode.Internal;
       hmi.Result.message := Qt.fromStdString (grpc.error_message st) |}.

Definition fromProtoTaskPhase (ph : proto.TaskPhase) : hmi.TaskPhase.t :=
  if ph =? proto.IDLE then hmi.TaskPhase.Idle
  else if ph =? proto.LOCALIZING then hmi.TaskPhase.Localizing
  else if ph =? proto.PLANNING then hmi.TaskPhase.Planning
  else if ph =? proto.EXECUTING then hmi.TaskPhase.Executing
  else if ph =? proto.PAUSED then hmi.TaskPhase.Paused
  else if ph =? proto.COMPLETED then hmi.TaskPhase.Completed
  else if ph =? proto.FAILED then hmi.TaskPhase.Failed
  else if ph =? proto.STOPPED then hmi.TaskPhase.Stopped
  else hmi.TaskPhase.Unspecified.

Definition fromProtoEventType (et : proto.InspectionEventType)
  : hmi.InspectionEventType.t :=
  if et =? proto.INFO then hmi.InspectionEventType.Info
  else if et =? proto.WARN then hmi.InspectionEventType.Warn
  else if et =? proto.ERROR then hmi.InspectionEventType.Error
  else if et =? proto.CAPTURED then hmi.InspectionEventType.Captured
  else if et =? proto.DEFECT_FOUND then hmi.InspectionEventType.DefectFound
  else hmi.InspectionEventType.Unspecified.

(* ====================================================================== *)
(** ** GatewayClient.h: signals, threads and the object's state *)
(* ====================================================================== *)

Inductive Signal : Type :=
| connectionStateChanged (connected : bool)
| errorOccurred (error : Qt.QString)
| uploadCadProgress (percent : Z)
| uploadCadFinished (result : hmi.Result.t) (modelId : Qt.QString)
| setTargetsFinished (result : hmi.Result.t) (totalTargets : Z)
| planInspectionFinished (response : hmi.PlanResponse.t)
| getPlanFinished (response : hmi.GetPlanResponse.t)
| startInspectionFinished (result : hmi.Result.t) (taskId : Qt.QString)
| controlTaskFinished (result : hmi.Result.t)
| taskStatusReceived (status : hmi.TaskStatus.t)
| systemStateReceived (status : hmi.TaskStatus.t)
| inspectionEventReceived (event : hmi.InspectionEvent.t)
| navMapReceived (result : hmi.Result.t) (mapInfo : hmi.NavMapInfo.t)
| capturesReceived (result : hmi.Result.t)
    (captures : list hmi.CaptureRecord.t)
| mediaDownloaded (mediaId : Qt.QString) (data : Qt.QByteArray).

(** The three control calls differ only in the remote method. *)
Inductive ControlRpcFn : Type :=
| PauseInspection | ResumeInspection | StopInspection.

(** The body a [std::thread] was constructed with, with what it captured. *)
Inductive Job : Type :=
| Job_uploadCad (path : Qt.QString) (stub : grpc.Stub)
| Job_setInspectionTargets (stub : grpc.Stub) (modelId : Qt.QString)
    (targets : list hmi.InspectionTarget.t) (config : hmi.CaptureConfig.t)
    (operatorId : Qt.QString)
| Job_planInspection (stub : grpc.Stub) (modelId taskName : Qt.QString)
    (options : hmi.PlanOptions.t)
| Job_getPlan (stub : grpc.Stub) (planId : Qt.QString)
| Job_startInspection (stub : grpc.Stub) (planId : Qt.QString) (dryRun : bool)
| Job_runControlRpc (stub : grpc.Stub) (taskId reason : Qt.QString)
    (fn : ControlRpcFn)
| Job_getTaskStatus (stub : grpc.Stub) (taskId : Qt.QString)
| Job_subscribeSystemState (stub : grpc.Stub) (taskId : Qt.QString)
| Job_subscribeInspectionEvents (stub : grpc.Stub) (taskId : Qt.QString)
| Job_getNavMap (stub : grpc.Stub) (mapId : Qt.QString)
| Job_listCaptures (stub : grpc.Stub) (taskId : Qt.QString) (pointId : Z)
| Job_downloadMedia (stub : grpc.Stub) (mediaId : Qt.QString)
| Job_connectionMonitor.

(** A [std::thread] object: joinable exactly while it holds a body that was
    neither joined nor detached. *)
Record thread : Type := { body : option Job }.

Definition thread_default : thread := {| body := None |}.

Definition joinable (t : thread) : bool :=
  match body t with Some _ => true | None => false end.

(** What happens to the world outside the object while a method runs: the
    signals queued, by the calling thread or by the monitor thread before
    the caller has joined it, and the threads the caller starts, detaches
    and joins. *)
Inductive Action : Type :=
| Queued (sig : Signal)
| Started (job : Job)
| Detached (job : Job)
| Joined (job : Job).

Record GatewayClient : Type := {
  m_address : Qt.QString;
  m_channel : option grpc.Channel;
  m_stub : option grpc.Stub;
  m_workers : list thread;
  m_sysStateThread : thread;
  m_eventsThread : thread;
  m_downloadThread : thread;
  m_connMonitorThread : thread;
  m_sysStateCtx : option grpc.ClientContext;
  m_eventsCtx : option grpc.ClientContext;
  m_downloadCtx : option grpc.ClientContext;
  m_stopMonitor : bool;
  m_connected : bool
}.

(** The object as its declaration initialises it, before any connect. *)
Definition GatewayClient_init : GatewayClient :=
  {| m_address := ""; m_channel := None; m_stub := None; m_workers := [];
     m_sysStateThread := thread_default; m_eventsThread := thread_default;
     m_downloadThread := thread_default;
     m_connMonitorThread := thread_default;
     m_sysStateCtx := None; m_eventsCtx := None; m_downloadCtx := None;
     m_stopMonitor := false; m_connected := false |}.

Definition set_session (a : Qt.QString) (ch : option grpc.Channel)
  (st : option grpc.Stub) (c : GatewayClient) : GatewayClient :=
  {| m_address := a; m_channel := ch; m_stub := st;
     m_workers := m_workers c;
     m_sysStateThread := m_sysStateThread c;
     m_eventsThread := m_eventsThread c;
     m_downloadThread := m_downloadThread c;
     m_connMonitorThread := m_connMonitorThread c;
     m_sysStateCtx := m_sysStateCtx c; m_eventsCtx := m_eventsCtx c;
     m_downloadCtx := m_downloadCtx c;
     m_stopMonitor := m_stopMonitor c; m_connected := m_connected c |}.

Definition set_m_workers (w : list thread) (c : GatewayClient)
  : GatewayClient :=
  {| m_address := m_address c; m_channel := m_channel c; m_stub := m_stub c;
     m_workers := w;
     m_sysStateThread := m_sysStateThread c;
     m_eventsThread := m_eventsThread c;
     m_downloadThread := m_downloadThread c;
     m_connMonitorThread := m_connMonitorThread c;
     m_sysStateCtx := m_sysStateCtx c; m_eventsCtx := m_eventsCtx c;
     m_downloadCtx := m_downloadCtx c;
     m_stopMonitor := m_stopMonitor c; m_connected := m_connected c |}.

Definition set_threads (sys ev dl mon : thread) (c : GatewayClient)
  : GatewayClient :=
  {| m_address := m_address c; m_channel := m_channel c; m_stub := m_stub c;
     m_workers := m_workers c;
     m_sysStateThread := sys; m_eventsThread := ev; m_downloadThread := dl;
     m_connMonitorThread := mon;
     m_sysStateCtx := m_sysStateCtx c; m_eventsCtx := m_eventsCtx c;
     m_downloadCtx := m_downloadCtx c;
     m_stopMonitor := m_stopMonitor c; m_connected := m_connected c |}.

Definition set_contexts (sys ev dl : option grpc.ClientContext)
  (c : GatewayClient) : GatewayClient :=
  {| m_address := m_address c; m_channel := m_channel c; m_stub := m_stub c;
     m_workers := m_workers c;
     m_sysStateThread := m_sysStateThread c;
     m_eventsThread := m_eventsThread c;
     m_downloadThread := m_downloadThread c;
     m_connMonitorThread := m_connMonitorThread c;
     m_sysStateCtx := sys; m_eventsCtx := ev; m_downloadCtx := dl;
     m_stopMonitor := m_stopMonitor c; m_connected := m_connected c |}.

Definition set_flags (stop conn : bool) (c : GatewayClient) : GatewayClient :=
  {| m_address := m_address c; m_channel := m_channel c; m_stub := m_stub c;
     m_workers := m_workers c;
     m_sysStateThread := m_sysStateThread c;
     m_eventsThread := m_eventsThread c;
     m_downloadThread := m_downloadThread c;
     m_connMonitorThread := m_connMonitorThread c;
     m_sysStateCtx := m_sysStateCtx c; m_eventsCtx := m_eventsCtx c;
     m_downloadCtx := m_downloadCtx c;
     m_stopMonitor := stop; m_connected := conn |}.

Definition set_m_sysStateThread (t : thread) (c : GatewayClient) :=
  set_threads t (m_eventsThread c) (m_downloadThread c)
    (m_connMonitorThread c) c.
Definition set_m_eventsThread (t : thread) (c : GatewayClient) :=
  set_threads (m_sysStateThread c) t (m_downloadThread c)
    (m_connMonitorThread c) c.
Definition set_m_downloadThread (t : thread) (c : GatewayClient) :=
  set_threads (m_sysStateThread c) (m_eventsThread c) t
    (m_connMonitorThread c) c.
Definition set_m_connMonitorThread (t : thread) (c : GatewayClient) :=
  set_threads (m_sysStateThread c) (m_eventsThread c) (m_downloadThread c)
    t c.
Definition set_m_sysStateCtx (x : option grpc.ClientContext)
  (c : GatewayClient) := set_contexts x (m_eventsCtx c) (m_downloadCtx c) c.
Definition set_m_eventsCtx (x : option grpc.ClientContext)
  (c : GatewayClient) := set_contexts (m_sysStateCtx c) x (m_downloadCtx c) c.
Definition set_m_downloadCtx (x : option grpc.ClientContext)
  (c : GatewayClient) := set_contexts (m_sysStateCtx c) (m_eventsCtx c) x c.
Definition set_m_stopMonitor (b : bool) (c : GatewayClient) :=
  set_flags b (m_connected c) c.
Definition set_m_connected (b : bool) (c : GatewayClient) :=
  set_flags (m_stopMonitor c) b c.

(* ====================================================================== *)
(** ** The monad of the methods *)
(* ====================================================================== *)

(** A method takes the object and returns its result, the object as it
    leaves it, and the actions of the calling thread, in order. *)
Definition M (A : Type) : Type :=
  GatewayClient -> A * GatewayClient * list Action.

Definition ret {A : Type} (a : A) : M A := fun c => (a, c, []).

Definition bind {A B : Type} (m : M A) (k : A -> M B) : M B :=
  fun c =>
    let '(a, c1, t1) := m c in
    let '(b, c2, t2) := k a c1 in
    (b, c2, t1 ++ t2).

Declare Scope gateway_scope.
Delimit Scope gateway_scope with gateway.
Notation "x <- m ;; k" := (bind m (fun x => k))
  (at level 61, m at next level, right associativity) : gateway_scope.
Notation "m ;; k" := (bind m (fun _ => k))
  (at level 61, right associativity) : gateway_scope.
Open Scope gateway_scope.

Definition gets {A : Type} (f : GatewayClient -> A) : M A :=
  fun c => (f c, c, []).

Definition modify (f : GatewayClient -> GatewayClient) : M unit :=
  fun c => (tt, f c, []).

Definition act (a : Action) : M unit := fun c => (tt, c, [a]).

Definition when (b : bool) (m : M unit) : M unit := if b then m else ret tt.

(** [QMetaObject::invokeMethod(this, [..]{ emit sig; }, Qt::QueuedConnection)]. *)
Definition invokeMethod (sig : Signal) : M unit := act (Queued sig).

(** [std::thread worker(body)]: the thread starts. *)
Definition std_thread (job : Job) : M thread :=
  act (Started job) ;; ret {| body := Some job |}.

(** [t.join()] on a thread: waits for its body; the object is empty after. *)
Definition join (t : thread) : M thread :=
  match body t with
  | Some job => act (Joined job) ;; ret thread_default
  | None => ret t
  end.

(** [t.detach()]. *)
Definition detach (t : thread) : M thread :=
  match body t with
  | Some job => act (Detached job) ;; ret thread_default
  | None => ret t
  end.

Definition run {A : Type} (m : M A) (c : GatewayClient)
  : A * GatewayClient * list Action := m c.

Definition state_after {A : Type} (m : M A) (c : GatewayClient)
  : GatewayClient := snd (fst (m c)).

Definition actions_of {A : Type} (m : M A) (c : GatewayClient)
  : list Action := snd (m c).

(** The signals among a thread's actions, in the order they were queued. *)
Fixpoint queued (acts : list Action) : list Signal :=
  match acts with
  | [] => []
  | Queued sig :: rest => sig :: queued rest
  | _ :: rest => queued rest
  end.

(** The threads a list of actions started. *)
Fixpoint started (acts : list Action) : list Job :=
  match acts with
  | [] => []
  | Started job :: rest => job :: started rest
  | _ :: rest => started rest
  end.

(* ====================================================================== *)
(** ** GatewayClient.cpp: queries and connection management *)
(* ====================================================================== *)

Definition isConnected (c : GatewayClient) : bool := m_connected c.

Definition currentAddress (c : GatewayClient) : Qt.QString := m_address c.

Definition cancel (ctx : option grpc.ClientContext)
  : option grpc.ClientContext :=
  match ctx with
  | Some x => Some (grpc.TryCancel x)
  | None => None
  end.

Definition cancelAllContexts : M unit :=
  modify (fun c => set_m_sysStateCtx (cancel (m_sysStateCtx c)) c) ;;
  modify (fun c => set_m_eventsCtx (cancel (m_eventsCtx c)) c) ;;
  modify (fun c => set_m_downloadCtx (cancel (m_downloadCtx c)) c).

(** [if (t.joinable()) { t.join(); }] on a member thread. *)
Definition join_member (get : GatewayClient -> thread)
  (set : thread -> GatewayClient -> GatewayClient) : M unit :=
  t <- gets get ;;
  if joinable t then (t' <- join t ;; modify (set t')) else ret tt.

Definition stopSubscriptions : M unit :=
  cancelAllContexts ;;
  join_member m_sysStateThread set_m_sysStateThread ;;
  join_member m_eventsThread set_m_eventsThread ;;
  join_member m_downloadThread set_m_downloadThread.

Fixpoint join_each (workers : list thread) : M unit :=
  match workers with
  | [] => ret tt
  | t :: rest =>
      (if joinable t then (_ <- join t ;; ret tt) else ret tt) ;;
      join_each rest
  end.

(** [joinAllWorkers]: the vector is moved out of the object, then joined. *)
Definition joinAllWorkers : M unit :=
  workers <- gets m_workers ;;
  modify (set_m_workers []) ;;
  join_each workers.

Definition startConnectionMonitor : M unit :=
  modify (set_m_stopMonitor false) ;;
  t <- std_thread Job_connectionMonitor ;;
  modify (set_m_connMonitorThread t).

(** What the monitor thread does on its own while the caller is on its way
    to join it: for each readiness it sees change, in order, the store into
    [m_connected] and the notification it queues. *)
Fixpoint monitor_turns (stores : list bool) : M unit :=
  match stores with
  | [] => ret tt
  | nowReady :: rest =>
      modify (set_m_connected nowReady) ;;
      invokeMethod (connectionStateChanged nowReady) ;;
      monitor_turns rest
  end.

(** [stopConnectionMonitor]: the monitor thread runs until it is joined.
    [stores] are the values it stores into [m_connected] from the moment
    the caller entered the method that stops it; nothing else reads or
    writes the flag before the join returns. *)
Definition stopConnectionMonitor (stores : list bool) : M unit :=
  modify (set_m_stopMonitor true) ;;
  t <- gets m_connMonitorThread ;;
  if joinable t then
    (monitor_turns stores ;;
     t' <- join t ;;
     modify (set_m_connMonitorThread t'))
  else ret tt.

(** [m_connected.exchange(v)]. *)
Definition exchange_m_connected (v : bool) : M bool :=
  old <- gets m_connected ;;
  modify (set_m_connected v) ;;
  ret old.

(** [disconnectFromGateway], with what the monitor thread stores while it
    runs. *)
Definition disconnectFromGateway (stores : list bool) : M unit :=
  stopSubscriptions ;;
  stopConnectionMonitor stores ;;
  joinAllWorkers ;;
  modify (set_session "" None None) ;;
  was <- exchange_m_connected false ;;
  if was then invokeMethod (connectionStateChanged false) else ret tt.

Definition connectToGateway (address : Qt.QString) (stores : list bool)
  : M unit :=
  disconnectFromGateway stores ;;
  (let ch := {| grpc.target := Qt.toStdString address |} in
   modify (set_session address (Some ch)
             (Some {| grpc.stub_channel := ch |}))) ;;
  startConnectionMonitor.

(** [reapFinishedWorkers]: erase the threads that are not joinable. *)
Definition reapFinishedWorkers (workers : list thread) : list thread :=
  filter joinable workers.

(** The closing block of a tracked call: reap, then [push_back]. *)
Definition track (worker : thread) : M unit :=
  modify (fun c =>
    set_m_workers (reapFinishedWorkers (m_workers c) ++ [worker]) c).

Definition not_connected : hmi.Result.t :=
  {| hmi.Result.code := hmi.ErrorCode.Unavailable;
     hmi.Result.message := "Not connected" |}.

(* ====================================================================== *)
(** ** GatewayClient.cpp: the one-shot calls *)
(* ====================================================================== *)

Definition uploadCad (filePath : Qt.QString) : M unit :=
  _ <- gets m_channel ;;
  stub <- gets m_stub ;;
  match stub with
  | None =>
      let r := not_connected in
      invokeMethod (uploadCadFinished r "")
  | Some stub =>
      let path := filePath in
      worker <- std_thread (Job_uploadCad path stub) ;;
      track worker
  end.

Definition setInspectionTargets (modelId : Qt.QString)
  (targets : list hmi.InspectionTarget.t) (config : hmi.CaptureConfig.t)
  (operatorId : Qt.QString) : M unit :=
  stub <- gets m_stub ;;
  match stub with
  | None =>
      let r := not_connected in
      invokeMethod (setTargetsFinished r 0)
  | Some stub =>
      worker <- std_thread
        (Job_setInspectionTargets stub modelId targets config operatorId) ;;
      track worker
  end.

Definition planInspection (modelId taskName : Qt.QString)
  (options : hmi.PlanOptions.t) : M unit :=
  stub <- gets m_stub ;;
  match stub with
  | None =>
      let resp :=
        hmi.PlanResponse.set_result not_connected hmi.PlanResponse.init in
      invokeMethod (planInspectionFinished resp)
  | Some stub =>
      worker <- std_thread (Job_planInspection stub modelId taskName options) ;;
      track worker
  end.

Definition getPlan (planId : Qt.QString) : M unit :=
  stub <- gets m_stub ;;
  match stub with
  | None =>
      let r :=
        hmi.GetPlanResponse.set_result not_connected
          hmi.GetPlanResponse.init in
      invokeMethod (getPlanFinished r)
  | Some stub =>
      worker <- std_thread (Job_getPlan stub planId) ;;
      track worker
  end.

Definition startInspection (planId : Qt.QString) (dryRun : bool) : M unit :=
  stub <- gets m_stub ;;
  match stub with
  | None =>
      let r := not_connected in
      invokeMethod (startInspectionFinished r "")
  | Some stub =>
      worker <- std_thread (Job_startInspection stub planId dryRun) ;;
      track worker
  end.

(** [runControlRpc]: the thread is started and detached, not tracked. *)
Definition runControlRpc (stub : grpc.Stub) (taskId reason : Qt.QString)
  (fn : ControlRpcFn) : M unit :=
  worker <- std_thread (Job_runControlRpc stub taskId reason fn) ;;
  _ <- detach worker ;;
  ret tt.

Definition controlInspection (fn : ControlRpcFn)
  (taskId reason : Qt.QString) : M unit :=
  stub <- gets m_stub ;;
  match stub with
  | None =>
      let r := not_connected in
      invokeMethod (controlTaskFinished r)
  | Some stub => runControlRpc stub taskId reason fn
  end.

Definition pauseInspection : Qt.QString -> Qt.QString -> M unit :=
  controlInspection PauseInspection.
Definition resumeInspection : Qt.QString -> Qt.QString -> M unit :=
  controlInspection ResumeInspection.
Definition stopInspection : Qt.QString -> Qt.QString -> M unit :=
  controlInspection StopInspection.

Definition getTaskStatus (taskId : Qt.QString) : M unit :=
  stub <- gets m_stub ;;
  match stub with
  | None => invokeMethod (errorOccurred "GetTaskStatus: not connected")
  | Some stub =>
      worker <- std_thread (Job_getTaskStatus stub taskId) ;;
      track worker
  end.

Definition getNavMap (mapId : Qt.QString) : M unit :=
  stub <- gets m_stub ;;
  match stub with
  | None =>
      let r := not_connected in
      let empty := hmi.NavMapInfo.init in
      invokeMethod (navMapReceived r empty)
  | Some stub =>
      worker <- std_thread (Job_getNavMap stub mapId) ;;
      track worker
  end.

Definition listCaptures (taskId : Qt.QString) (pointId : Z) : M unit :=
  stub <- gets m_stub ;;
  match stub with
  | None =>
      let r := not_connected in
      invokeMethod (capturesReceived r [])
  | Some stub =>
      worker <- std_thread (Job_listCaptures stub taskId pointId) ;;
      track worker
  end.

(** The one-shot calls with their arguments, to speak of all of them. *)
Inductive OneShotCall : Type :=
| Call_uploadCad (filePath : Qt.QString)
| Call_setInspectionTargets (modelId : Qt.QString)
    (targets : list hmi.InspectionTarget.t) (config : hmi.CaptureConfig.t)
    (operatorId : Qt.QString)
| Call_planInspection (modelId taskName : Qt.QString)
    (options : hmi.PlanOptions.t)
| Call_getPlan (planId : Qt.QString)
| Call_startInspection (planId : Qt.QString) (dryRun : bool)
| Call_pauseInspection (taskId reason : Qt.QString)
| Call_resumeInspection (taskId reason : Qt.QString)
| Call_stopInspection (taskId reason : Qt.QString)
| Call_getTaskStatus (taskId : Qt.QString)
| Call_getNavMap (mapId : Qt.QString)
| Call_listCaptures (taskId : Qt.QString) (pointId : Z).

Definition invoke (call : OneShotCall) : M unit :=
  match call with
  | Call_uploadCad filePath => uploadCad filePath
  | Call_setInspectionTargets modelId targets config operatorId =>
      setInspectionTargets modelId targets config operatorId
  | Call_planInspection modelId taskName options =>
      planInspection modelId taskName options
  | Call_getPlan planId => getPlan planId
  | Call_startInspection planId dryRun => startInspection planId dryRun
  | Call_pauseInspection taskId reason => pauseInspection taskId reason
  | Call_resumeInspection taskId reason => resumeInspection taskId reason
  | Call_stopInspection taskId reason => stopInspection taskId reason
  | Call_getTaskStatus taskId => getTaskStatus taskId
  | Call_getNavMap mapId => getNavMap mapId
  | Call_listCaptures taskId pointId => listCaptures taskId pointId
  end.

(** The [Result] a signal carries, for the signals that carry one. *)
Definition result_of (sig : Signal) : option hmi.Result.t :=
  match sig with
  | uploadCadFinished r _ | setTargetsFinished r _
  | startInspectionFinished r _ | controlTaskFinished r
  | navMapReceived r _ | capturesReceived r _ => Some r
  | planInspectionFinished resp => Some (hmi.PlanResponse.result resp)
  | getPlanFinished resp => Some (hmi.GetPlanResponse.result resp)
  | _ => None
  end.

(** Whether a completion signal carries, next to its [Result], only what a
    default construction gives.  The signals that complete no one-shot call
    are left out. *)
Definition zero_payload (sig : Signal) : Prop :=
  match sig with
  | uploadCadFinished _ modelId => modelId = ""
  | setTargetsFinished _ totalTargets => totalTargets = 0
  | planInspectionFinished resp =>
      resp = hmi.PlanResponse.set_result (hmi.PlanResponse.result resp)
               hmi.PlanResponse.init
  | getPlanFinished resp =>
      resp = hmi.GetPlanResponse.set_result (hmi.GetPlanResponse.result resp)
               hmi.GetPlanResponse.init
  | startInspectionFinished _ taskId => taskId = ""
  | controlTaskFinished _ => True
  | taskStatusReceived status => status = hmi.TaskStatus.init
  | navMapReceived _ mapInfo => mapInfo = hmi.NavMapInfo.init
  | capturesReceived _ captures => captures = []
  | _ => False
  end.

(* ====================================================================== *)
(** ** GatewayClient.cpp: the upload thread *)
(* ====================================================================== *)

(** The client-streaming call as the thread meets it: what [Write] returns
    for a chunk, what [Finish] reports, and the response the server filled
    in. *)
Record ClientWriter : Type := {
  Write : proto.UploadCadChunk -> bool;
  Finish : grpc.Status;
  response : proto.UploadCadResponse
}.

(** How the thread left the read loop: it could not open the file, the
    loop condition found the end of the file, a read returned nothing
    ([break]), or [Write] returned false ([return]). *)
Inductive LoopExit : Type :=
| CannotOpen | AtEnd | EmptyRead | StreamBroken.

(** What the thread has done when it returns: the chunks handed to [Write]
    and the signals queued, both in order, and how it left the loop. *)
Record UploadRun : Type := {
  sent : list proto.UploadCadChunk;
  signals : list Signal;
  exit : LoopExit
}.

Definition CHUNK_SIZE : Z := 64 * 1024.

(** The [while (!file.atEnd())] loop, on the buffers still to be read. *)
Fixpoint upload_loop (writer : ClientWriter) (uploadId filename : string)
  (totalBytes : Z) (to_read : list Qt.QByteArray)
  (bytesSent chunkIndex lastPercent : Z) {struct to_read} : UploadRun :=
  match to_read with
  | [] => {| sent := []; signals := []; exit := AtEnd |}
  | next :: rest =>
      let buf := Qt.read CHUNK_SIZE next in
      if Qt.isEmpty buf then
        {| sent := []; signals := []; exit := EmptyRead |}
      else
        let chunk :=
          {| proto.upload_id := uploadId;
             proto.filename := filename;
             proto.data := buf;
             proto.chunk_index := chunkIndex;
             proto.eof := Qt.atEnd rest |} in
        let chunkIndex := Cxx.to_uint32 (chunkIndex + 1) in
        let bytesSent := Cxx.to_qint64 (bytesSent + Qt.size buf) in
        if negb (Write writer chunk) then
          let r :=
            {| hmi.Result.code := hmi.ErrorCode.Internal;
               hmi.Result.message :=
                 ("Stream write failed at chunk "
                  ++ Qt.number (Cxx.to_uint32 (chunkIndex - 1)))%string |} in
          {| sent := [chunk];
             signals := [uploadCadFinished r ""];
             exit := StreamBroken |}
        else
          let pct :=
            Cxx.to_int (Z.quot (Cxx.to_qint64 (bytesSent * 100)) totalBytes) in
          let report := (0 <? totalBytes) && negb (pct =? lastPercent) in
          let lastPercent := if report then pct else lastPercent in
          let run :=
            upload_loop writer uploadId filename totalBytes rest
              bytesSent chunkIndex lastPercent in
          {| sent := chunk :: sent run;
             signals :=
               (if report then [uploadCadProgress pct] else [])
               ++ signals run;
             exit := exit run |}
  end.

(** What follows the loop: [WritesDone], [Finish], and the result and model
    identifier made of the server's answer or of the transport's failure. *)
Definition finish_upload (writer : ClientWriter) : hmi.Result.t * Qt.QString :=
  let st := Finish writer in
  if grpc.ok st then
    (fromProtoResult (proto.result (response writer)),
     Qt.fromStdString (proto.model_id (response writer)))
  else (fromGrpcStatus st, "").

(** The body of the thread [uploadCad] starts.  [uploadId] is the identifier
    [QUuid::createUuid] produced. *)
Definition uploadCad_thread (path : Qt.QString) (uploadId : string)
  (file : Qt.QFile) (writer : ClientWriter) : UploadRun :=
  let filename := Qt.toStdString (Qt.fileName path) in
  if negb (Qt.opens file) then
    let r :=
      {| hmi.Result.code := hmi.ErrorCode.InvalidArgument;
         hmi.Result.message := ("Cannot open file: " ++ path)%string |} in
    {| sent := []; signals := [uploadCadFinished r ""]; exit := CannotOpen |}
  else
    let totalBytes := Qt.file_size file in
    let run :=
      upload_loop writer uploadId filename totalBytes (Qt.pending file)
        0 0 (-1) in
    match exit run with
    | StreamBroken => run
    | _ =>
        let '(r, modelId) := finish_upload writer in
        {| sent := sent run;
           signals := signals run ++ [uploadCadFinished r modelId];
           exit := exit run |}
    end.

(** The percentages among the signals of a run, in order. *)
Fixpoint progress_of (sigs : list Signal) : list Z :=
  match sigs with
  | [] => []
  | uploadCadProgress pct :: rest => pct :: progress_of rest
  | _ :: rest => progress_of rest
  end.

(** The [uploadCadFinished] outcomes among the signals of a run. *)
Fixpoint finished_of (sigs : list Signal) : list (hmi.Result.t * Qt.QString) :=
  match sigs with
  | [] => []
  | uploadCadFinished r modelId :: rest => (r, modelId) :: finished_of rest
  | _ :: rest => finished_of rest
  end.

(** The number of bytes the reads of a script hand out. *)
Definition bytes_of (to_read : list Qt.QByteArray) : Z :=
  fold_right (fun buf n => Qt.size (Qt.read CHUNK_SIZE buf) + n) 0 to_read.

(* ====================================================================== *)
(** ** GatewayClient.cpp: the subscription and download threads *)
(* ====================================================================== *)

(** A server stream as its reader meets it: the messages [Read] yields
    before it returns false, and what [Finish] reports then. *)
Record ClientReader (Wire : Type) : Type := {
  messages : list Wire;
  finish : grpc.Status
}.
Arguments messages {Wire} _.
Arguments finish {Wire} _.

Definition is_cancelled (st : grpc.Status) : bool :=
  grpc.StatusCode_eqb (grpc.error_code st) grpc.CANCELLED.

Section Subscription.

(** The message type of the stream and its conversion to the domain value
    come from the generated header and the field-by-field helpers; the
    thread is the same whatever they are. *)
Variables Wire Item : Type.
Variable convert : Wire -> Item.
Variable received : Item -> Signal.
Variable ended : Qt.QString.

(** The [while (reader->Read(&ev))] loop: one signal per message. *)
Definition forwarded (reader : ClientReader Wire) : list Signal :=
  map (fun ev => received (convert ev)) (messages reader).

Definition subscription_thread (ctx : option grpc.ClientContext)
  (reader : ClientReader Wire) : list Signal :=
  match ctx with
  | None => []
  | Some _ =>
      let items := forwarded reader in
      let st := finish reader in
      if negb (grpc.ok st) && negb (is_cancelled st) then
        let err := Qt.fromStdString (grpc.error_message st) in
        items ++ [errorOccurred (ended ++ err)%string]
      else items
  end.

End Subscription.

Section SubscribeSystemState.
Variable SystemStateEvent : Type.
Variable status_of : SystemStateEvent -> hmi.TaskStatus.t.

(** The body of the thread [subscribeSystemState] starts; [status_of] is
    [fromProtoTaskStatus(ev.status())]. *)
Definition subscribeSystemState_thread
  : option grpc.ClientContext -> ClientReader SystemStateEvent -> list Signal :=
  subscription_thread SystemStateEvent hmi.TaskStatus.t status_of
    systemStateReceived "SubscribeSystemState ended: ".
End SubscribeSystemState.

Section SubscribeInspectionEvents.
Variable InspectionEvent : Type.
Variable fromProtoInspectionEvent : InspectionEvent -> hmi.InspectionEvent.t.

Definition subscribeInspectionEvents_thread
  : option grpc.ClientContext -> ClientReader InspectionEvent -> list Signal :=
  subscription_thread InspectionEvent hmi.InspectionEvent.t
    fromProtoInspectionEvent inspectionEventReceived
    "SubscribeInspectionEvents ended: ".
End SubscribeInspectionEvents.

(** The reassembly loop of the download thread. *)
Definition assemble (chunks : list proto.MediaChunk) : Qt.QByteArray :=
  fold_left
    (fun assembled chunk =>
       let data := proto.chunk_data chunk in
       Qt.append assembled data (Cxx.to_int (Z.of_nat (List.length data))))
    chunks [].

Definition downloadMedia_thread (mediaId : Qt.QString)
  (ctx : option grpc.ClientContext) (reader : ClientReader proto.MediaChunk)
  : list Signal :=
  match ctx with
  | None => []
  | Some _ =>
      let assembled := assemble (messages reader) in
      let st := finish reader in
      if grpc.ok st then [mediaDownloaded mediaId assembled]
      else if negb (is_cancelled st) then
        let err := Qt.fromStdString (grpc.error_message st) in
        [errorOccurred ("DownloadMedia failed: " ++ err)%string]
      else []
  end.

(** The streaming calls themselves: cancel and join the previous instance,
    make a fresh context, and start the thread if there is a stub. *)
Definition subscribeSystemState (taskId : Qt.QString) : M unit :=
  modify (fun c => set_m_sysStateCtx (cancel (m_sysStateCtx c)) c) ;;
  join_member m_sysStateThread set_m_sysStateThread ;;
  stub <- gets m_stub ;;
  modify (set_m_sysStateCtx (Some grpc.ClientContext_new)) ;;
  match stub with
  | None => invokeMethod (errorOccurred "SubscribeSystemState: not connected")
  | Some stub =>
      t <- std_thread (Job_subscribeSystemState stub taskId) ;;
      modify (set_m_sysStateThread t)
  end.

Definition subscribeInspectionEvents (taskId : Qt.QString) : M unit :=
  modify (fun c => set_m_eventsCtx (cancel (m_eventsCtx c)) c) ;;
  join_member m_eventsThread set_m_eventsThread ;;
  stub <- gets m_stub ;;
  modify (set_m_eventsCtx (Some grpc.ClientContext_new)) ;;
  match stub with
  | None =>
      invokeMethod (errorOccurred "SubscribeInspectionEvents: not connected")
  | Some stub =>
      t <- std_thread (Job_subscribeInspectionEvents stub taskId) ;;
      modify (set_m_eventsThread t)
  end.

Definition downloadMedia (mediaId : Qt.QString) : M unit :=
  modify (fun c => set_m_downloadCtx (cancel (m_downloadCtx c)) c) ;;
  join_member m_downloadThread set_m_downloadThread ;;
  stub <- gets m_stub ;;
  modify (set_m_downloadCtx (Some grpc.ClientContext_new)) ;;
  match stub with
  | None => invokeMethod (errorOccurred "DownloadMedia: not connected")
  | Some stub =>
      t <- std_thread (Job_downloadMedia stub mediaId) ;;
      modify (set_m_downloadThread t)
  end.

(** The error notifications, the item notifications of the two
    subscriptions, and the download deliveries among a thread's signals. *)
Definition is_error (sig : Signal) : bool :=
  match sig with errorOccurred _ => true | _ => false end.

Definition is_item (sig : Signal) : bool :=
  match sig with
  | systemStateReceived _ | inspectionEventReceived _ => true
  | _ => false
  end.

Definition is_download (sig : Signal) : bool :=
  match sig with mediaDownloaded _ _ => true | _ => false end.

Definition count (p : Signal -> bool) (sigs : list Signal) : nat :=
  List.length (filter p sigs).

(** What the no-Session rule asks of a call: the object is left as it was,
    the only action of the caller is one queued signal, and that signal
    carries an [Unavailable] result next to default values. *)
Definition no_session_short_circuit (call : OneShotCall) (c : GatewayClient)
  : Prop :=
  exists sig r,
    run (invoke call) c = (tt, c, [Queued sig]) /\
    result_of sig = Some r /\
    hmi.Result.code r = hmi.ErrorCode.Unavailable /\
    zero_payload sig.


(** No value of a list is followed by an equal one. *)
Fixpoint no_adjacent_equal (l : list Z) : Prop :=
  match l with
  | a :: (b :: _) as rest => a <> b /\ no_adjacent_equal rest
  | _ => True
  end.


Definition accepting_writer : ClientWriter :=
  {| Write := fun _ => true;
     Finish := {| grpc.error_code := grpc.OK; grpc.error_message := "" |};
     response :=
       {| proto.result := {| proto.code := proto.OK; proto.message := "" |};
          proto.model_id := "model-42" |} |}.

(** A stream that takes the first chunk and refuses every later one. *)
Definition refusing_second : ClientWriter :=
  {| Write := fun chunk => proto.chunk_index chunk <? 1;
     Finish := {| grpc.error_code := grpc.OK; grpc.error_message := "" |};
     response :=
       {| proto.result := proto.Result_default; proto.model_id := "" |} |}.

(** A buffer doubled [n] times; 64 KB of zero bytes. *)
Fixpoint doubled (n : nat) (buf : Qt.QByteArray) : Qt.QByteArray :=
  match n with
  | O => buf
  | S k => doubled k (buf ++ buf)
  end.

Definition full_buffer : Qt.QByteArray := doubled 16 [x00].

(** A file that reported a size of one byte when it was opened and has
    grown since: 328 reads of 64 KB succeed before its end is met. *)
Definition growing_file : Qt.QFile :=
  {| Qt.opens := true; Qt.file_size := 1;
     Qt.pending := repeat full_buffer 328 |}.

(** How a streaming thread may end, given what [Finish] reported: silent
    on success and on cancellation; on any other status exactly one
    [errorOccurred], queued last, whose text is [label] followed by the
    status's own message. *)
Definition ends_properly (label : Qt.QString) (st : grpc.Status)
  (sigs : list Signal) : Prop :=
  (grpc.error_code st = grpc.CANCELLED -> count is_error sigs = 0%nat) /\
  (grpc.error_code st = grpc.OK -> count is_error sigs = 0%nat) /\
  (grpc.error_code st <> grpc.OK ->
   grpc.error_code st <> grpc.CANCELLED ->
   count is_error sigs = 1%nat /\
   exists before : list Signal,
     sigs
     = before
       ++ [errorOccurred
             (label ++ Qt.fromStdString (grpc.error_message st))%string] /\
     count is_error before = 0%nat).

(** The chunks a media message may carry: protobuf bounds a message, and
    so each of its fields, by [INT_MAX] bytes. *)
Definition chunk_fits (chunk : proto.MediaChunk) : Prop :=
  Z.of_nat (List.length (proto.chunk_data chunk)) <= Cxx.INT_MAX.

(** The values an int64 field can hold. *)
Definition int64_range (z : Z) : Prop := - 2 ^ 63 <= z < 2 ^ 63.

(** The seconds whose milliseconds fit a [qint64]: up to 9223372036854775
    either side of the epoch. *)
Definition datetime_range (secs : Z) : Prop :=
  - 2 ^ 63 <= secs * 1000 <= Cxx.INT64_MAX.

(** The seconds of the timestamps that protobuf calls valid: from
    0001-01-01T00:00:00Z to 9999-12-31T23:59:59Z. *)
Definition timestamp_range (secs : Z) : Prop :=
  - 62135596800 <= secs <= 253402300799.

(** A wire timestamp some 317 million years after the epoch, and the same
    with nanos. *)
Definition far_timestamp : proto.Timestamp :=
  {| proto.seconds := 10000000000000000; proto.nanos := 0 |}.

Definition far_timestamp_nanos : proto.Timestamp :=
  {| proto.seconds := 10000000000000000; proto.nanos := 500 |}.

(* ====================================================================== *)
(** ** The wire messages of the conversion helpers and of the unary calls *)
(* ====================================================================== *)

(** Modelled from the spec: the generated message classes of
    [inspection_gateway.pb.h] are not among the sources.  Each message has
    the fields the helpers of [GatewayClient.cpp] read or write.  A
    sub-message the code tests with [has_x()] is an [option]: [has_x()] is
    its presence, and [mutable_x()] makes it present.  A sub-message the
    code reads without testing is held directly, absent reading as its
    default. *)
Module pb.

Definition has {A : Type} (field : option A) : bool :=
  match field with Some _ => true | None => false end.

Module Vector3.
Record t : Type := { x : Cxx.double; y : Cxx.double; z : Cxx.double }.
End Vector3.

Module Quaternion.
Record t : Type :=
  { x : Cxx.double; y : Cxx.double; z : Cxx.double; w : Cxx.double }.
End Quaternion.

Module Pose2D.
Record t : Type :=
  { x : Cxx.double; y : Cxx.double; yaw : Cxx.double; frame_id : string }.
End Pose2D.

Module Pose3D.
Record t : Type := {
  position : option Vector3.t;
  orientation : option Quaternion.t;
  frame_id : string
}.
End Pose3D.

Module SurfacePoint.
Record t : Type := {
  position : option Vector3.t;
  normal : option Vector3.t;
  frame_id : string;
  face_index : Z
}.
End SurfacePoint.

Module ViewHint.
Record t : Type :=
  { view_direction : option Vector3.t; roll_deg : Cxx.double }.
End ViewHint.

Module MediaRef.
Record t : Type := {
  media_id : string;
  mime_type : string;
  sha256 : string;
  url : string;
  size_bytes : Z
}.
End MediaRef.

Module ImageRef.
Record t : Type := {
  media : option MediaRef.t;
  width : Z;
  height : Z;
  thumbnail_jpeg : list byte
}.
End ImageRef.

Module BoundingBox2D.
Record t : Type := { x : Z; y : Z; w : Z; h : Z }.
End BoundingBox2D.

Module DefectResult.
Record t : Type := {
  has_defect : bool;
  defect_type : string;
  confidence : Cxx.float;
  bbox : option BoundingBox2D.t
}.
End DefectResult.

Module InspectionTarget.
Record t : Type := {
  point_id : Z;
  group_id : string;
  surface : option SurfacePoint.t;
  view : option ViewHint.t
}.
End InspectionTarget.

Module CaptureConfig.
Record t : Type := {
  camera_id : string;
  focus_distance_m : Cxx.double;
  fov_h_deg : Cxx.double;
  fov_v_deg : Cxx.double;
  max_tilt_from_normal_deg : Cxx.double
}.
End CaptureConfig.

Module PlanningWeights.
Record t : Type := {
  w_agv_distance : Cxx.double;
  w_joint_delta : Cxx.double;
  w_manipulability : Cxx.double;
  w_view_error : Cxx.double;
  w_joint_limit : Cxx.double
}.
End PlanningWeights.

Module PlanOptions.
Record t : Type := {
  candidate_radius_m : Cxx.double;
  candidate_yaw_step_deg : Cxx.double;
  enable_collision_check : bool;
  enable_tsp_optimization : bool;
  ik_solver : string;
  weights : option PlanningWeights.t
}.
End PlanOptions.

Module InspectionPoint.
Record t : Type := {
  point_id : Z;
  group_id : string;
  agv_pose : option Pose2D.t;
  arm_pose : option Pose3D.t;
  arm_joint_goal : list Cxx.double;
  expected_quality : Cxx.double;
  planning_cost : Cxx.double;
  tcp_pose_goal : option Pose3D.t;
  camera_pose : option Pose3D.t;
  camera_id : string
}.
End InspectionPoint.

Module InspectionPath.
Record t : Type := {
  waypoints : list InspectionPoint.t;
  total_points : Z;
  estimated_distance_m : Cxx.double;
  estimated_duration_s : Cxx.double
}.
End InspectionPath.

Module PlanningStatistics.
Record t : Type := {
  candidate_pose_count : Z;
  ik_success_count : Z;
  collision_filtered_count : Z;
  planning_time_ms : Cxx.double
}.
End PlanningStatistics.

Module AgvStatus.
Record t : Type := {
  connected : bool;
  arrived : bool;
  moving : bool;
  stopped : bool;
  current_pose : option Pose2D.t;
  battery_percent : Cxx.float;
  error_code : string;
  linear_velocity_mps : Cxx.float;
  angular_velocity_rps : Cxx.float;
  goal_pose : option Pose2D.t;
  map_id : string;
  localization_quality : Cxx.float
}.
End AgvStatus.

Module ArmStatus.
Record t : Type := {
  connected : bool;
  arrived : bool;
  moving : bool;
  current_joints : list Cxx.double;
  manipulability : Cxx.double;
  error_code : string;
  servo_enabled : bool;
  tcp_pose : option Pose3D.t;
  base_pose : option Pose3D.t
}.
End ArmStatus.

Module TaskStatus.
Record t : Type := {
  task_id : string;
  phase : proto.TaskPhase;
  progress_percent : Cxx.float;
  current_action : string;
  error_message : string;
  agv : option AgvStatus.t;
  arm : option ArmStatus.t;
  updated_at : option proto.Timestamp;
  plan_id : string;
  task_name : string;
  current_waypoint_index : Z;
  current_point_id : Z;
  total_waypoints : Z;
  interlock_ok : bool;
  interlock_message : string;
  remaining_time_est_s : Cxx.double;
  started_at : option proto.Timestamp;
  finished_at : option proto.Timestamp
}.
(** The default instance: what an unset [status] field reads as. *)
Definition default : t :=
  {| task_id := ""; phase := proto.TASK_PHASE_UNSPECIFIED;
     progress_percent := Cxx.zerof; current_action := ""; error_message := "";
     agv := None; arm := None; updated_at := None; plan_id := "";
     task_name := ""; current_waypoint_index := 0; current_point_id := 0;
     total_waypoints := 0; interlock_ok := false; interlock_message := "";
     remaining_time_est_s := Cxx.zero; started_at := None;
     finished_at := None |}.
End TaskStatus.

Module InspectionEvent.
Record t : Type := {
  task_id : string;
  point_id : Z;
  type : proto.InspectionEventType;
  message : string;
  defect : option DefectResult.t;
  timestamp : option proto.Timestamp;
  capture_id : string;
  camera_id : string;
  image : option ImageRef.t;
  defects : list DefectResult.t;
  camera_pose : option Pose3D.t
}.
End InspectionEvent.

Module CaptureRecord.
Record t : Type := {
  task_id : string;
  point_id : Z;
  capture_id : string;
  camera_id : string;
  image : option ImageRef.t;
  defects : list DefectResult.t;
  captured_at : option proto.Timestamp
}.
End CaptureRecord.

Module NavMapInfo.
Record t : Type := {
  map_id : string;
  name : string;
  resolution_m_per_pixel : Cxx.double;
  width : Z;
  height : Z;
  origin : option Pose2D.t;
  image : option ImageRef.t;
  updated_at : option proto.Timestamp
}.
End NavMapInfo.

Module SetInspectionTargetsRequest.
Record t : Type := {
  model_id : string;
  operator_id : string;
  capture : option CaptureConfig.t;
  targets : list InspectionTarget.t
}.
End SetInspectionTargetsRequest.

Module SetInspectionTargetsResponse.
Record t : Type := { result : proto.Result; total_targets : Z }.
End SetInspectionTargetsResponse.

Module PlanInspectionRequest.
Record t : Type :=
  { model_id : string; task_name : string; options : option PlanOptions.t }.
End PlanInspectionRequest.

Module PlanInspectionResponse.
Record t : Type := {
  result : proto.Result;
  plan_id : string;
  path : option InspectionPath.t;
  stats : option PlanningStatistics.t
}.
End PlanInspectionResponse.

Module GetPlanRequest.
Record t : Type := { plan_id : string }.
End GetPlanRequest.

Module GetPlanResponse.
Record t : Type := {
  result : proto.Result;
  plan_id : string;
  model_id : string;
  task_name : string;
  options : option PlanOptions.t;
  path : option InspectionPath.t;
  stats : option PlanningStatistics.t;
  created_at : option proto.Timestamp
}.
End GetPlanResponse.

Module StartInspectionRequest.
Record t : Type := { plan_id : string; dry_run : bool }.
End StartInspectionRequest.

Module StartInspectionResponse.
Record t : Type := { result : proto.Result; task_id : string }.
End StartInspectionResponse.

Module ControlTaskRequest.
Record t : Type := { task_id : string; reason : string }.
End ControlTaskRequest.

Module ControlTaskResponse.
Record t : Type := { result : proto.Result }.
End ControlTaskResponse.

Module GetTaskStatusRequest.
Record t : Type := { task_id : string }.
End GetTaskStatusRequest.

Module GetTaskStatusResponse.
Record t : Type := { status : TaskStatus.t }.
End GetTaskStatusResponse.

Module GetNavMapRequest.
Record t : Type := { map_id : string; include_image_thumbnail : bool }.
End GetNavMapRequest.

Module GetNavMapResponse.
Record t : Type := { result : proto.Result; map : option NavMapInfo.t }.
End GetNavMapResponse.

Module ListCapturesRequest.
Record t : Type :=
  { task_id : string; point_id : Z; include_thumbnails : bool }.
End ListCapturesRequest.

Module ListCapturesResponse.
Record t : Type := { result : proto.Result; captures : list CaptureRecord.t }.
End ListCapturesResponse.

Module SystemStateEvent.
Record t : Type := { status : TaskStatus.t }.
End SystemStateEvent.

End pb.

(* ====================================================================== *)
(** ** GatewayClient.cpp: the remaining conversion helpers *)
(* ====================================================================== *)

Definition fromProtoPose2D (p : pb.Pose2D.t) : hmi.Pose2D.t :=
  {| hmi.Pose2D.x := pb.Pose2D.x p;
     hmi.Pose2D.y := pb.Pose2D.y p;
     hmi.Pose2D.yaw := pb.Pose2D.yaw p;
     hmi.Pose2D.frameId := Qt.fromStdString (pb.Pose2D.frame_id p) |}.

Definition toProtoPose2D (p : hmi.Pose2D.t) : pb.Pose2D.t :=
  {| pb.Pose2D.x := hmi.Pose2D.x p;
     pb.Pose2D.y := hmi.Pose2D.y p;
     pb.Pose2D.yaw := hmi.Pose2D.yaw p;
     pb.Pose2D.frame_id := Qt.toStdString (hmi.Pose2D.frameId p) |}.

Definition fromProtoMediaRef (m : pb.MediaRef.t) : hmi.MediaRef.t :=
  {| hmi.MediaRef.mediaId := Qt.fromStdString (pb.MediaRef.media_id m);
     hmi.MediaRef.mimeType := Qt.fromStdString (pb.MediaRef.mime_type m);
     hmi.MediaRef.sha256 := Qt.fromStdString (pb.MediaRef.sha256 m);
     hmi.MediaRef.url := Qt.fromStdString (pb.MediaRef.url m);
     hmi.MediaRef.sizeBytes := pb.MediaRef.size_bytes m |}.

(** [QByteArray(const char* data, int size)]: the first [size] bytes, or,
    for a negative [size], the bytes up to the first NUL. *)
Definition QByteArray_of (data : list byte) (size : Z) : Qt.QByteArray :=
  if size <? 0 then Qt.qstrlen_prefix data else Qt.prefix size data.

Definition fromProtoImageRef (img : pb.ImageRef.t) : hmi.ImageRef.t :=
  let thumb := pb.ImageRef.thumbnail_jpeg img in
  {| hmi.ImageRef.media :=
       match pb.ImageRef.media img with
       | Some m => fromProtoMediaRef m
       | None => hmi.ImageRef.media hmi.ImageRef.init
       end;
     hmi.ImageRef.width := pb.ImageRef.width img;
     hmi.ImageRef.height := pb.ImageRef.height img;
     hmi.ImageRef.thumbnailJpeg :=
       QByteArray_of thumb (Cxx.to_int (Z.of_nat (List.length thumb))) |}.

Definition fromProtoBbox (bb : pb.BoundingBox2D.t) : hmi.BoundingBox2D.t :=
  {| hmi.BoundingBox2D.x := pb.BoundingBox2D.x bb;
     hmi.BoundingBox2D.y := pb.BoundingBox2D.y bb;
     hmi.BoundingBox2D.w := pb.BoundingBox2D.w bb;
     hmi.BoundingBox2D.h := pb.BoundingBox2D.h bb |}.

Definition fromProtoDefectResult (dr : pb.DefectResult.t)
  : hmi.DefectResult.t :=
  {| hmi.DefectResult.hasDefect := pb.DefectResult.has_defect dr;
     hmi.DefectResult.defectType :=
       Qt.fromStdString (pb.DefectResult.defect_type dr);
     hmi.DefectResult.confidence := pb.DefectResult.confidence dr;
     hmi.DefectResult.bbox :=
       match pb.DefectResult.bbox dr with
       | Some bb => fromProtoBbox bb
       | None => hmi.DefectResult.bbox hmi.DefectResult.init
       end |}.

Definition toProtoCaptureConfig (cc : hmi.CaptureConfig.t)
  : pb.CaptureConfig.t :=
  {| pb.CaptureConfig.camera_id := Qt.toStdString (hmi.CaptureConfig.cameraId cc);
     pb.CaptureConfig.focus_distance_m := hmi.CaptureConfig.focusDistanceM cc;
     pb.CaptureConfig.fov_h_deg := hmi.CaptureConfig.fovHDeg cc;
     pb.CaptureConfig.fov_v_deg := hmi.CaptureConfig.fovVDeg cc;
     pb.CaptureConfig.max_tilt_from_normal_deg :=
       hmi.CaptureConfig.maxTiltFromNormalDeg cc |}.

Definition toProtoPlanOptions (po : hmi.PlanOptions.t) : pb.PlanOptions.t :=
  let w := hmi.PlanOptions.weights po in
  {| pb.PlanOptions.candidate_radius_m := hmi.PlanOptions.candidateRadiusM po;
     pb.PlanOptions.candidate_yaw_step_deg :=
       hmi.PlanOptions.candidateYawStepDeg po;
     pb.PlanOptions.enable_collision_check :=
       hmi.PlanOptions.enableCollisionCheck po;
     pb.PlanOptions.enable_tsp_optimization :=
       hmi.PlanOptions.enableTspOptimization po;
     pb.PlanOptions.ik_solver := Qt.toStdString (hmi.PlanOptions.ikSolver po);
     pb.PlanOptions.weights :=
       Some
         {| pb.PlanningWeights.w_agv_distance :=
              hmi.PlanningWeights.wAgvDistance w;
            pb.PlanningWeights.w_joint_delta :=
              hmi.PlanningWeights.wJointDelta w;
            pb.PlanningWeights.w_manipulability :=
              hmi.PlanningWeights.wManipulability w;
            pb.PlanningWeights.w_view_error :=
              hmi.PlanningWeights.wViewError w;
            pb.PlanningWeights.w_joint_limit :=
              hmi.PlanningWeights.wJointLimit w |} |}.

Definition fromProtoPlanOptions (po : pb.PlanOptions.t) : hmi.PlanOptions.t :=
  {| hmi.PlanOptions.candidateRadiusM := pb.PlanOptions.candidate_radius_m po;
     hmi.PlanOptions.candidateYawStepDeg :=
       pb.PlanOptions.candidate_yaw_step_deg po;
     hmi.PlanOptions.enableCollisionCheck :=
       pb.PlanOptions.enable_collision_check po;
     hmi.PlanOptions.enableTspOptimization :=
       pb.PlanOptions.enable_tsp_optimization po;
     hmi.PlanOptions.ikSolver := Qt.fromStdString (pb.PlanOptions.ik_solver po);
     hmi.PlanOptions.weights :=
       match pb.PlanOptions.weights po with
       | Some w =>
           {| hmi.PlanningWeights.wAgvDistance :=
                pb.PlanningWeights.w_agv_distance w;
              hmi.PlanningWeights.wJointDelta :=
                pb.PlanningWeights.w_joint_delta w;
              hmi.PlanningWeights.wManipulability :=
                pb.PlanningWeights.w_manipulability w;
              hmi.PlanningWeights.wViewError :=
                pb.PlanningWeights.w_view_error w;
              hmi.PlanningWeights.wJointLimit :=
                pb.PlanningWeights.w_joint_limit w |}
       | None => hmi.PlanOptions.weights hmi.PlanOptions.init
       end |}.

Definition fromProtoPlanningStats (ps : pb.PlanningStatistics.t)
  : hmi.PlanningStatistics.t :=
  {| hmi.PlanningStatistics.candidatePoseCount :=
       pb.PlanningStatistics.candidate_pose_count ps;
     hmi.PlanningStatistics.ikSuccessCount :=
       pb.PlanningStatistics.ik_success_count ps;
     hmi.PlanningStatistics.collisionFilteredCount :=
       pb.PlanningStatistics.collision_filtered_count ps;
     hmi.PlanningStatistics.planningTimeMs :=
       pb.PlanningStatistics.planning_time_ms ps |}.

(** [arr[i] = v] on a [std::array], for an index inside it. *)
Fixpoint array_set {A : Type} (i : nat) (v : A) (arr : list A) : list A :=
  match arr, i with
  | [], _ => []
  | _ :: rest, O => v :: rest
  | a :: rest, S j => a :: array_set j v rest
  end.

(** [for (int i = ..; i < nj; ++i) out[i] = wire(i);], [count] steps on. *)
Fixpoint copy_joints_from (i count : nat) (wire out : list Cxx.double)
  : list Cxx.double :=
  match count with
  | O => out
  | S k =>
      copy_joints_from (S i) k wire (array_set i (nth i wire Cxx.zero) out)
  end.

(** The joint loop of [fromProtoInspectionPoint] and [fromProtoArmStatus]:
    [nj = std::min(size, 6)] values are copied. *)
Definition copy_joints (wire out : list Cxx.double) : list Cxx.double :=
  let nj := Nat.min (List.length wire) 6 in
  copy_joints_from 0 nj wire out.

Section Casts.

(** [static_cast<float>] of a double and [static_cast<double>] of a float. *)
Variable to_float : Cxx.double -> Cxx.float.
Variable to_double : Cxx.float -> Cxx.double.

(** A float that widening and narrowing back leaves as it is, and the
    vectors and quaternions made of such. *)
Definition exact_float (x : Cxx.float) : Prop := to_float (to_double x) = x.

Definition exact_vector (v : Qt.QVector3D) : Prop :=
  exact_float (Qt.v_x v) /\ exact_float (Qt.v_y v) /\ exact_float (Qt.v_z v).

Definition exact_quaternion (q : Qt.QQuaternion) : Prop :=
  exact_float (Qt.q_scalar q) /\ exact_float (Qt.q_x q) /\
  exact_float (Qt.q_y q) /\ exact_float (Qt.q_z q).

Definition fromProtoVector3 (v : pb.Vector3.t) : Qt.QVector3D :=
  {| Qt.v_x := to_float (pb.Vector3.x v);
     Qt.v_y := to_float (pb.Vector3.y v);
     Qt.v_z := to_float (pb.Vector3.z v) |}.

Definition toProtoVector3 (v : Qt.QVector3D) : pb.Vector3.t :=
  {| pb.Vector3.x := to_double (Qt.v_x v);
     pb.Vector3.y := to_double (Qt.v_y v);
     pb.Vector3.z := to_double (Qt.v_z v) |}.

Definition fromProtoPose3D (p : pb.Pose3D.t) : hmi.Pose3D.t :=
  {| hmi.Pose3D.position :=
       match pb.Pose3D.position p with
       | Some v => fromProtoVector3 v
       | None => hmi.Pose3D.position hmi.Pose3D.init
       end;
     hmi.Pose3D.orientation :=
       match pb.Pose3D.orientation p with
       | Some q =>
           {| Qt.q_scalar := to_float (pb.Quaternion.w q);
              Qt.q_x := to_float (pb.Quaternion.x q);
              Qt.q_y := to_float (pb.Quaternion.y q);
              Qt.q_z := to_float (pb.Quaternion.z q) |}
       | None => hmi.Pose3D.orientation hmi.Pose3D.init
       end;
     hmi.Pose3D.frameId := Qt.fromStdString (pb.Pose3D.frame_id p) |}.

Definition toProtoPose3D (p : hmi.Pose3D.t) : pb.Pose3D.t :=
  let ori := hmi.Pose3D.orientation p in
  {| pb.Pose3D.position := Some (toProtoVector3 (hmi.Pose3D.position p));
     pb.Pose3D.orientation :=
       Some
         {| pb.Quaternion.x := to_double (Qt.q_x ori);
            pb.Quaternion.y := to_double (Qt.q_y ori);
            pb.Quaternion.z := to_double (Qt.q_z ori);
            pb.Quaternion.w := to_double (Qt.q_scalar ori) |};
     pb.Pose3D.frame_id := Qt.toStdString (hmi.Pose3D.frameId p) |}.

Definition fromProtoSurfacePoint (sp : pb.SurfacePoint.t)
  : hmi.SurfacePoint.t :=
  {| hmi.SurfacePoint.position :=
       match pb.SurfacePoint.position sp with
       | Some v => fromProtoVector3 v
       | None => hmi.SurfacePoint.position hmi.SurfacePoint.init
       end;
     hmi.SurfacePoint.normal :=
       match pb.SurfacePoint.normal sp with
       | Some v => fromProtoVector3 v
       | None => hmi.SurfacePoint.normal hmi.SurfacePoint.init
       end;
     hmi.SurfacePoint.frameId :=
       Qt.fromStdString (pb.SurfacePoint.frame_id sp);
     hmi.SurfacePoint.faceIndex := pb.SurfacePoint.face_index sp |}.

Definition toProtoSurfacePoint (sp : hmi.SurfacePoint.t)
  : pb.SurfacePoint.t :=
  {| pb.SurfacePoint.position :=
       Some (toProtoVector3 (hmi.SurfacePoint.position sp));
     pb.SurfacePoint.normal :=
       Some (toProtoVector3 (hmi.SurfacePoint.normal sp));
     pb.SurfacePoint.frame_id :=
       Qt.toStdString (hmi.SurfacePoint.frameId sp);
     pb.SurfacePoint.face_index := hmi.SurfacePoint.faceIndex sp |}.

Definition fromProtoViewHint (vh : pb.ViewHint.t) : hmi.ViewHint.t :=
  {| hmi.ViewHint.viewDirection :=
       match pb.ViewHint.view_direction vh with
       | Some v => fromProtoVector3 v
       | None => hmi.ViewHint.viewDirection hmi.ViewHint.init
       end;
     hmi.ViewHint.rollDeg := pb.ViewHint.roll_deg vh |}.

Definition toProtoViewHint (vh : hmi.ViewHint.t) : pb.ViewHint.t :=
  {| pb.ViewHint.view_direction :=
       Some (toProtoVector3 (hmi.ViewHint.viewDirection vh));
     pb.ViewHint.roll_deg := hmi.ViewHint.rollDeg vh |}.

Definition toProtoTarget (t : hmi.InspectionTarget.t)
  : pb.InspectionTarget.t :=
  {| pb.InspectionTarget.point_id := hmi.InspectionTarget.pointId t;
     pb.InspectionTarget.group_id :=
       Qt.toStdString (hmi.InspectionTarget.groupId t);
     pb.InspectionTarget.surface :=
       Some (toProtoSurfacePoint (hmi.InspectionTarget.surface t));
     pb.InspectionTarget.view :=
       Some (toProtoViewHint (hmi.InspectionTarget.view t)) |}.

Definition fromProtoInspectionPoint (ip : pb.InspectionPoint.t)
  : hmi.InspectionPoint.t :=
  let out := hmi.InspectionPoint.init in
  {| hmi.InspectionPoint.pointId := pb.InspectionPoint.point_id ip;
     hmi.InspectionPoint.groupId :=
       Qt.fromStdString (pb.InspectionPoint.group_id ip);
     hmi.InspectionPoint.agvPose :=
       match pb.InspectionPoint.agv_pose ip with
       | Some p => fromProtoPose2D p
       | None => hmi.InspectionPoint.agvPose out
       end;
     hmi.InspectionPoint.armPose :=
       match pb.InspectionPoint.arm_pose ip with
       | Some p => fromProtoPose3D p
       | None => hmi.InspectionPoint.armPose out
       end;
     hmi.InspectionPoint.armJointGoal :=
       copy_joints (pb.InspectionPoint.arm_joint_goal ip)
         (hmi.InspectionPoint.armJointGoal out);
     hmi.InspectionPoint.expectedQuality :=
       pb.InspectionPoint.expected_quality ip;
     hmi.InspectionPoint.planningCost := pb.InspectionPoint.planning_cost ip;
     hmi.InspectionPoint.tcpPoseGoal :=
       match pb.InspectionPoint.tcp_pose_goal ip with
       | Some p => fromProtoPose3D p
       | None => hmi.InspectionPoint.tcpPoseGoal out
       end;
     hmi.InspectionPoint.cameraPose :=
       match pb.InspectionPoint.camera_pose ip with
       | Some p => fromProtoPose3D p
       | None => hmi.InspectionPoint.cameraPose out
       end;
     hmi.InspectionPoint.cameraId :=
       Qt.fromStdString (pb.InspectionPoint.camera_id ip) |}.

Definition fromProtoInspectionPath (path : pb.InspectionPath.t)
  : hmi.InspectionPath.t :=
  {| hmi.InspectionPath.waypoints :=
       map fromProtoInspectionPoint (pb.InspectionPath.waypoints path);
     hmi.InspectionPath.totalPoints := pb.InspectionPath.total_points path;
     hmi.InspectionPath.estimatedDistanceM :=
       pb.InspectionPath.estimated_distance_m path;
     hmi.InspectionPath.estimatedDurationS :=
       pb.InspectionPath.estimated_duration_s path |}.

Definition fromProtoAgvStatus (a : pb.AgvStatus.t) : hmi.AgvStatus.t :=
  let out := hmi.AgvStatus.init in
  {| hmi.AgvStatus.connected := pb.AgvStatus.connected a;
     hmi.AgvStatus.arrived := pb.AgvStatus.arrived a;
     hmi.AgvStatus.moving := pb.AgvStatus.moving a;
     hmi.AgvStatus.stopped := pb.AgvStatus.stopped a;
     hmi.AgvStatus.currentPose :=
       match pb.AgvStatus.current_pose a with
       | Some p => fromProtoPose2D p
       | None => hmi.AgvStatus.currentPose out
       end;
     hmi.AgvStatus.batteryPercent := pb.AgvStatus.battery_percent a;
     hmi.AgvStatus.errorCode := Qt.fromStdString (pb.AgvStatus.error_code a);
     hmi.AgvStatus.linearVelocityMps := pb.AgvStatus.linear_velocity_mps a;
     hmi.AgvStatus.angularVelocityRps := pb.AgvStatus.angular_velocity_rps a;
     hmi.AgvStatus.goalPose :=
       match pb.AgvStatus.goal_pose a with
       | Some p => fromProtoPose2D p
       | None => hmi.AgvStatus.goalPose out
       end;
     hmi.AgvStatus.mapId := Qt.fromStdString (pb.AgvStatus.map_id a);
     hmi.AgvStatus.localizationQuality :=
       pb.AgvStatus.localization_quality a |}.

Definition fromProtoArmStatus (a : pb.ArmStatus.t) : hmi.ArmStatus.t :=
  let out := hmi.ArmStatus.init in
  {| hmi.ArmStatus.connected := pb.ArmStatus.connected a;
     hmi.ArmStatus.arrived := pb.ArmStatus.arrived a;
     hmi.ArmStatus.moving := pb.ArmStatus.moving a;
     hmi.ArmStatus.currentJoints :=
       copy_joints (pb.ArmStatus.current_joints a)
         (hmi.ArmStatus.currentJoints out);
     hmi.ArmStatus.manipulability := pb.ArmStatus.manipulability a;
     hmi.ArmStatus.errorCode := Qt.fromStdString (pb.ArmStatus.error_code a);
     hmi.ArmStatus.servoEnabled := pb.ArmStatus.servo_enabled a;
     hmi.ArmStatus.tcpPose :=
       match pb.ArmStatus.tcp_pose a with
       | Some p => fromProtoPose3D p
       | None => hmi.ArmStatus.tcpPose out
       end;
     hmi.ArmStatus.basePose :=
       match pb.ArmStatus.base_pose a with
       | Some p => fromProtoPose3D p
       | None => hmi.ArmStatus.basePose out
       end |}.

(** [if (m.has_t()) { out.t = fromTimestamp(m.t()); }] on a field that
    [out] holds null. *)
Definition fromOptionalTimestamp (ts : option proto.Timestamp)
  : Qt.QDateTime :=
  match ts with
  | Some t => fromTimestamp t
  | None => Qt.QDateTime_null
  end.

Definition fromProtoTaskStatus (ts : pb.TaskStatus.t) : hmi.TaskStatus.t :=
  let out := hmi.TaskStatus.init in
  {| hmi.TaskStatus.taskId := Qt.fromStdString (pb.TaskStatus.task_id ts);
     hmi.TaskStatus.phase := fromProtoTaskPhase (pb.TaskStatus.phase ts);
     hmi.TaskStatus.progressPercent := pb.TaskStatus.progress_percent ts;
     hmi.TaskStatus.currentAction :=
       Qt.fromStdString (pb.TaskStatus.current_action ts);
     hmi.TaskStatus.errorMessage :=
       Qt.fromStdString (pb.TaskStatus.error_message ts);
     hmi.TaskStatus.agv :=
       match pb.TaskStatus.agv ts with
       | Some a => fromProtoAgvStatus a
       | None => hmi.TaskStatus.agv out
       end;
     hmi.TaskStatus.arm :=
       match pb.TaskStatus.arm ts with
       | Some a => fromProtoArmStatus a
       | None => hmi.TaskStatus.arm out
       end;
     hmi.TaskStatus.updatedAt :=
       fromOptionalTimestamp (pb.TaskStatus.updated_at ts);
     hmi.TaskStatus.planId := Qt.fromStdString (pb.TaskStatus.plan_id ts);
     hmi.TaskStatus.taskName := Qt.fromStdString (pb.TaskStatus.task_name ts);
     hmi.TaskStatus.currentWaypointIndex :=
       pb.TaskStatus.current_waypoint_index ts;
     hmi.TaskStatus.currentPointId := pb.TaskStatus.current_point_id ts;
     hmi.TaskStatus.totalWaypoints := pb.TaskStatus.total_waypoints ts;
     hmi.TaskStatus.interlockOk := pb.TaskStatus.interlock_ok ts;
     hmi.TaskStatus.interlockMessage :=
       Qt.fromStdString (pb.TaskStatus.interlock_message ts);
     hmi.TaskStatus.remainingTimeEstS :=
       pb.TaskStatus.remaining_time_est_s ts;
     hmi.TaskStatus.startedAt :=
       fromOptionalTimestamp (pb.TaskStatus.started_at ts);
     hmi.TaskStatus.finishedAt :=
       fromOptionalTimestamp (pb.TaskStatus.finished_at ts) |}.

Definition fromProtoInspectionEvent (ev : pb.InspectionEvent.t)
  : hmi.InspectionEvent.t :=
  let out := hmi.InspectionEvent.init in
  {| hmi.InspectionEvent.taskId :=
       Qt.fromStdString (pb.InspectionEvent.task_id ev);
     hmi.InspectionEvent.pointId := pb.InspectionEvent.point_id ev;
     hmi.InspectionEvent.type :=
       fromProtoEventType (pb.InspectionEvent.type ev);
     hmi.InspectionEvent.message :=
       Qt.fromStdString (pb.InspectionEvent.message ev);
     hmi.InspectionEvent.defect :=
       match pb.InspectionEvent.defect ev with
       | Some d => fromProtoDefectResult d
       | None => hmi.InspectionEvent.defect out
       end;
     hmi.InspectionEvent.timestamp :=
       fromOptionalTimestamp (pb.InspectionEvent.timestamp ev);
     hmi.InspectionEvent.captureId :=
       Qt.fromStdString (pb.InspectionEvent.capture_id ev);
     hmi.InspectionEvent.cameraId :=
       Qt.fromStdString (pb.InspectionEvent.camera_id ev);
     hmi.InspectionEvent.image :=
       match pb.InspectionEvent.image ev with
       | Some i => fromProtoImageRef i
       | None => hmi.InspectionEvent.image out
       end;
     hmi.InspectionEvent.defects :=
       hmi.InspectionEvent.defects out
       ++ map fromProtoDefectResult (pb.InspectionEvent.defects ev);
     hmi.InspectionEvent.cameraPose :=
       match pb.InspectionEvent.camera_pose ev with
       | Some p => fromProtoPose3D p
       | None => hmi.InspectionEvent.cameraPose out
       end |}.

End Casts.

Definition fromProtoCaptureRecord (cr : pb.CaptureRecord.t)
  : hmi.CaptureRecord.t :=
  let out := hmi.CaptureRecord.init in
  {| hmi.CaptureRecord.taskId :=
       Qt.fromStdString (pb.CaptureRecord.task_id cr);
     hmi.CaptureRecord.pointId := pb.CaptureRecord.point_id cr;
     hmi.CaptureRecord.captureId :=
       Qt.fromStdString (pb.CaptureRecord.capture_id cr);
     hmi.CaptureRecord.cameraId :=
       Qt.fromStdString (pb.CaptureRecord.camera_id cr);
     hmi.CaptureRecord.image :=
       match pb.CaptureRecord.image cr with
       | Some i => fromProtoImageRef i
       | None => hmi.CaptureRecord.image out
       end;
     hmi.CaptureRecord.defects :=
       hmi.CaptureRecord.defects out
       ++ map fromProtoDefectResult (pb.CaptureRecord.defects cr);
     hmi.CaptureRecord.capturedAt :=
       fromOptionalTimestamp (pb.CaptureRecord.captured_at cr) |}.

Definition fromProtoNavMapInfo (nm : pb.NavMapInfo.t) : hmi.NavMapInfo.t :=
  let out := hmi.NavMapInfo.init in
  {| hmi.NavMapInfo.mapId := Qt.fromStdString (pb.NavMapInfo.map_id nm);
     hmi.NavMapInfo.name := Qt.fromStdString (pb.NavMapInfo.name nm);
     hmi.NavMapInfo.resolutionMPerPixel :=
       pb.NavMapInfo.resolution_m_per_pixel nm;
     hmi.NavMapInfo.width := pb.NavMapInfo.width nm;
     hmi.NavMapInfo.height := pb.NavMapInfo.height nm;
     hmi.NavMapInfo.origin :=
       match pb.NavMapInfo.origin nm with
       | Some p => fromProtoPose2D p
       | None => hmi.NavMapInfo.origin out
       end;
     hmi.NavMapInfo.image :=
       match pb.NavMapInfo.image nm with
       | Some i => fromProtoImageRef i
       | None => hmi.NavMapInfo.image out
       end;
     hmi.NavMapInfo.updatedAt :=
       fromOptionalTimestamp (pb.NavMapInfo.updated_at nm) |}.

(* ====================================================================== *)
(** ** GatewayClient.cpp: the bodies of the unary threads *)
(* ====================================================================== *)

(** [ClientContext ctx; ctx.set_deadline(deadlineFromNow(seconds));] *)
Definition deadline_context (seconds : Z) : grpc.ClientContext :=
  grpc.set_deadline grpc.ClientContext_new seconds.

Section UnaryThreads.

Variable to_float : Cxx.double -> Cxx.float.
Variable to_double : Cxx.float -> Cxx.double.

(** A method of the stub, as the thread that calls it meets it: from the
    context and the request to the status returned and the response filled
    in. *)
Definition Method (Req Resp : Type) : Type :=
  grpc.ClientContext -> Req -> grpc.Status * Resp.

Definition setInspectionTargets_request (modelId : Qt.QString)
  (targets : list hmi.InspectionTarget.t) (config : hmi.CaptureConfig.t)
  (operatorId : Qt.QString) : pb.SetInspectionTargetsRequest.t :=
  {| pb.SetInspectionTargetsRequest.model_id := Qt.toStdString modelId;
     pb.SetInspectionTargetsRequest.operator_id := Qt.toStdString operatorId;
     pb.SetInspectionTargetsRequest.capture :=
       Some (toProtoCaptureConfig config);
     pb.SetInspectionTargetsRequest.targets :=
       map (toProtoTarget to_double) targets |}.

Definition planInspection_request (modelId taskName : Qt.QString)
  (options : hmi.PlanOptions.t) : pb.PlanInspectionRequest.t :=
  {| pb.PlanInspectionRequest.model_id := Qt.toStdString modelId;
     pb.PlanInspectionRequest.task_name := Qt.toStdString taskName;
     pb.PlanInspectionRequest.options := Some (toProtoPlanOptions options) |}.

Definition getPlan_request (planId : Qt.QString) : pb.GetPlanRequest.t :=
  {| pb.GetPlanRequest.plan_id := Qt.toStdString planId |}.

Definition startInspection_request (planId : Qt.QString) (dryRun : bool)
  : pb.StartInspectionRequest.t :=
  {| pb.StartInspectionRequest.plan_id := Qt.toStdString planId;
     pb.StartInspectionRequest.dry_run := dryRun |}.

Definition controlTask_request (taskId reason : Qt.QString)
  : pb.ControlTaskRequest.t :=
  {| pb.ControlTaskRequest.task_id := Qt.toStdString taskId;
     pb.ControlTaskRequest.reason := Qt.toStdString reason |}.

Definition getTaskStatus_request (taskId : Qt.QString)
  : pb.GetTaskStatusRequest.t :=
  {| pb.GetTaskStatusRequest.task_id := Qt.toStdString taskId |}.

Definition getNavMap_request (mapId : Qt.QString) : pb.GetNavMapRequest.t :=
  {| pb.GetNavMapRequest.map_id := Qt.toStdString mapId;
     pb.GetNavMapRequest.include_image_thumbnail := true |}.

Definition listCaptures_request (taskId : Qt.QString) (pointId : Z)
  : pb.ListCapturesRequest.t :=
  {| pb.ListCapturesRequest.task_id := Qt.toStdString taskId;
     pb.ListCapturesRequest.point_id := pointId;
     pb.ListCapturesRequest.include_thumbnails := true |}.

Definition setInspectionTargets_thread
  (SetInspectionTargets :
     Method pb.SetInspectionTargetsRequest.t pb.SetInspectionTargetsResponse.t)
  (modelId : Qt.QString) (targets : list hmi.InspectionTarget.t)
  (config : hmi.CaptureConfig.t) (operatorId : Qt.QString) : list Signal :=
  let req := setInspectionTargets_request modelId targets config operatorId in
  let ctx := deadline_context 60 in
  let '(st, resp) := SetInspectionTargets ctx req in
  let r :=
    if grpc.ok st then
      fromProtoResult (pb.SetInspectionTargetsResponse.result resp)
    else fromGrpcStatus st in
  let total :=
    if grpc.ok st then pb.SetInspectionTargetsResponse.total_targets resp
    else 0 in
  [setTargetsFinished r total].

Definition planInspection_thread
  (PlanInspection :
     Method pb.PlanInspectionRequest.t pb.PlanInspectionResponse.t)
  (modelId taskName : Qt.QString) (options : hmi.PlanOptions.t)
  : list Signal :=
  let req := planInspection_request modelId taskName options in
  let ctx := deadline_context 120 in
  let '(st, resp) := PlanInspection ctx req in
  let out := hmi.PlanResponse.init in
  let out :=
    if grpc.ok st then
      {| hmi.PlanResponse.result :=
           fromProtoResult (pb.PlanInspectionResponse.result resp);
         hmi.PlanResponse.planId :=
           Qt.fromStdString (pb.PlanInspectionResponse.plan_id resp);
         hmi.PlanResponse.path :=
           match pb.PlanInspectionResponse.path resp with
           | Some p => fromProtoInspectionPath to_float p
           | None => hmi.PlanResponse.path out
           end;
         hmi.PlanResponse.stats :=
           match pb.PlanInspectionResponse.stats resp with
           | Some s => fromProtoPlanningStats s
           | None => hmi.PlanResponse.stats out
           end |}
    else hmi.PlanResponse.set_result (fromGrpcStatus st) out in
  [planInspectionFinished out].

Definition getPlan_thread
  (GetPlan : Method pb.GetPlanRequest.t pb.GetPlanResponse.t)
  (planId : Qt.QString) : list Signal :=
  let req := getPlan_request planId in
  let ctx := deadline_context 30 in
  let '(st, resp) := GetPlan ctx req in
  let out := hmi.GetPlanResponse.init in
  let out :=
    if grpc.ok st then
      {| hmi.GetPlanResponse.result :=
           fromProtoResult (pb.GetPlanResponse.result resp);
         hmi.GetPlanResponse.planId :=
           Qt.fromStdString (pb.GetPlanResponse.plan_id resp);
         hmi.GetPlanResponse.modelId :=
           Qt.fromStdString (pb.GetPlanResponse.model_id resp);
         hmi.GetPlanResponse.taskName :=
           Qt.fromStdString (pb.GetPlanResponse.task_name resp);
         hmi.GetPlanResponse.options :=
           match pb.GetPlanResponse.options resp with
           | Some o => fromProtoPlanOptions o
           | None => hmi.GetPlanResponse.options out
           end;
         hmi.GetPlanResponse.path :=
           match pb.GetPlanResponse.path resp with
           | Some p => fromProtoInspectionPath to_float p
           | None => hmi.GetPlanResponse.path out
           end;
         hmi.GetPlanResponse.stats :=
           match pb.GetPlanResponse.stats resp with
           | Some s => fromProtoPlanningStats s
           | None => hmi.GetPlanResponse.stats out
           end;
         hmi.GetPlanResponse.createdAt :=
           fromOptionalTimestamp (pb.GetPlanResponse.created_at resp) |}
    else hmi.GetPlanResponse.set_result (fromGrpcStatus st) out in
  [getPlanFinished out].

Definition startInspection_thread
  (StartInspection :
     Method pb.StartInspectionRequest.t pb.StartInspectionResponse.t)
  (planId : Qt.QString) (dryRun : bool) : list Signal :=
  let req := startInspection_request planId dryRun in
  let ctx := deadline_context 30 in
  let '(st, resp) := StartInspection ctx req in
  let r :=
    if grpc.ok st then fromProtoResult (pb.StartInspectionResponse.result resp)
    else fromGrpcStatus st in
  let taskId :=
    if grpc.ok st then
      Qt.fromStdString (pb.StartInspectionResponse.task_id resp)
    else "" in
  [startInspectionFinished r taskId].

(** The thread of [runControlRpc]; [fn] is the method the caller bound. *)
Definition runControlRpc_thread
  (fn : Method pb.ControlTaskRequest.t pb.ControlTaskResponse.t)
  (taskId reason : Qt.QString) : list Signal :=
  let req := controlTask_request taskId reason in
  let ctx := deadline_context 30 in
  let '(st, resp) := fn ctx req in
  let r :=
    if grpc.ok st then fromProtoResult (pb.ControlTaskResponse.result resp)
    else fromGrpcStatus st in
  [controlTaskFinished r].

Definition getTaskStatus_thread
  (GetTaskStatus : Method pb.GetTaskStatusRequest.t pb.GetTaskStatusResponse.t)
  (taskId : Qt.QString) : list Signal :=
  let req := getTaskStatus_request taskId in
  let ctx := deadline_context 15 in
  let '(st, resp) := GetTaskStatus ctx req in
  if negb (grpc.ok st) then
    let err := Qt.fromStdString (grpc.error_message st) in
    [errorOccurred ("GetTaskStatus: " ++ err)%string]
  else
    let ts := fromProtoTaskStatus to_float (pb.GetTaskStatusResponse.status resp) in
    [taskStatusReceived ts].

Definition getNavMap_thread
  (GetNavMap : Method pb.GetNavMapRequest.t pb.GetNavMapResponse.t)
  (mapId : Qt.QString) : list Signal :=
  let req := getNavMap_request mapId in
  let ctx := deadline_context 30 in
  let '(st, resp) := GetNavMap ctx req in
  let r :=
    if grpc.ok st then fromProtoResult (pb.GetNavMapResponse.result resp)
    else fromGrpcStatus st in
  let info :=
    if grpc.ok st then
      match pb.GetNavMapResponse.map resp with
      | Some m => fromProtoNavMapInfo m
      | None => hmi.NavMapInfo.init
      end
    else hmi.NavMapInfo.init in
  [navMapReceived r info].

Definition listCaptures_thread
  (ListCaptures : Method pb.ListCapturesRequest.t pb.ListCapturesResponse.t)
  (taskId : Qt.QString) (pointId : Z) : list Signal :=
  let req := listCaptures_request taskId pointId in
  let ctx := deadline_context 30 in
  let '(st, resp) := ListCaptures ctx req in
  let r :=
    if grpc.ok st then fromProtoResult (pb.ListCapturesResponse.result resp)
    else fromGrpcStatus st in
  let records :=
    if grpc.ok st then
      map fromProtoCaptureRecord (pb.ListCapturesResponse.captures resp)
    else [] in
  [capturesReceived r records].

End UnaryThreads.

(** The name of a signal, as [GatewayClient.h] declares it. *)
Definition signal_name (sig : Signal) : string :=
  match sig with
  | connectionStateChanged _ => "connectionStateChanged"
  | errorOccurred _ => "errorOccurred"
  | uploadCadProgress _ => "uploadCadProgress"
  | uploadCadFinished _ _ => "uploadCadFinished"
  | setTargetsFinished _ _ => "setTargetsFinished"
  | planInspectionFinished _ => "planInspectionFinished"
  | getPlanFinished _ => "getPlanFinished"
  | startInspectionFinished _ _ => "startInspectionFinished"
  | controlTaskFinished _ => "controlTaskFinished"
  | taskStatusReceived _ => "taskStatusReceived"
  | systemStateReceived _ => "systemStateReceived"
  | inspectionEventReceived _ => "inspectionEventReceived"
  | navMapReceived _ _ => "navMapReceived"
  | capturesReceived _ _ => "capturesReceived"
  | mediaDownloaded _ _ => "mediaDownloaded"
  end.

(** What a unary thread owes its caller, given the signal that completes
    its call, the status [st] of the call and the application result [app]
    of the response: exactly one signal, the one named; when the call went
    through, the application result converted; when it did not, [Internal]
    with the transport's message next to default values. *)
Definition unary_outcome (completion : string) (st : grpc.Status)
  (app : proto.Result) (sigs : list Signal) : Prop :=
  exists sig : Signal,
    sigs = [sig] /\
    signal_name sig = completion /\
    (grpc.error_code st = grpc.OK ->
     result_of sig = Some (fromProtoResult app)) /\
    (grpc.error_code st <> grpc.OK ->
     result_of sig
     = Some {| hmi.Result.code := hmi.ErrorCode.Internal;
               hmi.Result.message :=
                 Qt.fromStdString (grpc.error_message st) |} /\
     zero_payload sig).

(* ====================================================================== *)
(** ** GatewayClient.cpp: the connection monitor thread *)
(* ====================================================================== *)

Inductive grpc_connectivity_state : Type :=
| GRPC_CHANNEL_IDLE | GRPC_CHANNEL_CONNECTING | GRPC_CHANNEL_READY
| GRPC_CHANNEL_TRANSIENT_FAILURE | GRPC_CHANNEL_SHUTDOWN.

Definition is_ready (s : grpc_connectivity_state) : bool :=
  match s with GRPC_CHANNEL_READY => true | _ => false end.

(** One turn of the monitor loop that found the stop flag clear: the
    channel it read under the lock and the state [GetState] gave. *)
Record Poll : Type := {
  channel_read : option grpc.Channel;
  state_read : grpc_connectivity_state
}.

(** What the monitor has done when it returns: the value it left in
    [m_connected] and the signals it queued. *)
Record MonitorRun : Type := {
  connected_after : bool;
  notified : list Signal
}.

(** The loop of the monitor thread over the turns it makes before it sees
    the stop flag set; a null channel ends it early. *)
Fixpoint monitor_loop (polls : list Poll) (lastReady connected : bool)
  : MonitorRun :=
  match polls with
  | [] => {| connected_after := connected; notified := [] |}
  | poll :: rest =>
      match channel_read poll with
      | None => {| connected_after := connected; notified := [] |}
      | Some ch =>
          let nowReady := is_ready (state_read poll) in
          if negb (Bool.eqb nowReady lastReady) then
            let run := monitor_loop rest nowReady nowReady in
            {| connected_after := connected_after run;
               notified := connectionStateChanged nowReady :: notified run |}
          else monitor_loop rest lastReady connected
      end
  end.

(** The body of the thread [startConnectionMonitor] starts, on the value
    [m_connected] holds then. *)
Definition connectionMonitor_thread (polls : list Poll) (connected : bool)
  : MonitorRun :=
  let lastReady := false in
  monitor_loop polls lastReady connected.

(** The values the [connectionStateChanged] signals of a list carry. *)
Fixpoint state_changes (sigs : list Signal) : list bool :=
  match sigs with
  | [] => []
  | connectionStateChanged b :: rest => b :: state_changes rest
  | _ :: rest => state_changes rest
  end.

(** A list of booleans that alternates, starting with [first]. *)
Fixpoint alternates (first : bool) (l : list bool) : Prop :=
  match l with
  | [] => True
  | b :: rest => b = first /\ alternates (negb first) rest
  end.

(* ====================================================================== *)
(** ** GatewayClient.cpp: construction, and the object over its lifetime *)
(* ====================================================================== *)

Definition isEmptyString (s : Qt.QString) : bool :=
  match s with EmptyString => true | String _ _ => false end.

(** The constructor, on the freshly initialised members: no thread of the
    object runs yet. *)
Definition GatewayClient_constructor (address : Qt.QString) : M unit :=
  if negb (isEmptyString address) then connectToGateway address []
  else ret tt.

(** The destructor. *)
Definition GatewayClient_destructor (stores : list bool) : M unit :=
  disconnectFromGateway stores.

(** The public slots; the two that join the monitor thread come with what
    it stores while they run. *)
Inductive Slot : Type :=
| Slot_connectToGateway (address : Qt.QString) (stores : list bool)
| Slot_disconnectFromGateway (stores : list bool)
| Slot_call (call : OneShotCall)
| Slot_subscribeSystemState (taskId : Qt.QString)
| Slot_subscribeInspectionEvents (taskId : Qt.QString)
| Slot_downloadMedia (mediaId : Qt.QString)
| Slot_stopSubscriptions.

Definition slot (s : Slot) : M unit :=
  match s with
  | Slot_connectToGateway address stores => connectToGateway address stores
  | Slot_disconnectFromGateway stores => disconnectFromGateway stores
  | Slot_call call => invoke call
  | Slot_subscribeSystemState taskId => subscribeSystemState taskId
  | Slot_subscribeInspectionEvents taskId => subscribeInspectionEvents taskId
  | Slot_downloadMedia mediaId => downloadMedia mediaId
  | Slot_stopSubscriptions => stopSubscriptions
  end.

(** What changes the object: a slot called on it, or the monitor thread,
    while it runs, storing a readiness into [m_connected]. *)
Inductive Event : Type :=
| Called (s : Slot)
| MonitorStored (nowReady : bool).

Definition after (c : GatewayClient) (e : Event) : GatewayClient :=
  match e with
  | Called s => state_after (slot s) c
  | MonitorStored nowReady =>
      if joinable (m_connMonitorThread c) then set_m_connected nowReady c
      else c
  end.

(** The states an object goes through from its declaration. *)
Definition reachable (c : GatewayClient) : Prop :=
  exists events : list Event, c = fold_left after events GatewayClient_init.

(** The stub a thread body captured, if it captured one. *)
Definition job_stub (job : Job) : option grpc.Stub :=
  match job with
  | Job_uploadCad _ stub | Job_setInspectionTargets stub _ _ _ _
  | Job_planInspection stub _ _ _ | Job_getPlan stub _
  | Job_startInspection stub _ _ | Job_runControlRpc stub _ _ _
  | Job_getTaskStatus stub _ | Job_subscribeSystemState stub _
  | Job_subscribeInspectionEvents stub _ | Job_getNavMap stub _
  | Job_listCaptures stub _ _ | Job_downloadMedia stub _ => Some stub
  | Job_connectionMonitor => None
  end.

(** The bodies of the threads that are pushed onto [m_workers]. *)
Definition is_worker_job (job : Job) : bool :=
  match job with
  | Job_uploadCad _ _ | Job_setInspectionTargets _ _ _ _ _
  | Job_planInspection _ _ _ _ | Job_getPlan _ _ | Job_startInspection _ _ _
  | Job_getTaskStatus _ _ | Job_getNavMap _ _ | Job_listCaptures _ _ _ => true
  | _ => false
  end.

Definition is_control_job (job : Job) : bool :=
  match job with Job_runControlRpc _ _ _ _ => true | _ => false end.

(** A streaming member thread is either empty or runs the body of its own
    call, on the current stub, with a context that was not cancelled. *)
Definition streaming_slot_ok (stub : option grpc.Stub) (t : thread)
  (ctx : option grpc.ClientContext) (is_mine : Job -> bool) : Prop :=
  match body t with
  | None => True
  | Some job =>
      is_mine job = true /\ job_stub job = stub /\ stub <> None /\
      ctx = Some grpc.ClientContext_new
  end.

Definition is_sysState_job (job : Job) : bool :=
  match job with Job_subscribeSystemState _ _ => true | _ => false end.
Definition is_events_job (job : Job) : bool :=
  match job with Job_subscribeInspectionEvents _ _ => true | _ => false end.
Definition is_download_job (job : Job) : bool :=
  match job with Job_downloadMedia _ _ => true | _ => false end.

(** What holds of the object between two calls of its slots. *)
Definition session_invariant (c : GatewayClient) : Prop :=
  (* stub and channel come and go together, the stub bound to the channel,
     the channel made for the address *)
  match m_stub c with
  | None =>
      m_channel c = None /\ m_address c = "" /\ m_workers c = [] /\
      joinable (m_connMonitorThread c) = false /\ m_connected c = false
  | Some stub =>
      m_channel c = Some (grpc.stub_channel stub) /\
      grpc.target (grpc.stub_channel stub) = Qt.toStdString (m_address c) /\
      body (m_connMonitorThread c) = Some Job_connectionMonitor /\
      m_stopMonitor c = false
  end /\
  (* every tracked worker is joinable, a one-shot body on the current stub *)
  Forall
    (fun t =>
       exists job : Job,
         body t = Some job /\ is_worker_job job = true /\
         job_stub job = m_stub c)
    (m_workers c) /\
  streaming_slot_ok (m_stub c) (m_sysStateThread c) (m_sysStateCtx c)
    is_sysState_job /\
  streaming_slot_ok (m_stub c) (m_eventsThread c) (m_eventsCtx c)
    is_events_job /\
  streaming_slot_ok (m_stub c) (m_downloadThread c) (m_downloadCtx c)
    is_download_job.

(** The bodies a list of actions joined, in order. *)
Fixpoint joined (acts : list Action) : list Job :=
  match acts with
  | [] => []
  | Joined job :: rest => job :: joined rest
  | _ :: rest => joined rest
  end.

(** The bodies the threads of a list hold, in order. *)
Fixpoint bodies (threads : list thread) : list Job :=
  match threads with
  | [] => []
  | t :: rest =>
      match body t with
      | Some job => job :: bodies rest
      | None => bodies rest
      end
  end.

(** The thread a one-shot call starts on a stub. *)
Definition job_of (call : OneShotCall) (stub : grpc.Stub) : Job :=
  match call with
  | Call_uploadCad filePath => Job_uploadCad filePath stub
  | Call_setInspectionTargets modelId targets config operatorId =>
      Job_setInspectionTargets stub modelId targets config operatorId
  | Call_planInspection modelId taskName options =>
      Job_planInspection stub modelId taskName options
  | Call_getPlan planId => Job_getPlan stub planId
  | Call_startInspection planId dryRun => Job_startInspection stub planId dryRun
  | Call_pauseInspection taskId reason =>
      Job_runControlRpc stub taskId reason PauseInspection
  | Call_resumeInspection taskId reason =>
      Job_runControlRpc stub taskId reason ResumeInspection
  | Call_stopInspection taskId reason =>
      Job_runControlRpc stub taskId reason StopInspection
  | Call_getTaskStatus taskId => Job_getTaskStatus stub taskId
  | Call_getNavMap mapId => Job_getNavMap stub mapId
  | Call_listCaptures taskId pointId => Job_listCaptures stub taskId pointId
  end.

Definition is_control_call (call : OneShotCall) : bool :=
  match call with
  | Call_pauseInspection _ _ | Call_resumeInspection _ _
  | Call_stopInspection _ _ => true
  | _ => false
  end.

(** The object as [disconnectFromGateway] leaves it: no Session, no thread,
    the contexts cancelled, the monitor told to stop. *)
Definition disconnected (c : GatewayClient) : GatewayClient :=
  {| m_address := ""; m_channel := None; m_stub := None; m_workers := [];
     m_sysStateThread := thread_default; m_eventsThread := thread_default;
     m_downloadThread := thread_default;
     m_connMonitorThread := thread_default;
     m_sysStateCtx := cancel (m_sysStateCtx c);
     m_eventsCtx := cancel (m_eventsCtx c);
     m_downloadCtx := cancel (m_downloadCtx c);
     m_stopMonitor := true; m_connected := false |}.

(** The object as [connectToGateway] leaves it: a Session for the address
    and the monitor thread, nothing else running. *)
Definition connected_to (address : Qt.QString) (c : GatewayClient)
  : GatewayClient :=
  let ch := {| grpc.target := Qt.toStdString address |} in
  {| m_address := address; m_channel := Some ch;
     m_stub := Some {| grpc.stub_channel := ch |}; m_workers := [];
     m_sysStateThread := thread_default; m_eventsThread := thread_default;
     m_downloadThread := thread_default;
     m_connMonitorThread := {| body := Some Job_connectionMonitor |};
     m_sysStateCtx := cancel (m_sysStateCtx c);
     m_eventsCtx := cancel (m_eventsCtx c);
     m_downloadCtx := cancel (m_downloadCtx c);
     m_stopMonitor := false; m_connected := false |}.

(** The threads of the object in the order [disconnectFromGateway] joins
    them. *)
Definition threads_of (c : GatewayClient) : list thread :=
  m_sysStateThread c :: m_eventsThread c :: m_downloadThread c
  :: m_connMonitorThread c :: m_workers c.

(** The value [m_connected.exchange(false)] finds in a disconnect: the
    last one the monitor thread stored before it was joined, or, if it
    stored none or was not running, the one the flag held on entry. *)
Definition flag_at_exchange (stores : list bool) (c : GatewayClient) : bool :=
  if joinable (m_connMonitorThread c) then last stores (m_connected c)
  else m_connected c.

(** The notifications of the monitor thread during a disconnect. *)
Definition monitor_reports (stores : list bool) (c : GatewayClient)
  : list Signal :=
  if joinable (m_connMonitorThread c) then map connectionStateChanged stores
  else [].

(** The signal a disconnect queues itself. *)
Definition liveness_lost (stores : list bool) (c : GatewayClient)
  : list Signal :=
  if flag_at_exchange stores c then [connectionStateChanged false] else [].

(** A client with a Session whose liveness flag is still false, the monitor
    running. *)
Definition connecting_client : GatewayClient :=
  let ch := {| grpc.target := "gateway:50051" |} in
  {| m_address := "gateway:50051"; m_channel := Some ch;
     m_stub := Some {| grpc.stub_channel := ch |}; m_workers := [];
     m_sysStateThread := thread_default; m_eventsThread := thread_default;
     m_downloadThread := thread_default;
     m_connMonitorThread := {| body := Some Job_connectionMonitor |};
     m_sysStateCtx := None; m_eventsCtx := None; m_downloadCtx := None;
     m_stopMonitor := false; m_connected := false |}.

(** The object as [stopSubscriptions] leaves it: the three contexts
    cancelled, the three streaming threads joined, the rest untouched. *)
Definition subscriptions_stopped (c : GatewayClient) : GatewayClient :=
  set_threads thread_default thread_default thread_default
    (m_connMonitorThread c)
    (set_contexts (cancel (m_sysStateCtx c)) (cancel (m_eventsCtx c))
       (cancel (m_downloadCtx c)) c).

(** What a streaming call does once the previous instance is joined: with a
    stub it starts the thread, without one it queues the error text. *)
Definition restart (stub : option grpc.Stub) (job : grpc.Stub -> Job)
  (not_connected_text : Qt.QString) : thread * list Action :=
  match stub with
  | Some s => ({| body := Some (job s) |}, [Started (job s)])
  | None => (thread_default, [Queued (errorOccurred not_connected_text)])
  end.

(** A pose in the map frame whose coordinates are what narrowing makes of
    decimal fractions no binary number equals. *)
Definition sample_pose : hmi.Pose3D.t :=
  {| hmi.Pose3D.position :=
       {| Qt.v_x := Cxx.to_float 0.1%float;
          Qt.v_y := Cxx.to_float (-2.7)%float;
          Qt.v_z := Cxx.to_float 1e-3%float |};
     hmi.Pose3D.orientation :=
       {| Qt.q_scalar := Cxx.to_float 0.7071067811865476%float;
          Qt.q_x := Cxx.zerof;
          Qt.q_y := Cxx.to_float 0.7071067811865476%float;
          Qt.q_z := Cxx.zerof |};
     hmi.Pose3D.frameId := "map" |}.

(** What a chunk handed to [Write] looks like. *)
Definition well_formed_chunk (uploadId filename : string)
  (chunk : proto.UploadCadChunk) : Prop :=
  proto.upload_id chunk = uploadId /\ proto.filename chunk = filename /\
  0 < Qt.size (proto.data chunk) <= CHUNK_SIZE.

(* ====================================================================== *)
(** * Properties *)
(* ====================================================================== *)

(** ** Integer casts *)

Lemma to_qint64_id (z : Z) : int64_range z -> Cxx.to_qint64 z = z.
Proof.
  unfold int64_range, Cxx.to_qint64, Cxx.wrap_signed. intros H.
  change (2 ^ (64 - 1)) with 9223372036854775808 in *.
  change (2 ^ 64) with 18446744073709551616.
  change (2 ^ 63) with 9223372036854775808 in H.
  rewrite Z.mod_small; lia.
Qed.

Lemma to_int_id (z : Z) : - 2 ^ 31 <= z < 2 ^ 31 -> Cxx.to_int z = z.
Proof.
  unfold Cxx.to_int, Cxx.wrap_signed. intros H.
  change (2 ^ (32 - 1)) with 2147483648 in *.
  change (2 ^ 32) with 4294967296.
  change (2 ^ 31) with 2147483648 in H.
  rewrite Z.mod_small; lia.
Qed.

(** ** Timestamps *)

Lemma fromTimestamp_zero :
  fromTimestamp {| proto.seconds := 0; proto.nanos := 0 |} = Qt.QDateTime_null.
Proof. reflexivity. Qed.

Lemma fromTimestamp_present (ts : proto.Timestamp) :
  proto.seconds ts <> 0 \/ proto.nanos ts <> 0 ->
  fromTimestamp ts
  = Qt.setSecsSinceEpoch Qt.QDateTime_null (Cxx.to_qint64 (proto.seconds ts)).
Proof.
  intros H. unfold fromTimestamp.
  destruct (Z.eqb_spec (proto.seconds ts) 0) as [Es | Es];
    destruct (Z.eqb_spec (proto.nanos ts) 0) as [En | En];
    simpl; try reflexivity.
  destruct H; contradiction.
Qed.

Lemma fits_qint64_iff (secs : Z) :
  Qt.fits_qint64 (secs * 1000) = true <-> datetime_range secs.
Proof.
  unfold Qt.fits_qint64, datetime_range.
  rewrite andb_true_iff, Z.leb_le, Z.leb_le. reflexivity.
Qed.

Lemma datetime_range_int64 (secs : Z) : datetime_range secs -> int64_range secs.
Proof.
  unfold datetime_range, int64_range, Cxx.INT64_MAX.
  change (2 ^ 63) with 9223372036854775808. lia.
Qed.

Lemma timestamp_datetime_range (secs : Z) :
  timestamp_range secs -> datetime_range secs.
Proof.
  unfold timestamp_range, datetime_range, Cxx.INT64_MAX.
  change (2 ^ 63) with 9223372036854775808. lia.
Qed.

(** Inside the range the instant is the seconds given, to the
    millisecond; outside it the result is null. *)
Lemma setSecsSinceEpoch_spec (secs : Z) :
  (datetime_range secs ->
   Qt.setSecsSinceEpoch Qt.QDateTime_null secs
   = Qt.QDateTime_msecs (secs * 1000)) /\
  (~ datetime_range secs ->
   Qt.setSecsSinceEpoch Qt.QDateTime_null secs = Qt.QDateTime_null).
Proof.
  unfold Qt.setSecsSinceEpoch.
  destruct (Qt.fits_qint64 (secs * 1000)) eqn:E.
  - apply fits_qint64_iff in E. split; [reflexivity | contradiction].
  - split; [| reflexivity].
    intros H. apply fits_qint64_iff in H. congruence.
Qed.

(** C3 as stated fails for seconds beyond what a [QDateTime] holds: the
    timestamp below has non-zero seconds and converts to the null value,
    as does the one a second later, so that no way back to the wire can
    give the seconds again. *)
Lemma fromTimestamp_beyond_range :
  proto.seconds far_timestamp <> 0 /\
  int64_range (proto.seconds far_timestamp) /\
  fromTimestamp far_timestamp = Qt.QDateTime_null /\
  proto.seconds (toTimestamp (fromTimestamp far_timestamp)) = 0 /\
  fromTimestamp
    {| proto.seconds := proto.seconds far_timestamp + 1; proto.nanos := 0 |}
  = fromTimestamp far_timestamp.
Proof.
  split; [discriminate |].
  split; [unfold int64_range; simpl; lia |].
  repeat split.
Qed.

(** C3, amended.  A wire timestamp with both fields zero converts to the
    null [QDateTime] and not to the instant of the epoch.  A valid wire
    timestamp (years 1 to 9999) with non-zero seconds converts to the
    instant of these seconds, and taken back to the wire it has the same
    seconds; one whose seconds, in milliseconds, do not fit a [qint64]
    converts to the null value.  The absent domain value, taken to the wire
    and back, is absent again. *)
Theorem fromTimestamp_roundtrip :
  forall ts : proto.Timestamp,
    (proto.seconds ts = 0 -> proto.nanos ts = 0 ->
       fromTimestamp ts = Qt.QDateTime_null /\
       fromTimestamp ts <> Qt.setSecsSinceEpoch Qt.QDateTime_null 0) /\
    (proto.seconds ts <> 0 -> timestamp_range (proto.seconds ts) ->
       Qt.isNull (fromTimestamp ts) = false /\
       Qt.toSecsSinceEpoch (fromTimestamp ts) = proto.seconds ts /\
       proto.seconds (toTimestamp (fromTimestamp ts)) = proto.seconds ts /\
       fromTimestamp (toTimestamp (fromTimestamp ts)) = fromTimestamp ts) /\
    (int64_range (proto.seconds ts) -> ~ datetime_range (proto.seconds ts) ->
       fromTimestamp ts = Qt.QDateTime_null) /\
    fromTimestamp (toTimestamp Qt.QDateTime_null) = Qt.QDateTime_null.
Proof.
  intros ts. split; [| split; [| split]].
  - intros Hs Hn. unfold fromTimestamp. rewrite Hs, Hn. simpl.
    split; [reflexivity | discriminate].
  - intros Hs Hr. apply timestamp_datetime_range in Hr.
    rewrite (fromTimestamp_present ts (or_introl Hs)).
    rewrite (to_qint64_id _ (datetime_range_int64 _ Hr)).
    rewrite (proj1 (setSecsSinceEpoch_spec _) Hr).
    assert (Hback :
      toTimestamp (Qt.QDateTime_msecs (proto.seconds ts * 1000))
      = {| proto.seconds := proto.seconds ts; proto.nanos := 0 |}).
    { unfold toTimestamp. simpl. now rewrite Z.quot_mul by lia. }
    rewrite Hback. split; [reflexivity |].
    split; [simpl; apply Z.quot_mul; lia |]. split; [reflexivity |].
    rewrite fromTimestamp_present by (left; exact Hs).
    simpl. rewrite (to_qint64_id _ (datetime_range_int64 _ Hr)).
    apply (proj1 (setSecsSinceEpoch_spec _) Hr).
  - intros Hi Hr. destruct (Z.eq_dec (proto.seconds ts) 0) as [E | E].
    + exfalso. apply Hr. rewrite E. unfold datetime_range; simpl.
      unfold Cxx.INT64_MAX; simpl; lia.
    + rewrite (fromTimestamp_present ts (or_introl E)).
      rewrite (to_qint64_id _ Hi).
      apply (proj2 (setSecsSinceEpoch_spec _) Hr).
  - reflexivity.
Qed.

Lemma fromTimestamp_roundtrip_witness :
  fromTimestamp {| proto.seconds := 0; proto.nanos := 0 |} = Qt.QDateTime_null
  /\ Qt.toSecsSinceEpoch
       (fromTimestamp {| proto.seconds := 1700000000; proto.nanos := 42 |})
     = 1700000000
  /\ fromTimestamp far_timestamp = Qt.QDateTime_null.
Proof.
  split; [| split].
  - apply (proj1 (fromTimestamp_roundtrip
                    {| proto.seconds := 0; proto.nanos := 0 |}));
      reflexivity.
  - apply (proj1 (proj2 (fromTimestamp_roundtrip
                    {| proto.seconds := 1700000000; proto.nanos := 42 |}))).
    + simpl; lia.
    + unfold timestamp_range; simpl; lia.
  - apply (proj1 (proj2 (proj2 (fromTimestamp_roundtrip far_timestamp)))).
    + unfold int64_range; simpl; lia.
    + unfold datetime_range, Cxx.INT64_MAX; simpl; lia.
Defined.

(** C10 as stated fails where it says that only the timestamp with both
    fields zero is taken as absent: the timestamp below has neither field
    zero and converts to the null value. *)
Lemma absent_without_zero_fields :
  proto.seconds far_timestamp_nanos <> 0 /\
  proto.nanos far_timestamp_nanos <> 0 /\
  int64_range (proto.seconds far_timestamp_nanos) /\
  Qt.isNull (fromTimestamp far_timestamp_nanos) = true.
Proof.
  split; [discriminate |]. split; [discriminate |].
  split; [unfold int64_range; simpl; lia | reflexivity].
Qed.

(** C10, amended.  With seconds zero and nanos not zero the result is the
    instant of the epoch, present and not null.  Among the valid timestamps
    (years 1 to 9999) the one with both fields zero is the only one taken
    as absent; seconds whose milliseconds do not fit a [qint64] give the
    null value as well, whatever the nanos.  The nanos never reach the
    result: it is a whole number of seconds, and timestamps that agree on
    the seconds convert to the same value once the zero timestamp is set
    aside. *)
Theorem fromTimestamp_nanos_only :
  forall ts : proto.Timestamp,
    (proto.seconds ts = 0 -> proto.nanos ts <> 0 ->
       fromTimestamp ts = Qt.QDateTime_msecs 0 /\
       fromTimestamp ts = Qt.setSecsSinceEpoch Qt.QDateTime_null 0 /\
       Qt.isNull (fromTimestamp ts) = false /\
       Qt.toMSecsSinceEpoch (fromTimestamp ts) = 0) /\
    (timestamp_range (proto.seconds ts) ->
     (Qt.isNull (fromTimestamp ts) = true <->
        proto.seconds ts = 0 /\ proto.nanos ts = 0)) /\
    (int64_range (proto.seconds ts) -> ~ datetime_range (proto.seconds ts) ->
     Qt.isNull (fromTimestamp ts) = true) /\
    (forall msecs : Z,
       fromTimestamp ts = Qt.QDateTime_msecs msecs ->
       msecs = Cxx.to_qint64 (proto.seconds ts) * 1000 /\
       msecs mod 1000 = 0) /\
    (forall nanos' : Z,
       proto.seconds ts <> 0 \/ (proto.nanos ts <> 0 /\ nanos' <> 0) ->
       fromTimestamp
         {| proto.seconds := proto.seconds ts; proto.nanos := nanos' |}
       = fromTimestamp ts).
Proof.
  intros [s n]; simpl. split; [| split; [| split; [| split]]].
  - intros -> Hn. rewrite fromTimestamp_present by (right; exact Hn).
    repeat split.
  - intros Hr. apply timestamp_datetime_range in Hr.
    destruct (Z.eq_dec s 0) as [Es | Es];
      [destruct (Z.eq_dec n 0) as [En | En] |].
    + subst. split; [intros _; split; reflexivity | reflexivity].
    + subst. rewrite fromTimestamp_present by (right; exact En). simpl.
      split; [discriminate | intros [_ H]; contradiction].
    + rewrite fromTimestamp_present by (left; exact Es). simpl.
      rewrite (to_qint64_id _ (datetime_range_int64 _ Hr)).
      rewrite (proj1 (setSecsSinceEpoch_spec s) Hr). simpl.
      split; [discriminate | intros [H _]; contradiction].
  - intros Hi Hr.
    destruct (Z.eq_dec s 0) as [Es | Es].
    + exfalso. apply Hr. subst.
      unfold datetime_range, Cxx.INT64_MAX; simpl; lia.
    + rewrite fromTimestamp_present by (left; exact Es). simpl.
      rewrite (to_qint64_id _ Hi).
      rewrite (proj2 (setSecsSinceEpoch_spec s) Hr). reflexivity.
  - intros msecs. unfold fromTimestamp, Qt.setSecsSinceEpoch; simpl.
    destruct ((s =? 0) && (n =? 0)); [discriminate |].
    destruct (Qt.fits_qint64 (Cxx.to_qint64 s * 1000)); [| discriminate].
    intros E. injection E as <-. split; [reflexivity | apply Z.mod_mul; lia].
  - intros n' H. unfold fromTimestamp; simpl.
    destruct (Z.eqb_spec s 0) as [Es | Es]; simpl; [| reflexivity].
    destruct H as [H | [Hn Hn']]; [contradiction |].
    destruct (Z.eqb_spec n 0); [contradiction |].
    destruct (Z.eqb_spec n' 0); [contradiction | reflexivity].
Qed.

Lemma fromTimestamp_nanos_only_witness :
  fromTimestamp {| proto.seconds := 0; proto.nanos := 500 |}
  = Qt.QDateTime_msecs 0
  /\ fromTimestamp {| proto.seconds := 0; proto.nanos := 500 |}
     = Qt.setSecsSinceEpoch Qt.QDateTime_null 0
  /\ Qt.isNull (fromTimestamp {| proto.seconds := 0; proto.nanos := 500 |})
     = false
  /\ Qt.toMSecsSinceEpoch
       (fromTimestamp {| proto.seconds := 0; proto.nanos := 500 |}) = 0.
Proof.
  apply (proj1 (fromTimestamp_nanos_only
                  {| proto.seconds := 0; proto.nanos := 500 |})).
  - reflexivity.
  - simpl; lia.
Defined.

(** ** Enumerations *)

Ltac in_labels := repeat (first [left; reflexivity | right]).

Ltac switch_default H :=
  repeat match goal with
    | |- context [?a =? ?b] =>
        destruct (Z.eqb_spec a b) as [-> | ?];
        [exfalso; apply H; simpl; in_labels |]
    end;
  reflexivity.

Ltac switch_cases H :=
  simpl in H;
  repeat (destruct H as [<- | H]; [split; [reflexivity | discriminate] |]);
  contradiction.

(** C4.  The three conversions are total.  A wire value that is none of the
    case labels converts to [Unspecified]; a wire value that is one of them
    converts to the enumerator of the same numeric value, which is not
    [Unspecified]. *)
Theorem unknown_enum_fallback :
  (forall ec : proto.ErrorCode,
     ~ In ec proto.known_error_codes ->
     fromProtoError ec = hmi.ErrorCode.Unspecified) /\
  (forall ec : proto.ErrorCode,
     In ec proto.known_error_codes ->
     hmi.ErrorCode.value (fromProtoError ec) = ec /\
     fromProtoError ec <> hmi.ErrorCode.Unspecified) /\
  (forall ph : proto.TaskPhase,
     ~ In ph proto.known_task_phases ->
     fromProtoTaskPhase ph = hmi.TaskPhase.Unspecified) /\
  (forall ph : proto.TaskPhase,
     In ph proto.known_task_phases ->
     hmi.TaskPhase.value (fromProtoTaskPhase ph) = ph /\
     fromProtoTaskPhase ph <> hmi.TaskPhase.Unspecified) /\
  (forall et : proto.InspectionEventType,
     ~ In et proto.known_event_types ->
     fromProtoEventType et = hmi.InspectionEventType.Unspecified) /\
  (forall et : proto.InspectionEventType,
     In et proto.known_event_types ->
     hmi.InspectionEventType.value (fromProtoEventType et) = et /\
     fromProtoEventType et <> hmi.InspectionEventType.Unspecified).
Proof.
  split; [intros ec H; unfold fromProtoError; switch_default H |].
  split; [intros ec H; switch_cases H |].
  split; [intros ph H; unfold fromProtoTaskPhase; switch_default H |].
  split; [intros ph H; switch_cases H |].
  split; [intros et H; unfold fromProtoEventType; switch_default H |].
  intros et H; switch_cases H.
Qed.

Lemma unknown_enum_fallback_witness :
  fromProtoError 9 = hmi.ErrorCode.Unspecified
  /\ fromProtoError (-1) = hmi.ErrorCode.Unspecified
  /\ hmi.ErrorCode.value (fromProtoError proto.BUSY) = proto.BUSY
  /\ fromProtoTaskPhase 0 = hmi.TaskPhase.Unspecified
  /\ fromProtoEventType 6 = hmi.InspectionEventType.Unspecified.
Proof.
  destruct unknown_enum_fallback as (E1 & E2 & P1 & _ & T1 & _).
  split; [apply E1; cbv; lia |].
  split; [apply E1; cbv; lia |].
  split; [apply E2; simpl; in_labels |].
  split; [apply P1; cbv; lia |].
  apply T1; cbv; lia.
Defined.

(** ** Transport status *)

Lemma grpc_ok_iff (st : grpc.Status) :
  grpc.ok st = true <-> grpc.error_code st = grpc.OK.
Proof.
  unfold grpc.ok. destruct (grpc.error_code st); simpl; split;
    intros H; try reflexivity; discriminate.
Qed.

(** C5.  A transport status that is not OK becomes a [Result] of code
    [Internal] whose message is the status's own error message; an OK status
    becomes a [Result] of code [Ok].  The conversion is total and gives no
    other code. *)
Theorem fromGrpcStatus_folds :
  forall st : grpc.Status,
    (grpc.error_code st <> grpc.OK ->
       hmi.Result.code (fromGrpcStatus st) = hmi.ErrorCode.Internal /\
       hmi.Result.message (fromGrpcStatus st)
       = Qt.fromStdString (grpc.error_message st)) /\
    (grpc.error_code st = grpc.OK ->
       hmi.Result.code (fromGrpcStatus st) = hmi.ErrorCode.Ok) /\
    (hmi.Result.code (fromGrpcStatus st) = hmi.ErrorCode.Ok \/
     hmi.Result.code (fromGrpcStatus st) = hmi.ErrorCode.Internal).
Proof.
  intros st. unfold fromGrpcStatus.
  destruct (grpc.ok st) eqn:E; simpl.
  - apply grpc_ok_iff in E.
    split; [intros H; contradiction | split; [reflexivity | left; reflexivity]].
  - split; [intros _; split; reflexivity |].
    split; [| right; reflexivity].
    intros H. apply grpc_ok_iff in H. congruence.
Qed.

Lemma fromGrpcStatus_folds_witness :
  hmi.Result.code
    (fromGrpcStatus
       {| grpc.error_code := grpc.DEADLINE_EXCEEDED;
          grpc.error_message := "Deadline Exceeded" |})
  = hmi.ErrorCode.Internal
  /\ hmi.Result.message
       (fromGrpcStatus
          {| grpc.error_code := grpc.DEADLINE_EXCEEDED;
             grpc.error_message := "Deadline Exceeded" |})
     = "Deadline Exceeded".
Proof.
  apply (proj1 (fromGrpcStatus_folds
                  {| grpc.error_code := grpc.DEADLINE_EXCEEDED;
                     grpc.error_message := "Deadline Exceeded" |})).
  simpl. discriminate.
Defined.

(** ** The one-shot calls without a Session *)

Create HintDb gateway.

#[local] Hint Unfold run state_after actions_of invoke uploadCad
  setInspectionTargets planInspection getPlan startInspection pauseInspection
  resumeInspection stopInspection controlInspection getTaskStatus getNavMap
  listCaptures invokeMethod act bind gets modify ret : gateway.

(** C1 as stated fails for the status poll: without a Session it queues an
    [errorOccurred] text, and that signal carries no [Result]. *)
Lemma getTaskStatus_no_session :
  m_stub GatewayClient_init = None /\
  run (invoke (Call_getTaskStatus "task-1")) GatewayClient_init
  = (tt, GatewayClient_init,
     [Queued (errorOccurred "GetTaskStatus: not connected")]) /\
  result_of (errorOccurred "GetTaskStatus: not connected") = None /\
  ~ no_session_short_circuit (Call_getTaskStatus "task-1") GatewayClient_init.
Proof.
  split; [reflexivity |]. split; [reflexivity |]. split; [reflexivity |].
  intros (sig & r & Hrun & Hres & _).
  autounfold with gateway in Hrun. simpl in Hrun.
  injection Hrun as <-. discriminate Hres.
Qed.

(** C1, amended.  Without a Session every one-shot call leaves the object
    as it was, starts no thread, and queues exactly one signal.  For every
    call but the status poll that signal is the completion signal of the
    call itself, with the result [Unavailable], "Not connected", and
    default values for the rest; for the status poll it is [errorOccurred]
    with the text "GetTaskStatus: not connected". *)
Theorem no_session_outcome :
  forall (call : OneShotCall) (c : GatewayClient),
    m_stub c = None ->
    exists sig : Signal,
      run (invoke call) c = (tt, c, [Queued sig]) /\
      started (actions_of (invoke call) c) = [] /\
      sig
      = match call with
        | Call_uploadCad _ => uploadCadFinished not_connected ""
        | Call_setInspectionTargets _ _ _ _ =>
            setTargetsFinished not_connected 0
        | Call_planInspection _ _ _ =>
            planInspectionFinished
              (hmi.PlanResponse.set_result not_connected hmi.PlanResponse.init)
        | Call_getPlan _ =>
            getPlanFinished
              (hmi.GetPlanResponse.set_result not_connected
                 hmi.GetPlanResponse.init)
        | Call_startInspection _ _ => startInspectionFinished not_connected ""
        | Call_pauseInspection _ _ | Call_resumeInspection _ _
        | Call_stopInspection _ _ => controlTaskFinished not_connected
        | Call_getTaskStatus _ =>
            errorOccurred "GetTaskStatus: not connected"
        | Call_getNavMap _ => navMapReceived not_connected hmi.NavMapInfo.init
        | Call_listCaptures _ _ => capturesReceived not_connected []
        end /\
      match call with
      | Call_getTaskStatus _ => result_of sig = None
      | _ =>
          exists r : hmi.Result.t,
            result_of sig = Some r /\
            hmi.Result.code r = hmi.ErrorCode.Unavailable /\
            hmi.Result.message r = "Not connected" /\
            zero_payload sig
      end.
Proof.
  intros call c H.
  destruct call; autounfold with gateway; rewrite H; simpl;
    eexists; (split; [reflexivity |]); (split; [reflexivity |]);
    (split; [reflexivity |]);
    try reflexivity;
    eexists; (split; [reflexivity |]); repeat split.
Qed.

Lemma no_session_outcome_witness :
  exists sig : Signal,
    run (invoke (Call_setInspectionTargets "model-1" []
                   hmi.CaptureConfig.init "operator"))
      GatewayClient_init
    = (tt, GatewayClient_init, [Queued sig]) /\
    started
      (actions_of
         (invoke (Call_setInspectionTargets "model-1" []
                    hmi.CaptureConfig.init "operator"))
         GatewayClient_init) = [] /\
    sig = setTargetsFinished not_connected 0 /\
    exists r : hmi.Result.t,
      result_of sig = Some r /\
      hmi.Result.code r = hmi.ErrorCode.Unavailable /\
      hmi.Result.message r = "Not connected" /\
      zero_payload sig.
Proof.
  apply (no_session_outcome
           (Call_setInspectionTargets "model-1" [] hmi.CaptureConfig.init
              "operator")
           GatewayClient_init).
  reflexivity.
Defined.

(** With a Session the same call starts its thread instead. *)
Example setInspectionTargets_with_session :
  let ch := {| grpc.target := "gateway:50051" |} in
  let stub := {| grpc.stub_channel := ch |} in
  let c := set_session "gateway:50051" (Some ch) (Some stub)
             GatewayClient_init in
  actions_of (setInspectionTargets "model-1" [] hmi.CaptureConfig.init "op") c
  = [Started (Job_setInspectionTargets stub "model-1" []
                hmi.CaptureConfig.init "op")].
Proof. reflexivity. Qed.

(** ** Disconnecting *)

Lemma queued_app (a b : list Action) : queued (a ++ b) = queued a ++ queued b.
Proof.
  induction a as [| x a IH]; simpl; [reflexivity |].
  destruct x; simpl; rewrite IH; reflexivity.
Qed.

Lemma started_app (a b : list Action) :
  started (a ++ b) = started a ++ started b.
Proof.
  induction a as [| x a IH]; simpl; [reflexivity |].
  destruct x; simpl; rewrite IH; reflexivity.
Qed.

Lemma joined_app (a b : list Action) : joined (a ++ b) = joined a ++ joined b.
Proof.
  induction a as [| x a IH]; simpl; [reflexivity |].
  destruct x; simpl; rewrite IH; reflexivity.
Qed.

Lemma queued_joined (jobs : list Job) : queued (map Joined jobs) = [].
Proof. induction jobs; simpl; auto. Qed.

Lemma started_joined (jobs : list Job) : started (map Joined jobs) = [].
Proof. induction jobs; simpl; auto. Qed.

Lemma joined_joined (jobs : list Job) : joined (map Joined jobs) = jobs.
Proof. induction jobs as [| j jobs IH]; simpl; [| rewrite IH]; reflexivity. Qed.

Lemma queued_queued (sigs : list Signal) : queued (map Queued sigs) = sigs.
Proof. induction sigs as [| x sigs IH]; simpl; [| rewrite IH]; reflexivity. Qed.

Lemma started_queued (sigs : list Signal) : started (map Queued sigs) = [].
Proof. induction sigs; simpl; auto. Qed.

Lemma joined_queued (sigs : list Signal) : joined (map Queued sigs) = [].
Proof. induction sigs; simpl; auto. Qed.

Lemma last_cons_default {A : Type} (a d : A) (l : list A) :
  last (a :: l) d = last l a.
Proof.
  revert a d. induction l as [| b l IH]; intros a d; [reflexivity |].
  change (last (a :: b :: l) d) with (last (b :: l) d).
  rewrite (IH b d), (IH b a). reflexivity.
Qed.

(** Joining the workers changes nothing in the object. *)
Lemma join_each_trace (workers : list thread) (c : GatewayClient) :
  join_each workers c = (tt, c, map Joined (bodies workers)).
Proof.
  induction workers as [| [[job |]] rest IH]; simpl; [reflexivity | |];
    unfold bind, join, joinable, act, ret; simpl; rewrite IH; reflexivity.
Qed.

(** The turns of the monitor leave in the flag the last value they stored
    and queue one notification per store. *)
Lemma monitor_turns_trace (stores : list bool) :
  forall c : GatewayClient,
    monitor_turns stores c
    = (tt, set_m_connected (last stores (m_connected c)) c,
       map Queued (map connectionStateChanged stores)).
Proof.
  induction stores as [| nowReady rest IH]; intros c.
  - destruct c; reflexivity.
  - cbn [monitor_turns]. unfold bind, modify, invokeMethod, act.
    rewrite IH. rewrite last_cons_default. destruct c; reflexivity.
Qed.

#[local] Hint Unfold disconnectFromGateway stopSubscriptions cancelAllContexts
  stopConnectionMonitor joinAllWorkers exchange_m_connected join_member join
  joinable : gateway.

(** A disconnect from any state, step by step: the streaming threads are
    joined, the monitor makes its last turns and is joined, the workers are
    joined, and the exchange of the flag decides on the last signal. *)
Lemma disconnect_trace (stores : list bool) (c : GatewayClient) :
  run (disconnectFromGateway stores) c
  = (tt, disconnected c,
     map Joined
       (bodies [m_sysStateThread c; m_eventsThread c; m_downloadThread c])
     ++ map Queued (monitor_reports stores c)
     ++ map Joined (bodies (m_connMonitorThread c :: m_workers c))
     ++ map Queued (liveness_lost stores c)).
Proof.
  destruct c as [addr ch stub workers [sys] [ev] [dl] [mon] csys cev cdl stop
                   conn].
  unfold liveness_lost, monitor_reports, flag_at_exchange, disconnected.
  autounfold with gateway. simpl.
  destruct sys, ev, dl, mon; simpl;
    rewrite ?monitor_turns_trace; simpl; rewrite join_each_trace; simpl;
    try destruct (last stores conn); try destruct conn; simpl;
    rewrite ?app_nil_r, <- ?app_assoc; reflexivity.
Qed.

Lemma bodies_app (a b : list thread) : bodies (a ++ b) = bodies a ++ bodies b.
Proof.
  induction a as [| [[job |]] a IH]; simpl; [reflexivity | |];
    rewrite IH; reflexivity.
Qed.

(** What a disconnect joins, starts and queues. *)
Lemma disconnect_actions (stores : list bool) (c : GatewayClient) :
  joined (actions_of (disconnectFromGateway stores) c) = bodies (threads_of c) /\
  started (actions_of (disconnectFromGateway stores) c) = [] /\
  queued (actions_of (disconnectFromGateway stores) c)
  = monitor_reports stores c ++ liveness_lost stores c.
Proof.
  pose proof (disconnect_trace stores c) as T. unfold run in T.
  unfold actions_of. rewrite T. cbn [snd].
  rewrite !joined_app, !started_app, !queued_app.
  rewrite !joined_joined, !joined_queued, !started_joined, !started_queued,
    !queued_joined, !queued_queued.
  rewrite !app_nil_r. cbn [app].
  split; [| split; reflexivity].
  change (threads_of c)
    with ([m_sysStateThread c; m_eventsThread c; m_downloadThread c]
          ++ m_connMonitorThread c :: m_workers c).
  rewrite bodies_app. reflexivity.
Qed.

Lemma disconnected_idle (again : list bool) (c : GatewayClient) :
  run (disconnectFromGateway again) (disconnected c) = (tt, disconnected c, []).
Proof.
  rewrite disconnect_trace.
  destruct c as [addr ch stub workers sys ev dl mon [[d1 x1] |] [[d2 x2] |]
                   [[d3 x3] |] stop conn]; reflexivity.
Qed.

(** C9 as stated fails when the monitor thread stores into the flag while
    the disconnect is on its way to join it.  The client below has a
    Session and a flag that is still false; the monitor sees the channel
    ready during the call: the flag was false before the call, and the
    call queues [connectionStateChanged(false)] all the same. *)
Lemma disconnect_after_monitor_store :
  connecting_client
  = state_after (connectToGateway "gateway:50051" []) GatewayClient_init /\
  m_connected connecting_client = false /\
  queued (actions_of (disconnectFromGateway [true]) connecting_client)
  = [connectionStateChanged true; connectionStateChanged false] /\
  In (connectionStateChanged false)
    (queued (actions_of (disconnectFromGateway [true]) connecting_client)).
Proof.
  split; [reflexivity |]. split; [reflexivity |].
  split; [reflexivity | right; left; reflexivity].
Qed.

(** C9, amended.  From any state, and whatever the monitor thread stores
    meanwhile, [disconnectFromGateway] leaves the object without a Session:
    [isConnected] is false, [currentAddress] is empty, stub and channel are
    gone.  After the notifications of the monitor it queues one signal of
    its own, [connectionStateChanged(false)], exactly when the flag is true
    at the exchange: that is the value the flag held before the call when
    the monitor stored nothing or was not running, and the last value the
    monitor stored otherwise.  Called again on the object it left, it
    changes nothing and does nothing: no signal, no join. *)
Theorem disconnect_idempotent :
  forall (c : GatewayClient) (stores : list bool),
    isConnected (state_after (disconnectFromGateway stores) c) = false /\
    currentAddress (state_after (disconnectFromGateway stores) c) = "" /\
    m_stub (state_after (disconnectFromGateway stores) c) = None /\
    m_channel (state_after (disconnectFromGateway stores) c) = None /\
    queued (actions_of (disconnectFromGateway stores) c)
    = (if joinable (m_connMonitorThread c)
       then map connectionStateChanged stores else [])
      ++ (if flag_at_exchange stores c then [connectionStateChanged false]
          else []) /\
    flag_at_exchange [] c = m_connected c /\
    (joinable (m_connMonitorThread c) = false ->
     flag_at_exchange stores c = m_connected c) /\
    (joinable (m_connMonitorThread c) = true ->
     flag_at_exchange stores c = last stores (m_connected c)) /\
    queued (actions_of (disconnectFromGateway []) c)
    = (if m_connected c then [connectionStateChanged false] else []) /\
    (forall again : list bool,
       run (disconnectFromGateway again)
         (state_after (disconnectFromGateway stores) c)
       = (tt, state_after (disconnectFromGateway stores) c, [])).
Proof.
  intros c stores.
  pose proof (disconnect_trace stores c) as T.
  destruct (disconnect_actions stores c) as (_ & _ & Q).
  destruct (disconnect_actions [] c) as (_ & _ & Q0).
  unfold state_after. unfold run in T. rewrite T. cbn [fst snd].
  split; [reflexivity |]. split; [reflexivity |]. split; [reflexivity |].
  split; [reflexivity |]. split; [exact Q |].
  split; [unfold flag_at_exchange; destruct (joinable _); reflexivity |].
  split; [intros E; unfold flag_at_exchange; rewrite E; reflexivity |].
  split; [intros E; unfold flag_at_exchange; rewrite E; reflexivity |].
  split.
  - rewrite Q0. unfold monitor_reports, liveness_lost, flag_at_exchange.
    destruct (joinable _); reflexivity.
  - intros again. apply disconnected_idle.
Qed.

(** A connected client with a subscription and a worker running, the
    monitor seeing the connection drop while it is at it: the monitor
    reports the loss, and the disconnect has nothing to add. *)
Example disconnect_connected_client :
  let ch := {| grpc.target := "gateway:50051" |} in
  let stub := {| grpc.stub_channel := ch |} in
  let c :=
    {| m_address := "gateway:50051"; m_channel := Some ch;
       m_stub := Some stub;
       m_workers := [ {| body := Some (Job_getPlan stub "plan-7") |} ];
       m_sysStateThread :=
         {| body := Some (Job_subscribeSystemState stub "") |};
       m_eventsThread := thread_default;
       m_downloadThread := thread_default;
       m_connMonitorThread := {| body := Some Job_connectionMonitor |};
       m_sysStateCtx := Some grpc.ClientContext_new;
       m_eventsCtx := None; m_downloadCtx := None;
       m_stopMonitor := false; m_connected := true |} in
  actions_of (disconnectFromGateway []) c
  = [Joined (Job_subscribeSystemState stub "");
     Joined Job_connectionMonitor;
     Joined (Job_getPlan stub "plan-7");
     Queued (connectionStateChanged false)] /\
  actions_of (disconnectFromGateway [false]) c
  = [Joined (Job_subscribeSystemState stub "");
     Queued (connectionStateChanged false);
     Joined Job_connectionMonitor;
     Joined (Job_getPlan stub "plan-7")].
Proof. split; reflexivity. Qed.

(** ** The upload thread *)

Lemma progress_of_app (a b : list Signal) :
  progress_of (a ++ b) = progress_of a ++ progress_of b.
Proof.
  induction a as [| x a IH]; simpl; [reflexivity |].
  destruct x; simpl; rewrite ?IH; reflexivity.
Qed.

Lemma finished_of_app (a b : list Signal) :
  finished_of (a ++ b) = finished_of a ++ finished_of b.
Proof.
  induction a as [| x a IH]; simpl; [reflexivity |].
  destruct x; simpl; rewrite ?IH; reflexivity.
Qed.

Lemma prefix_length (len : Z) (buf : list byte) :
  (List.length (Qt.prefix len buf) <= List.length buf)%nat.
Proof.
  revert len. induction buf as [| b rest IH]; intros len; simpl; [lia |].
  destruct (len <=? 0); simpl; [lia |]. specialize (IH (len - 1)). lia.
Qed.

Lemma prefix_all (len : Z) (buf : list byte) :
  Z.of_nat (List.length buf) <= len -> Qt.prefix len buf = buf.
Proof.
  revert len. induction buf as [| b rest IH]; intros len H; simpl;
    [reflexivity |].
  simpl in H. destruct (Z.leb_spec len 0); [lia |].
  rewrite IH by lia. reflexivity.
Qed.

(** A read of a positive size returns nothing only from an empty buffer. *)
Lemma read_empty (maxSize : Z) (next : Qt.QByteArray) :
  0 < maxSize -> Qt.isEmpty (Qt.read maxSize next) = true -> next = [].
Proof.
  intros Hn H. unfold Qt.read in H.
  destruct next as [| b rest]; [reflexivity |]. simpl in H.
  destruct (Z.leb_spec maxSize 0); [lia | discriminate H].
Qed.

Lemma read_size (maxSize : Z) (next : Qt.QByteArray) :
  0 <= Qt.size (Qt.read maxSize next) <= Qt.size next.
Proof.
  unfold Qt.size, Qt.read. pose proof (prefix_length maxSize next). lia.
Qed.

(** The signals of the loop: progress reports, closed by the failure signal
    exactly when a write was refused. *)
Lemma upload_loop_signals (writer : ClientWriter) (uploadId filename : string)
  (totalBytes : Z) (to_read : list Qt.QByteArray) :
  forall bytesSent chunkIndex lastPercent : Z,
    let run :=
      upload_loop writer uploadId filename totalBytes to_read bytesSent
        chunkIndex lastPercent in
    match exit run with
    | CannotOpen => False
    | AtEnd => signals run = map uploadCadProgress (progress_of (signals run))
    | EmptyRead =>
        signals run = map uploadCadProgress (progress_of (signals run)) /\
        In [] to_read
    | StreamBroken =>
        exists (r : hmi.Result.t) (refused : proto.UploadCadChunk),
          signals run
          = map uploadCadProgress (progress_of (signals run))
            ++ [uploadCadFinished r ""] /\
          hmi.Result.code r = hmi.ErrorCode.Internal /\
          last (sent run) refused = refused /\
          In refused (sent run) /\
          Write writer refused = false
    end.
Proof.
  induction to_read as [| next rest IH]; intros bytesSent chunkIndex lastPercent;
    simpl; [reflexivity |].
  destruct (Qt.isEmpty (Qt.read CHUNK_SIZE next)) eqn:Eempty; simpl.
  - split; [reflexivity |]. left.
    apply (read_empty CHUNK_SIZE next); [reflexivity | exact Eempty].
  - match goal with
    | |- context [Write writer ?c] => destruct (Write writer c) eqn:Ew
    end; simpl.
    + match goal with
      | |- context [upload_loop writer uploadId filename totalBytes rest ?b ?i ?l] =>
          specialize (IH b i l); simpl in IH;
          destruct (exit (upload_loop writer uploadId filename totalBytes
                            rest b i l)) eqn:Eexit;
          set (run := upload_loop writer uploadId filename totalBytes rest
                        b i l) in *
      end.
      * contradiction.
      * rewrite progress_of_app, map_app, <- IH.
        match goal with |- context [if ?b then _ else _] => destruct b end;
          reflexivity.
      * destruct IH as [IH Hin]. split; [| right; exact Hin].
        rewrite progress_of_app, map_app, <- IH.
        match goal with |- context [if ?b then _ else _] => destruct b end;
          reflexivity.
      * destruct IH as (r & refused & Hs & Hc & Hl & Hin & Hw).
        exists r, refused. split; [| split; [exact Hc | split; [| split]]].
        -- rewrite progress_of_app, map_app, <- app_assoc, <- Hs.
           match goal with |- context [if ?b then _ else _] => destruct b end;
             reflexivity.
        -- destruct (sent run) as [| c0 cs]; [contradiction | exact Hl].
        -- right; exact Hin.
        -- exact Hw.
    + eexists. eexists. split; [reflexivity |].
      split; [reflexivity |]. split; [reflexivity |].
      split; [left; reflexivity | exact Ew].
Qed.



(** A loop that was not left on a refused write had every chunk taken. *)
Lemma upload_loop_accepted (writer : ClientWriter) (uploadId filename : string)
  (totalBytes : Z) (to_read : list Qt.QByteArray) :
  forall bytesSent chunkIndex lastPercent : Z,
    exit (upload_loop writer uploadId filename totalBytes to_read bytesSent
            chunkIndex lastPercent) <> StreamBroken ->
    Forall (fun chunk => Write writer chunk = true)
      (sent (upload_loop writer uploadId filename totalBytes to_read bytesSent
               chunkIndex lastPercent)).
Proof.
  induction to_read as [| next rest IH]; intros bytesSent chunkIndex lastPercent;
    simpl; [constructor |].
  destruct (Qt.isEmpty (Qt.read CHUNK_SIZE next)); simpl; [constructor |].
  match goal with
  | |- context [Write writer ?c] => destruct (Write writer c) eqn:Ew
  end; simpl.
  - intros H. constructor; [exact Ew | apply IH; exact H].
  - intros H. contradiction.
Qed.

(** A write is refused exactly in the runs that end on it. *)
Lemma refused_iff_broken (path : Qt.QString) (uploadId : string)
  (file : Qt.QFile) (writer : ClientWriter) :
  exit (uploadCad_thread path uploadId file writer) = StreamBroken <->
  exists chunk : proto.UploadCadChunk,
    In chunk (sent (uploadCad_thread path uploadId file writer)) /\
    Write writer chunk = false.
Proof.
  unfold uploadCad_thread.
  destruct (Qt.opens file); simpl;
    [| split; [discriminate | intros (chunk & [] & _)]].
  pose proof (upload_loop_signals writer uploadId
                (Qt.toStdString (Qt.fileName path)) (Qt.file_size file)
                (Qt.pending file) 0 0 (-1)) as L.
  pose proof (upload_loop_accepted writer uploadId
                (Qt.toStdString (Qt.fileName path)) (Qt.file_size file)
                (Qt.pending file) 0 0 (-1)) as A.
  simpl in L.
  destruct (exit (upload_loop writer uploadId
                    (Qt.toStdString (Qt.fileName path))
                    (Qt.file_size file) (Qt.pending file) 0 0 (-1)))
    eqn:Eexit; try destruct (finish_upload writer) as [r modelId]; simpl;
    rewrite ?Eexit.
  - contradiction.
  - split; [discriminate |]. intros (chunk & Hin & Hw).
    specialize (A ltac:(discriminate)). rewrite Forall_forall in A.
    rewrite (A _ Hin) in Hw. discriminate Hw.
  - split; [discriminate |]. intros (chunk & Hin & Hw).
    specialize (A ltac:(discriminate)). rewrite Forall_forall in A.
    rewrite (A _ Hin) in Hw. discriminate Hw.
  - split; [| reflexivity]. intros _.
    destruct L as (r' & refused & _ & _ & _ & Hin & Hw).
    exists refused. split; assumption.
Qed.


(** ** Upload progress *)

Lemma bytes_of_nonneg (to_read : list Qt.QByteArray) : 0 <= bytes_of to_read.
Proof.
  induction to_read as [| b rest IH]; simpl; [lia |].
  pose proof (read_size CHUNK_SIZE b). lia.
Qed.

(** While the bytes sent stay below a limit whose percentage fits the
    integers of the computation, the casts lose nothing. *)
Lemma percent_exact (totalBytes limit bytesSent : Z) :
  0 < totalBytes -> limit * 100 <= Cxx.INT64_MAX ->
  limit * 100 / totalBytes <= Cxx.INT_MAX ->
  0 <= bytesSent <= limit ->
  Cxx.to_int (Z.quot (Cxx.to_qint64 (bytesSent * 100)) totalBytes)
  = bytesSent * 100 / totalBytes /\
  0 <= bytesSent * 100 / totalBytes <= limit * 100 / totalBytes.
Proof.
  unfold Cxx.INT64_MAX, Cxx.INT_MAX.
  change (2 ^ 63) with 9223372036854775808.
  change (2 ^ 31) with 2147483648.
  intros Ht Hmax Hint Hb.
  assert (Hq : 0 <= bytesSent * 100 / totalBytes <= limit * 100 / totalBytes).
  { split; [apply Z.div_pos; lia |]. apply Z.div_le_mono; lia. }
  rewrite to_qint64_id
    by (unfold int64_range; change (2 ^ 63) with 9223372036854775808; lia).
  rewrite Z.quot_div_nonneg by lia.
  rewrite to_int_id by (change (2 ^ 31) with 2147483648; lia).
  split; [reflexivity | exact Hq].
Qed.

(** The invariant of the read loop: the reports are strictly increasing,
    each above the last value reported before and at most the percentage
    of the limit. *)
Lemma upload_loop_progress (writer : ClientWriter)
  (uploadId filename : string) (totalBytes limit : Z) :
  0 < totalBytes -> limit * 100 <= Cxx.INT64_MAX ->
  limit * 100 / totalBytes <= Cxx.INT_MAX ->
  forall (to_read : list Qt.QByteArray) (bytesSent chunkIndex lastPercent : Z),
    0 <= bytesSent ->
    bytesSent + bytes_of to_read <= limit ->
    lastPercent <= bytesSent * 100 / totalBytes ->
    StronglySorted Z.lt
      (progress_of
         (signals
            (upload_loop writer uploadId filename totalBytes to_read
               bytesSent chunkIndex lastPercent))) /\
    Forall (fun p => lastPercent < p <= limit * 100 / totalBytes)
      (progress_of
         (signals
            (upload_loop writer uploadId filename totalBytes to_read
               bytesSent chunkIndex lastPercent))).
Proof.
  intros Ht Hmax Hint.
  induction to_read as [| next rest IH];
    intros bytesSent chunkIndex lastPercent Hb Hsum Hlast; simpl.
  - split; constructor.
  - destruct (Qt.isEmpty (Qt.read CHUNK_SIZE next)); simpl;
      [split; constructor |].
    match goal with
    | |- context [Write writer ?c] => destruct (Write writer c)
    end; simpl; [| split; constructor].
    simpl in Hsum.
    pose proof (read_size CHUNK_SIZE next) as Hn.
    pose proof (bytes_of_nonneg rest) as Hrest.
    set (n := Qt.size (Qt.read CHUNK_SIZE next)) in *.
    assert (Hmax' : limit * 100 <= 9223372036854775807) by (exact Hmax).
    rewrite (to_qint64_id (bytesSent + n))
      by (unfold int64_range; change (2 ^ 63) with 9223372036854775808; lia).
    destruct (percent_exact totalBytes limit (bytesSent + n) Ht Hmax Hint)
      as [Epct Hpct]; [lia |].
    rewrite Epct. set (pct := (bytesSent + n) * 100 / totalBytes) in *.
    assert (Hmono : lastPercent <= pct).
    { apply Z.le_trans with (bytesSent * 100 / totalBytes); [exact Hlast |].
      apply Z.div_le_mono; lia. }
    replace (0 <? totalBytes) with true by (symmetry; apply Z.ltb_lt; exact Ht).
    simpl.
    destruct (Z.eqb_spec pct lastPercent) as [Eq | Neq]; simpl.
    + apply IH; [lia | lia | fold pct; lia].
    + destruct (IH (bytesSent + n) (Cxx.to_uint32 (chunkIndex + 1)) pct)
        as [Hs Hf]; [lia | lia | fold pct; lia |].
      split.
      * constructor; [exact Hs |].
        eapply Forall_impl; [| exact Hf]. simpl. intros a Ha. lia.
      * constructor; [lia |].
        eapply Forall_impl; [| exact Hf]. simpl. intros a Ha. lia.
Qed.

Lemma increasing_non_decreasing (l : list Z) :
  StronglySorted Z.lt l -> Sorted Z.le l.
Proof.
  induction 1 as [| a l Hs IH Hf]; constructor; [exact IH |].
  destruct l as [| b l]; constructor.
  inversion Hf; subst. lia.
Qed.

Lemma increasing_no_adjacent_equal (l : list Z) :
  StronglySorted Z.lt l -> no_adjacent_equal l.
Proof.
  induction 1 as [| a l Hs IH Hf]; simpl; [exact I |].
  destruct l as [| b l]; [exact I |].
  split; [| exact IH]. inversion Hf; subst. lia.
Qed.

Lemma Sorted_le_nth (l : list Z) :
  Sorted Z.le l ->
  forall i : nat, (S i < List.length l)%nat -> nth i l 0 <= nth (S i) l 0.
Proof.
  induction 1 as [| a l Hs IH Hhd]; intros i Hi; simpl in Hi; [lia |].
  destruct i as [| j].
  - destruct Hhd as [| b l' Hab]; [simpl in Hi; lia | exact Hab].
  - change (nth j l 0 <= nth (S j) l 0). apply IH. lia.
Qed.

Lemma doubled_size (n : nat) (buf : Qt.QByteArray) :
  Qt.size (doubled n buf) = 2 ^ Z.of_nat n * Qt.size buf.
Proof.
  revert buf. induction n as [| n IH]; intros buf.
  - change (doubled 0 buf) with buf. change (2 ^ Z.of_nat 0) with 1. lia.
  - change (doubled (S n) buf) with (doubled n (buf ++ buf)).
    rewrite IH. unfold Qt.size. rewrite length_app.
    rewrite Nat2Z.inj_succ, Z.pow_succ_r by lia. lia.
Qed.

Lemma full_buffer_size : Qt.size full_buffer = CHUNK_SIZE.
Proof. unfold full_buffer. rewrite doubled_size. reflexivity. Qed.

(** Two percentages 64 KB apart differ, also after the cast to [int]. *)
Lemma to_int_step_differs (x : Z) :
  Cxx.to_int (x + CHUNK_SIZE * 100) <> Cxx.to_int x.
Proof.
  unfold Cxx.to_int, Cxx.wrap_signed, CHUNK_SIZE.
  change (2 ^ (32 - 1)) with 2147483648. change (2 ^ 32) with 4294967296.
  intros H.
  pose proof (Z.div_mod (x + 64 * 1024 * 100 + 2147483648) 4294967296).
  pose proof (Z.div_mod (x + 2147483648) 4294967296).
  lia.
Qed.

(** The reports of the loop, for a file of size one, on reads that all
    fill the buffer and writes that are all accepted: one per read, the
    bytes sent so far times 100, cast to [int]. *)
Lemma upload_loop_full_reads (writer : ClientWriter)
  (uploadId filename : string) (buf : Qt.QByteArray) :
  (forall chunk : proto.UploadCadChunk, Write writer chunk = true) ->
  Qt.size buf = CHUNK_SIZE ->
  forall (k : nat) (bytesSent chunkIndex lastPercent : Z),
    0 <= bytesSent ->
    bytesSent + CHUNK_SIZE * Z.of_nat k <= 2 ^ 40 ->
    lastPercent <> Cxx.to_int ((bytesSent + CHUNK_SIZE) * 100) ->
    progress_of
      (signals
         (upload_loop writer uploadId filename 1 (repeat buf k) bytesSent
            chunkIndex lastPercent))
    = map (fun j => Cxx.to_int ((bytesSent + CHUNK_SIZE * Z.of_nat j) * 100))
        (seq 1 k).
Proof.
  intros Hw Hsize.
  assert (Hread : Qt.read CHUNK_SIZE buf = buf).
  { unfold Qt.read. apply prefix_all. unfold Qt.size in Hsize. lia. }
  assert (Hfull : Qt.isEmpty buf = false).
  { destruct buf; [discriminate Hsize | reflexivity]. }
  induction k as [| k IH]; intros bytesSent chunkIndex lastPercent Hb Hk Hl;
    [reflexivity |].
  change (repeat buf (S k)) with (buf :: repeat buf k).
  cbn [upload_loop]. rewrite Hread, Hfull, Hw, Hsize. cbn [negb].
  assert (R : int64_range (bytesSent + CHUNK_SIZE) /\
              int64_range ((bytesSent + CHUNK_SIZE) * 100)).
  { unfold int64_range, CHUNK_SIZE in *.
    change (2 ^ 63) with 9223372036854775808.
    change (2 ^ 40) with 1099511627776 in Hk. lia. }
  destruct R as [R1 R2].
  rewrite (to_qint64_id _ R1), (to_qint64_id _ R2), Z.quot_1_r.
  destruct (Z.eqb_spec (Cxx.to_int ((bytesSent + CHUNK_SIZE) * 100))
              lastPercent) as [E | _]; [congruence |].
  cbn [Z.ltb Z.compare andb negb signals app progress_of].
  rewrite IH.
  - change (seq 1 (S k)) with (1%nat :: seq 2 k).
    rewrite <- (seq_shift k 1). cbn [map]. rewrite map_map. f_equal.
    apply map_ext. intros j. f_equal. lia.
  - unfold CHUNK_SIZE. lia.
  - unfold CHUNK_SIZE in *. lia.
  - replace ((bytesSent + CHUNK_SIZE + CHUNK_SIZE) * 100)
      with ((bytesSent + CHUNK_SIZE) * 100 + CHUNK_SIZE * 100) by lia.
    intros E. symmetry in E. exact (to_int_step_differs _ E).
Qed.

(** The reports of a run on a file that could be opened are those of its
    read loop. *)
Lemma uploadCad_thread_progress (path : Qt.QString) (uploadId : string)
  (file : Qt.QFile) (writer : ClientWriter) :
  Qt.opens file = true ->
  progress_of (signals (uploadCad_thread path uploadId file writer))
  = progress_of
      (signals
         (upload_loop writer uploadId (Qt.toStdString (Qt.fileName path))
            (Qt.file_size file) (Qt.pending file) 0 0 (-1))).
Proof.
  intros Ho. unfold uploadCad_thread. rewrite Ho. cbn [negb].
  destruct (exit (upload_loop writer uploadId
                    (Qt.toStdString (Qt.fileName path)) (Qt.file_size file)
                    (Qt.pending file) 0 0 (-1)));
    try destruct (finish_upload writer) as [r modelId]; cbn [signals];
    rewrite ?progress_of_app; cbn [progress_of]; rewrite ?app_nil_r;
    reflexivity.
Qed.

(** C8 as stated fails when the reads hand out more than the file said it
    held.  The file below reported one byte and hands out 328 buffers of
    64 KB, all accepted: the percentage goes up to 2143027200 and, the
    next one being beyond what an [int] holds, on to -2145386496. *)
Lemma progress_wraps_around :
  0 < Qt.file_size growing_file /\
  nth 326
    (progress_of
       (signals
          (uploadCad_thread "/var/log/syslog" "upload-1" growing_file
             accepting_writer))) 0 = 2143027200 /\
  nth 327
    (progress_of
       (signals
          (uploadCad_thread "/var/log/syslog" "upload-1" growing_file
             accepting_writer))) 0 = -2145386496 /\
  ~ Sorted Z.le
      (progress_of
         (signals
            (uploadCad_thread "/var/log/syslog" "upload-1" growing_file
               accepting_writer))).
Proof.
  set (f := fun j : nat => Cxx.to_int ((0 + CHUNK_SIZE * Z.of_nat j) * 100)).
  assert (El :
    progress_of
      (signals
         (uploadCad_thread "/var/log/syslog" "upload-1" growing_file
            accepting_writer))
    = map f (seq 1 328)).
  { rewrite (uploadCad_thread_progress "/var/log/syslog" "upload-1"
               growing_file accepting_writer eq_refl).
    change (Qt.pending growing_file) with (repeat full_buffer 328).
    change (Qt.file_size growing_file) with 1.
    apply (upload_loop_full_reads accepting_writer "upload-1"
             (Qt.toStdString (Qt.fileName "/var/log/syslog")) full_buffer
             (fun _ => eq_refl) full_buffer_size 328 0 0 (-1)).
    - lia.
    - unfold CHUNK_SIZE. simpl. lia.
    - unfold CHUNK_SIZE. vm_compute. discriminate. }
  rewrite El.
  assert (N : forall i : nat, (i < 328)%nat ->
                nth i (map f (seq 1 328)) 0 = f (S i)).
  { intros i Hi.
    rewrite (nth_indep _ 0 (f 0%nat)) by (rewrite length_map, length_seq; lia).
    rewrite map_nth, seq_nth by lia. reflexivity. }
  assert (E1 : nth 326 (map f (seq 1 328)) 0 = 2143027200)
    by (rewrite N by lia; vm_compute; reflexivity).
  assert (E2 : nth 327 (map f (seq 1 328)) 0 = -2145386496)
    by (rewrite N by lia; vm_compute; reflexivity).
  split; [reflexivity |]. split; [exact E1 |]. split; [exact E2 |].
  intros Hs. pose proof (Sorted_le_nth _ Hs 326%nat) as H.
  rewrite E1, E2, length_map, length_seq in H. lia.
Qed.

(** C8, amended.  For a file of positive size whose reads hand out few
    enough bytes for the computation not to overflow (times 100 they fit
    its 64-bit integer, and their percentage of the size fits the [int] it
    is cast to), the percentages the upload thread reports, in order, never
    decrease and never repeat the one before, and none is negative; when
    the reads hand out no more bytes than the size the file reported, none
    exceeds 100. *)
Theorem upload_progress_monotone :
  forall (path : Qt.QString) (uploadId : string) (file : Qt.QFile)
    (writer : ClientWriter),
    0 < Qt.file_size file ->
    bytes_of (Qt.pending file) * 100 <= Cxx.INT64_MAX ->
    bytes_of (Qt.pending file) * 100 / Qt.file_size file <= Cxx.INT_MAX ->
    Sorted Z.le
      (progress_of (signals (uploadCad_thread path uploadId file writer))) /\
    no_adjacent_equal
      (progress_of (signals (uploadCad_thread path uploadId file writer))) /\
    Forall (fun p => 0 <= p)
      (progress_of (signals (uploadCad_thread path uploadId file writer))) /\
    (bytes_of (Qt.pending file) <= Qt.file_size file ->
     Forall (fun p => p <= 100)
       (progress_of (signals (uploadCad_thread path uploadId file writer)))).
Proof.
  intros path uploadId file writer Ht Hmax Hint.
  assert (H :
    StronglySorted Z.lt
      (progress_of (signals (uploadCad_thread path uploadId file writer))) /\
    Forall
      (fun p => -1 < p <= bytes_of (Qt.pending file) * 100 / Qt.file_size file)
      (progress_of (signals (uploadCad_thread path uploadId file writer)))).
  { unfold uploadCad_thread.
    destruct (Qt.opens file); simpl; [| split; constructor].
    pose proof (upload_loop_progress writer uploadId
                  (Qt.toStdString (Qt.fileName path)) (Qt.file_size file)
                  (bytes_of (Qt.pending file))
                  Ht Hmax Hint (Qt.pending file) 0 0 (-1)) as L.
    destruct L as [Hs Hf];
      [lia | lia | apply Z.le_trans with 0; [lia | apply Z.div_pos; lia] |].
    destruct (exit (upload_loop writer uploadId
                      (Qt.toStdString (Qt.fileName path))
                      (Qt.file_size file) (Qt.pending file) 0 0 (-1)));
      try destruct (finish_upload writer) as [r modelId]; simpl;
      rewrite ?progress_of_app; simpl; rewrite ?app_nil_r; split; assumption. }
  destruct H as [Hs Hf].
  split; [apply increasing_non_decreasing; exact Hs |].
  split; [apply increasing_no_adjacent_equal; exact Hs |].
  split.
  - eapply Forall_impl; [| exact Hf]. simpl. intros a Ha. lia.
  - intros Hfit. eapply Forall_impl; [| exact Hf]. simpl. intros a Ha.
    apply Z.le_trans
      with (bytes_of (Qt.pending file) * 100 / Qt.file_size file);
      [lia |].
    apply Z.div_le_upper_bound; lia.
Qed.

Lemma upload_progress_monotone_witness :
  Sorted Z.le
    (progress_of
       (signals
          (uploadCad_thread "/tmp/part.step" "upload-1"
             {| Qt.opens := true; Qt.file_size := 3;
                Qt.pending := [[x01]; [x02]; [x03]] |}
             accepting_writer))) /\
  no_adjacent_equal
    (progress_of
       (signals
          (uploadCad_thread "/tmp/part.step" "upload-1"
             {| Qt.opens := true; Qt.file_size := 3;
                Qt.pending := [[x01]; [x02]; [x03]] |}
             accepting_writer))).
Proof.
  pose proof (upload_progress_monotone "/tmp/part.step" "upload-1"
                {| Qt.opens := true; Qt.file_size := 3;
                   Qt.pending := [[x01]; [x02]; [x03]] |}
                accepting_writer) as H.
  simpl Qt.file_size in H. simpl Qt.pending in H.
  destruct H as (H1 & H2 & _).
  - lia.
  - vm_compute; discriminate.
  - vm_compute; discriminate.
  - split; [exact H1 | exact H2].
Defined.

(** The run of the witness: a file of three bytes read one byte at a time. *)
Example upload_three_reads :
  progress_of
    (signals
       (uploadCad_thread "/tmp/part.step" "upload-1"
          {| Qt.opens := true; Qt.file_size := 3;
             Qt.pending := [[x01]; [x02]; [x03]] |}
          accepting_writer))
  = [33; 66; 100].
Proof. vm_compute. reflexivity. Qed.

(** ** Subscriptions *)

Lemma is_cancelled_iff (st : grpc.Status) :
  is_cancelled st = true <-> grpc.error_code st = grpc.CANCELLED.
Proof.
  unfold is_cancelled. destruct (grpc.error_code st); simpl; split;
    intros H; try reflexivity; discriminate.
Qed.

Lemma count_app (p : Signal -> bool) (a b : list Signal) :
  count p (a ++ b) = (count p a + count p b)%nat.
Proof. unfold count. rewrite filter_app, length_app. reflexivity. Qed.

Ltac quiet_end :=
  split; [intros _; reflexivity |];
  split; [intros _; reflexivity | intros Hn Hc; congruence].

Section SubscriptionProperties.

Variables Wire Item : Type.
Variable convert : Wire -> Item.
Variable received : Item -> Signal.
Variable ended : Qt.QString.
Hypothesis received_item : forall i : Item, is_item (received i) = true.
Hypothesis received_no_error : forall i : Item, is_error (received i) = false.

Lemma forwarded_count_error (reader : ClientReader Wire) :
  count is_error (forwarded Wire Item convert received reader) = 0%nat.
Proof.
  unfold forwarded, count.
  induction (messages reader) as [| ev evs IH]; simpl; [reflexivity |].
  rewrite received_no_error. exact IH.
Qed.

Lemma forwarded_count_item (reader : ClientReader Wire) :
  count is_item (forwarded Wire Item convert received reader)
  = List.length (messages reader).
Proof.
  unfold forwarded, count.
  induction (messages reader) as [| ev evs IH]; simpl; [reflexivity |].
  rewrite received_item. simpl. rewrite IH. reflexivity.
Qed.

(** A subscription thread forwards every message as one item signal and
    ends properly. *)
Lemma subscription_thread_spec (ctx : grpc.ClientContext)
  (reader : ClientReader Wire) :
  ends_properly ended (finish reader)
    (subscription_thread Wire Item convert received ended (Some ctx) reader) /\
  count is_item
    (subscription_thread Wire Item convert received ended (Some ctx) reader)
  = List.length (messages reader).
Proof.
  unfold subscription_thread, ends_properly.
  destruct (grpc.ok (finish reader)) eqn:Eok;
    destruct (is_cancelled (finish reader)) eqn:Ecan; simpl;
    rewrite ?count_app, ?forwarded_count_error, ?forwarded_count_item; simpl;
    try apply grpc_ok_iff in Eok; try apply is_cancelled_iff in Ecan.
  - rewrite Eok in Ecan. discriminate Ecan.
  - split; [quiet_end | lia].
  - split; [quiet_end | lia].
  - split; [| unfold count; simpl; lia].
    split; [intros H; apply is_cancelled_iff in H; congruence |].
    split; [intros H; apply grpc_ok_iff in H; congruence |].
    intros _ _. split; [reflexivity |].
    exists (forwarded Wire Item convert received reader).
    split; [reflexivity | apply forwarded_count_error].
Qed.

End SubscriptionProperties.

(** A streaming call made with a Session leaves a fresh context for the
    thread it starts: the thread's [if (!ctx) return;] does not fire. *)
Lemma subscribe_leaves_context (taskId mediaId : Qt.QString)
  (c : GatewayClient) :
  m_sysStateCtx (state_after (subscribeSystemState taskId) c)
  = Some grpc.ClientContext_new /\
  m_eventsCtx (state_after (subscribeInspectionEvents taskId) c)
  = Some grpc.ClientContext_new /\
  m_downloadCtx (state_after (downloadMedia mediaId) c)
  = Some grpc.ClientContext_new.
Proof.
  destruct c as [addr ch stub workers [sys] [ev] [dl] [mon] csys cev cdl stop
                   conn].
  unfold state_after, subscribeSystemState, subscribeInspectionEvents,
    downloadMedia.
  autounfold with gateway. simpl.
  destruct sys, ev, dl, stub; simpl; repeat split.
Qed.

(** The reassembly loop appends every chunk whole. *)
Lemma assemble_concat (chunks : list proto.MediaChunk) :
  Forall chunk_fits chunks ->
  assemble chunks = List.concat (map proto.chunk_data chunks).
Proof.
  unfold assemble.
  assert (G : forall acc : Qt.QByteArray,
    Forall chunk_fits chunks ->
    fold_left
      (fun assembled chunk =>
         Qt.append assembled (proto.chunk_data chunk)
           (Cxx.to_int (Z.of_nat (List.length (proto.chunk_data chunk)))))
      chunks acc
    = acc ++ List.concat (map proto.chunk_data chunks)).
  { induction chunks as [| ch rest IH]; intros acc F; simpl.
    - now rewrite app_nil_r.
    - inversion F as [| ? ? Hfit Hrest]; subst.
      rewrite IH by exact Hrest.
      unfold chunk_fits, Cxx.INT_MAX in Hfit.
      change (2 ^ 31) with 2147483648 in Hfit.
      rewrite to_int_id by (change (2 ^ 31) with 2147483648; lia).
      unfold Qt.append.
      destruct (Z.ltb_spec (Z.of_nat (List.length (proto.chunk_data ch))) 0);
        [lia |].
      rewrite prefix_all by lia. now rewrite <- app_assoc. }
  intros F. now rewrite G.
Qed.

(** C6.  Each of the three streaming threads, once its stream has ended:
    after a cancellation it queues no [errorOccurred]; after any other
    status that is not OK it queues exactly one, last, with the status's
    message; the two subscriptions queue one item signal per message read
    before that, the download none. *)
Theorem streaming_termination :
  forall (SystemStateEvent InspectionEvent : Type)
    (status_of : SystemStateEvent -> hmi.TaskStatus.t)
    (fromProtoInspectionEvent : InspectionEvent -> hmi.InspectionEvent.t)
    (mediaId : Qt.QString) (ctx : grpc.ClientContext)
    (states : ClientReader SystemStateEvent)
    (events : ClientReader InspectionEvent)
    (media : ClientReader proto.MediaChunk),
    (ends_properly "SubscribeSystemState ended: " (finish states)
       (subscribeSystemState_thread SystemStateEvent status_of (Some ctx)
          states) /\
     count is_item
       (subscribeSystemState_thread SystemStateEvent status_of (Some ctx)
          states)
     = List.length (messages states)) /\
    (ends_properly "SubscribeInspectionEvents ended: " (finish events)
       (subscribeInspectionEvents_thread InspectionEvent
          fromProtoInspectionEvent (Some ctx) events) /\
     count is_item
       (subscribeInspectionEvents_thread InspectionEvent
          fromProtoInspectionEvent (Some ctx) events)
     = List.length (messages events)) /\
    (ends_properly "DownloadMedia failed: " (finish media)
       (downloadMedia_thread mediaId (Some ctx) media) /\
     count is_item (downloadMedia_thread mediaId (Some ctx) media) = 0%nat).
Proof.
  intros. split; [| split].
  - apply subscription_thread_spec; reflexivity.
  - apply subscription_thread_spec; reflexivity.
  - unfold downloadMedia_thread, ends_properly.
    destruct (grpc.ok (finish media)) eqn:Eok;
      destruct (is_cancelled (finish media)) eqn:Ecan; simpl;
      try apply grpc_ok_iff in Eok; try apply is_cancelled_iff in Ecan.
    + rewrite Eok in Ecan. discriminate Ecan.
    + split; [quiet_end | reflexivity].
    + split; [quiet_end | reflexivity].
    + split; [| reflexivity].
      split; [intros H; apply is_cancelled_iff in H; congruence |].
      split; [intros H; apply grpc_ok_iff in H; congruence |].
      intros _ _. split; [reflexivity |].
      exists []. split; reflexivity.
Qed.

Lemma streaming_termination_witness :
  ends_properly "SubscribeSystemState ended: "
    {| grpc.error_code := grpc.UNAVAILABLE;
       grpc.error_message := "Socket closed" |}
    (subscribeSystemState_thread nat (fun _ => hmi.TaskStatus.init)
       (Some grpc.ClientContext_new)
       {| messages := [1%nat; 2%nat];
          finish := {| grpc.error_code := grpc.UNAVAILABLE;
                       grpc.error_message := "Socket closed" |} |}) /\
  ends_properly "DownloadMedia failed: "
    {| grpc.error_code := grpc.CANCELLED; grpc.error_message := "Cancelled" |}
    (downloadMedia_thread "media-9" (Some grpc.ClientContext_new)
       {| messages := [{| proto.chunk_data := [x01] |}];
          finish := {| grpc.error_code := grpc.CANCELLED;
                       grpc.error_message := "Cancelled" |} |}).
Proof.
  split.
  - apply (streaming_termination nat nat (fun _ => hmi.TaskStatus.init)
             (fun _ => hmi.InspectionEvent.init) "media-9"
             grpc.ClientContext_new
             {| messages := [1%nat; 2%nat];
                finish := {| grpc.error_code := grpc.UNAVAILABLE;
                             grpc.error_message := "Socket closed" |} |}
             {| messages := [];
                finish := {| grpc.error_code := grpc.OK;
                             grpc.error_message := "" |} |}
             {| messages := [];
                finish := {| grpc.error_code := grpc.OK;
                             grpc.error_message := "" |} |}).
  - apply (streaming_termination nat nat (fun _ => hmi.TaskStatus.init)
             (fun _ => hmi.InspectionEvent.init) "media-9"
             grpc.ClientContext_new
             {| messages := [];
                finish := {| grpc.error_code := grpc.OK;
                             grpc.error_message := "" |} |}
             {| messages := [];
                finish := {| grpc.error_code := grpc.OK;
                             grpc.error_message := "" |} |}
             {| messages := [{| proto.chunk_data := [x01] |}];
                finish := {| grpc.error_code := grpc.CANCELLED;
                             grpc.error_message := "Cancelled" |} |}).
Defined.

(** A subscription that read two states before the connection dropped. *)
Example subscription_dropped :
  subscribeSystemState_thread nat (fun _ => hmi.TaskStatus.init)
    (Some grpc.ClientContext_new)
    {| messages := [1%nat; 2%nat];
       finish := {| grpc.error_code := grpc.UNAVAILABLE;
                    grpc.error_message := "Socket closed" |} |}
  = [systemStateReceived hmi.TaskStatus.init;
     systemStateReceived hmi.TaskStatus.init;
     errorOccurred "SubscribeSystemState ended: Socket closed"].
Proof. reflexivity. Qed.

(** ** Media download *)

(** C7.  The download thread queues no signal per chunk.  When the stream
    finishes OK it queues exactly one signal, [mediaDownloaded] with the
    identifier asked for and the chunks' bytes concatenated in the order
    they were read; when it finishes otherwise it queues no
    [mediaDownloaded].  The chunks are those a protobuf message can carry. *)
Theorem downloadMedia_reassembles :
  forall (mediaId : Qt.QString) (ctx : grpc.ClientContext)
    (reader : ClientReader proto.MediaChunk),
    Forall chunk_fits (messages reader) ->
    (grpc.error_code (finish reader) = grpc.OK ->
     downloadMedia_thread mediaId (Some ctx) reader
     = [mediaDownloaded mediaId
          (List.concat (map proto.chunk_data (messages reader)))]) /\
    (grpc.error_code (finish reader) <> grpc.OK ->
     count is_download (downloadMedia_thread mediaId (Some ctx) reader)
     = 0%nat) /\
    (List.length (downloadMedia_thread mediaId (Some ctx) reader) <= 1)%nat.
Proof.
  intros mediaId ctx reader F. unfold downloadMedia_thread.
  rewrite (assemble_concat _ F).
  destruct (grpc.ok (finish reader)) eqn:Eok.
  - apply grpc_ok_iff in Eok.
    split; [intros _; reflexivity |].
    split; [intros H; contradiction | simpl; lia].
  - split; [intros H; apply grpc_ok_iff in H; congruence |].
    destruct (is_cancelled (finish reader)); simpl;
      (split; [intros _; reflexivity | lia]).
Qed.

Lemma downloadMedia_reassembles_witness :
  downloadMedia_thread "media-9" (Some grpc.ClientContext_new)
    {| messages :=
         [{| proto.chunk_data := [x89; x50] |};
          {| proto.chunk_data := [] |};
          {| proto.chunk_data := [x4e; x00; x47] |}];
       finish := {| grpc.error_code := grpc.OK; grpc.error_message := "" |} |}
  = [mediaDownloaded "media-9" [x89; x50; x4e; x00; x47]].
Proof.
  apply (downloadMedia_reassembles "media-9" grpc.ClientContext_new
           {| messages :=
                [{| proto.chunk_data := [x89; x50] |};
                 {| proto.chunk_data := [] |};
                 {| proto.chunk_data := [x4e; x00; x47] |}];
              finish := {| grpc.error_code := grpc.OK;
                           grpc.error_message := "" |} |}).
  - repeat constructor; unfold chunk_fits; simpl; vm_compute; discriminate.
  - reflexivity.
Defined.


(* ====================================================================== *)
(** * Further properties of the conversion helpers *)
(* ====================================================================== *)

(** X1.  A [Result] converted from the wire reports success exactly when
    the wire code is [OK]; every other code, known or not, gives a failure;
    the message is carried over. *)
Theorem fromProtoResult_ok_iff :
  forall r : proto.Result,
    (hmi.Result.ok (fromProtoResult r) = true <-> proto.code r = proto.OK) /\
    hmi.Result.message (fromProtoResult r) = proto.message r.
Proof.
  intros [code message]. simpl. split; [| reflexivity].
  unfold hmi.Result.ok, hmi.ErrorCode.eqb, fromProtoResult, fromProtoError.
  simpl.
  repeat match goal with
    | |- context [?a =? ?b] =>
        destruct (Z.eqb_spec a b) as [-> | ?]; simpl
    end;
    split; intros H; try reflexivity; try discriminate H; try contradiction.
Qed.

(** X2.  Planning options sent to the wire and read back are unchanged:
    every field travels in its own slot, and the weights are always
    present on the wire. *)
Theorem PlanOptions_roundtrip :
  forall po : hmi.PlanOptions.t,
    fromProtoPlanOptions (toProtoPlanOptions po) = po /\
    pb.has (pb.PlanOptions.weights (toProtoPlanOptions po)) = true.
Proof.
  intros [radius step collision tsp solver [w1 w2 w3 w4 w5]].
  split; reflexivity.
Qed.

(** X3.  A 2-D pose sent to the wire and read back is unchanged, and so is
    a wire pose read and sent back. *)
Theorem Pose2D_roundtrip :
  forall (p : hmi.Pose2D.t) (w : pb.Pose2D.t),
    fromProtoPose2D (toProtoPose2D p) = p /\
    toProtoPose2D (fromProtoPose2D w) = w.
Proof. intros [x y yaw frameId] [wx wy wyaw wframe]. split; reflexivity. Qed.

(** Narrowing rounds: 0.1 is no binary32 number, and a double beyond the
    largest float becomes infinity. *)
Example narrowing_rounds :
  PrimFloat.eqb (Cxx.to_double (Cxx.to_float 0.1%float)) 0.1%float = false /\
  Cxx.to_double (Cxx.to_float 0.1%float) = 0.100000001490116119384765625%float /\
  Cxx.to_double (Cxx.to_float 1e39%float) = PrimFloat.infinity /\
  Cxx.to_float (Cxx.to_double (Cxx.to_float 0.1%float))
  = Cxx.to_float 0.1%float.
Proof. vm_compute. repeat split. Qed.

Section CastProperties.

Variable to_float : Cxx.double -> Cxx.float.
Variable to_double : Cxx.float -> Cxx.double.

Lemma Vector3_roundtrip (v : Qt.QVector3D) :
  exact_vector to_float to_double v ->
  fromProtoVector3 to_float (toProtoVector3 to_double v) = v.
Proof.
  destruct v as [x y z]. unfold fromProtoVector3, toProtoVector3. simpl.
  intros (Hx & Hy & Hz). unfold exact_float in *. simpl in *.
  rewrite Hx, Hy, Hz. reflexivity.
Qed.

(** X4.  A 3-D pose, a surface point and a view hint sent to the wire and
    read back are unchanged, whenever their floats are such that widening
    and narrowing back leaves them as they are.  The quaternion's scalar
    travels as [w], both ways; on the wire the vector and quaternion parts
    are always present. *)
Theorem geometry_roundtrip :
  forall (p : hmi.Pose3D.t) (sp : hmi.SurfacePoint.t) (vh : hmi.ViewHint.t),
    (exact_vector to_float to_double (hmi.Pose3D.position p) ->
     exact_quaternion to_float to_double (hmi.Pose3D.orientation p) ->
     fromProtoPose3D to_float (toProtoPose3D to_double p) = p) /\
    (exact_vector to_float to_double (hmi.SurfacePoint.position sp) ->
     exact_vector to_float to_double (hmi.SurfacePoint.normal sp) ->
     fromProtoSurfacePoint to_float (toProtoSurfacePoint to_double sp) = sp) /\
    (exact_vector to_float to_double (hmi.ViewHint.viewDirection vh) ->
     fromProtoViewHint to_float (toProtoViewHint to_double vh) = vh) /\
    pb.has (pb.Pose3D.position (toProtoPose3D to_double p)) = true /\
    pb.has (pb.Pose3D.orientation (toProtoPose3D to_double p)) = true /\
    pb.has (pb.SurfacePoint.position (toProtoSurfacePoint to_double sp))
    = true /\
    pb.has (pb.SurfacePoint.normal (toProtoSurfacePoint to_double sp))
    = true /\
    pb.has (pb.ViewHint.view_direction (toProtoViewHint to_double vh))
    = true /\
    option_map pb.Quaternion.w
      (pb.Pose3D.orientation (toProtoPose3D to_double p))
    = Some (to_double (Qt.q_scalar (hmi.Pose3D.orientation p))) /\
    (forall (wire : pb.Pose3D.t) (q : pb.Quaternion.t),
       pb.Pose3D.orientation wire = Some q ->
       Qt.q_scalar (hmi.Pose3D.orientation (fromProtoPose3D to_float wire))
       = to_float (pb.Quaternion.w q)).
Proof.
  intros [pos [qs qx qy qz] frame] [spos snorm sframe face] [dir roll].
  unfold fromProtoPose3D, toProtoPose3D, fromProtoSurfacePoint,
    toProtoSurfacePoint, fromProtoViewHint, toProtoViewHint. simpl.
  split; [| split; [| split]].
  - intros Hp (Hs & Hx & Hy & Hz). unfold exact_float in *. simpl in *.
    rewrite (Vector3_roundtrip _ Hp), Hs, Hx, Hy, Hz. reflexivity.
  - intros Hp Hn.
    rewrite (Vector3_roundtrip _ Hp), (Vector3_roundtrip _ Hn). reflexivity.
  - intros Hd. rewrite (Vector3_roundtrip _ Hd). reflexivity.
  - repeat (split; [reflexivity |]).
    intros wire q E. rewrite E. reflexivity.
Qed.

End CastProperties.

Lemma geometry_roundtrip_witness :
  fromProtoPose3D Cxx.to_float (toProtoPose3D Cxx.to_double sample_pose)
  = sample_pose.
Proof.
  apply (proj1 (geometry_roundtrip Cxx.to_float Cxx.to_double sample_pose
                  hmi.SurfacePoint.init hmi.ViewHint.init)).
  - vm_compute. repeat split.
  - vm_compute. repeat split.
Defined.

(** The pose of the witness on the wire: the doubles of the floats, the
    scalar as [w]. *)
Example sample_pose_on_the_wire :
  toProtoPose3D Cxx.to_double sample_pose
  = {| pb.Pose3D.position :=
         Some {| pb.Vector3.x := 0.100000001490116119384765625%float;
                 pb.Vector3.y := (-2.7000000476837158203125)%float;
                 pb.Vector3.z := 0.001000000047497451305389404296875%float |};
       pb.Pose3D.orientation :=
         Some {| pb.Quaternion.x := 0%float;
                 pb.Quaternion.y := 0.707106769084930419921875%float;
                 pb.Quaternion.z := 0%float;
                 pb.Quaternion.w := 0.707106769084930419921875%float |};
       pb.Pose3D.frame_id := "map" |}.
Proof. vm_compute. reflexivity. Qed.

(** The joint loop on an array of six zeros: the first six wire values,
    padded with zeros. *)
Lemma copy_joints_spec (wire : list Cxx.double) :
  copy_joints wire (repeat Cxx.zero 6)
  = firstn 6 wire ++ repeat Cxx.zero (6 - List.length wire).
Proof.
  destruct wire as [| a [| b [| c [| d [| e [| f [| g rest]]]]]]];
    reflexivity.
Qed.

(** X5.  The joint arrays of a converted inspection point and of a
    converted arm status always hold six values: the first six the wire
    gave, in order, and zeros where the wire gave fewer.  Wire values
    beyond the sixth are dropped. *)
Theorem joint_arrays_filled :
  forall (to_float : Cxx.double -> Cxx.float) (ip : pb.InspectionPoint.t)
    (arm : pb.ArmStatus.t),
    hmi.InspectionPoint.armJointGoal (fromProtoInspectionPoint to_float ip)
    = firstn 6 (pb.InspectionPoint.arm_joint_goal ip)
      ++ repeat Cxx.zero
           (6 - List.length (pb.InspectionPoint.arm_joint_goal ip)) /\
    hmi.ArmStatus.currentJoints (fromProtoArmStatus to_float arm)
    = firstn 6 (pb.ArmStatus.current_joints arm)
      ++ repeat Cxx.zero (6 - List.length (pb.ArmStatus.current_joints arm)) /\
    List.length
      (hmi.InspectionPoint.armJointGoal (fromProtoInspectionPoint to_float ip))
    = 6%nat /\
    List.length (hmi.ArmStatus.currentJoints (fromProtoArmStatus to_float arm))
    = 6%nat.
Proof.
  intros to_float ip arm.
  assert (L : forall wire : list Cxx.double,
    List.length (firstn 6 wire ++ repeat Cxx.zero (6 - List.length wire))
    = 6%nat).
  { intros wire. rewrite length_app, length_firstn, repeat_length. lia. }
  unfold fromProtoInspectionPoint, fromProtoArmStatus. simpl.
  change (copy_joints (pb.InspectionPoint.arm_joint_goal ip)
            (hmi.InspectionPoint.armJointGoal hmi.InspectionPoint.init))
    with (copy_joints (pb.InspectionPoint.arm_joint_goal ip)
            (repeat Cxx.zero 6)).
  change (copy_joints (pb.ArmStatus.current_joints arm)
            (hmi.ArmStatus.currentJoints hmi.ArmStatus.init))
    with (copy_joints (pb.ArmStatus.current_joints arm) (repeat Cxx.zero 6)).
  rewrite !copy_joints_spec, !L. repeat split.
Qed.

(** X6.  The thumbnail of a converted image reference is the wire's bytes,
    all of them and unchanged, zero bytes included, whenever their number
    fits the [int] it is cast to; an image without a media reference gets
    the default one. *)
Theorem thumbnail_preserved :
  forall img : pb.ImageRef.t,
    Z.of_nat (List.length (pb.ImageRef.thumbnail_jpeg img)) <= Cxx.INT_MAX ->
    hmi.ImageRef.thumbnailJpeg (fromProtoImageRef img)
    = pb.ImageRef.thumbnail_jpeg img /\
    (pb.ImageRef.media img = None ->
     hmi.ImageRef.media (fromProtoImageRef img) = hmi.MediaRef.init).
Proof.
  intros img H. unfold Cxx.INT_MAX in H. change (2 ^ 31) with 2147483648 in H.
  split.
  - unfold fromProtoImageRef, QByteArray_of. simpl.
    rewrite to_int_id by (change (2 ^ 31) with 2147483648; lia).
    destruct (Z.ltb_spec
                (Z.of_nat (List.length (pb.ImageRef.thumbnail_jpeg img))) 0);
      [lia |].
    apply prefix_all. lia.
  - intros E. unfold fromProtoImageRef. rewrite E. reflexivity.
Qed.

Lemma thumbnail_preserved_witness :
  hmi.ImageRef.thumbnailJpeg
    (fromProtoImageRef
       {| pb.ImageRef.media := None; pb.ImageRef.width := 2;
          pb.ImageRef.height := 1;
          pb.ImageRef.thumbnail_jpeg := [xff; xd8; x00; xff; xd9] |})
  = [xff; xd8; x00; xff; xd9].
Proof.
  apply (thumbnail_preserved
           {| pb.ImageRef.media := None; pb.ImageRef.width := 2;
              pb.ImageRef.height := 1;
              pb.ImageRef.thumbnail_jpeg := [xff; xd8; x00; xff; xd9] |}).
  vm_compute. discriminate.
Defined.

(* ====================================================================== *)
(** * The unary threads *)
(* ====================================================================== *)

Lemma grpc_not_ok (st : grpc.Status) :
  grpc.ok st = false <-> grpc.error_code st <> grpc.OK.
Proof.
  split.
  - intros H E. apply grpc_ok_iff in E. congruence.
  - intros H. destruct (grpc.ok st) eqn:E; [| reflexivity].
    apply grpc_ok_iff in E. contradiction.
Qed.

Ltac unary_thread call :=
  destruct call as [st resp]; simpl;
  eexists; split; [reflexivity |];
  split; [reflexivity |];
  unfold fromGrpcStatus;
  destruct (grpc.ok st) eqn:Eok; simpl;
  [ apply grpc_ok_iff in Eok;
    split; [intros _; reflexivity | intros H; contradiction]
  | apply grpc_not_ok in Eok;
    split; [intros H; contradiction |];
    intros _; split; [reflexivity | simpl; repeat split] ].

(** X7.  Whatever the stub does, each unary thread that answers with a
    [Result] queues exactly one signal, and it is the completion signal of
    its own call: [setTargetsFinished] for the targets, [planInspectionFinished]
    for the planning, [getPlanFinished], [startInspectionFinished],
    [controlTaskFinished] for pause, resume and stop, [navMapReceived] and
    [capturesReceived].  After a call that went through, the signal carries
    the response's result converted; after one that did not (deadline,
    refused connection, broken stream), it carries [Internal] with the
    transport's message, and nothing but default values beside it. *)
Theorem unary_threads_outcome :
  forall (to_float : Cxx.double -> Cxx.float)
    (to_double : Cxx.float -> Cxx.double)
    (SetInspectionTargets :
       Method pb.SetInspectionTargetsRequest.t
         pb.SetInspectionTargetsResponse.t)
    (PlanInspection :
       Method pb.PlanInspectionRequest.t pb.PlanInspectionResponse.t)
    (GetPlan : Method pb.GetPlanRequest.t pb.GetPlanResponse.t)
    (StartInspection :
       Method pb.StartInspectionRequest.t pb.StartInspectionResponse.t)
    (fn : Method pb.ControlTaskRequest.t pb.ControlTaskResponse.t)
    (GetNavMap : Method pb.GetNavMapRequest.t pb.GetNavMapResponse.t)
    (ListCaptures : Method pb.ListCapturesRequest.t pb.ListCapturesResponse.t)
    (modelId taskName planId taskId reason mapId operatorId : Qt.QString)
    (targets : list hmi.InspectionTarget.t) (config : hmi.CaptureConfig.t)
    (options : hmi.PlanOptions.t) (dryRun : bool) (pointId : Z),
    unary_outcome "setTargetsFinished"
      (fst (SetInspectionTargets (deadline_context 60)
              (setInspectionTargets_request to_double modelId targets config
                 operatorId)))
      (pb.SetInspectionTargetsResponse.result
         (snd (SetInspectionTargets (deadline_context 60)
                 (setInspectionTargets_request to_double modelId targets
                    config operatorId))))
      (setInspectionTargets_thread to_double SetInspectionTargets modelId
         targets config operatorId) /\
    unary_outcome "planInspectionFinished"
      (fst (PlanInspection (deadline_context 120)
              (planInspection_request modelId taskName options)))
      (pb.PlanInspectionResponse.result
         (snd (PlanInspection (deadline_context 120)
                 (planInspection_request modelId taskName options))))
      (planInspection_thread to_float PlanInspection modelId taskName
         options) /\
    unary_outcome "getPlanFinished"
      (fst (GetPlan (deadline_context 30) (getPlan_request planId)))
      (pb.GetPlanResponse.result
         (snd (GetPlan (deadline_context 30) (getPlan_request planId))))
      (getPlan_thread to_float GetPlan planId) /\
    unary_outcome "startInspectionFinished"
      (fst (StartInspection (deadline_context 30)
              (startInspection_request planId dryRun)))
      (pb.StartInspectionResponse.result
         (snd (StartInspection (deadline_context 30)
                 (startInspection_request planId dryRun))))
      (startInspection_thread StartInspection planId dryRun) /\
    unary_outcome "controlTaskFinished"
      (fst (fn (deadline_context 30) (controlTask_request taskId reason)))
      (pb.ControlTaskResponse.result
         (snd (fn (deadline_context 30) (controlTask_request taskId reason))))
      (runControlRpc_thread fn taskId reason) /\
    unary_outcome "navMapReceived"
      (fst (GetNavMap (deadline_context 30) (getNavMap_request mapId)))
      (pb.GetNavMapResponse.result
         (snd (GetNavMap (deadline_context 30) (getNavMap_request mapId))))
      (getNavMap_thread GetNavMap mapId) /\
    unary_outcome "capturesReceived"
      (fst (ListCaptures (deadline_context 30)
              (listCaptures_request taskId pointId)))
      (pb.ListCapturesResponse.result
         (snd (ListCaptures (deadline_context 30)
                 (listCaptures_request taskId pointId))))
      (listCaptures_thread ListCaptures taskId pointId).
Proof.
  intros.
  unfold unary_outcome, setInspectionTargets_thread, planInspection_thread,
    getPlan_thread, startInspection_thread, runControlRpc_thread,
    getNavMap_thread, listCaptures_thread.
  split; [unary_thread (SetInspectionTargets (deadline_context 60)
              (setInspectionTargets_request to_double modelId targets config
                 operatorId)) |].
  split; [unary_thread (PlanInspection (deadline_context 120)
              (planInspection_request modelId taskName options)) |].
  split; [unary_thread (GetPlan (deadline_context 30)
              (getPlan_request planId)) |].
  split; [unary_thread (StartInspection (deadline_context 30)
              (startInspection_request planId dryRun)) |].
  split; [unary_thread (fn (deadline_context 30)
              (controlTask_request taskId reason)) |].
  split; [unary_thread (GetNavMap (deadline_context 30)
              (getNavMap_request mapId)) |].
  unary_thread (ListCaptures (deadline_context 30)
              (listCaptures_request taskId pointId)).
Qed.

Lemma unary_threads_outcome_witness :
  unary_outcome "startInspectionFinished"
    {| grpc.error_code := grpc.DEADLINE_EXCEEDED;
       grpc.error_message := "Deadline Exceeded" |}
    proto.Result_default
    (startInspection_thread
       (fun _ _ =>
          ({| grpc.error_code := grpc.DEADLINE_EXCEEDED;
              grpc.error_message := "Deadline Exceeded" |},
           {| pb.StartInspectionResponse.result := proto.Result_default;
              pb.StartInspectionResponse.task_id := "" |}))
       "plan-7" false).
Proof.
  pose proof (unary_threads_outcome Cxx.to_float Cxx.to_double
    (fun _ _ =>
       ({| grpc.error_code := grpc.OK; grpc.error_message := "" |},
        {| pb.SetInspectionTargetsResponse.result := proto.Result_default;
           pb.SetInspectionTargetsResponse.total_targets := 0 |}))
    (fun _ _ =>
       ({| grpc.error_code := grpc.OK; grpc.error_message := "" |},
        {| pb.PlanInspectionResponse.result := proto.Result_default;
           pb.PlanInspectionResponse.plan_id := "";
           pb.PlanInspectionResponse.path := None;
           pb.PlanInspectionResponse.stats := None |}))
    (fun _ _ =>
       ({| grpc.error_code := grpc.OK; grpc.error_message := "" |},
        {| pb.GetPlanResponse.result := proto.Result_default;
           pb.GetPlanResponse.plan_id := ""; pb.GetPlanResponse.model_id := "";
           pb.GetPlanResponse.task_name := "";
           pb.GetPlanResponse.options := None; pb.GetPlanResponse.path := None;
           pb.GetPlanResponse.stats := None;
           pb.GetPlanResponse.created_at := None |}))
    (fun _ _ =>
       ({| grpc.error_code := grpc.DEADLINE_EXCEEDED;
           grpc.error_message := "Deadline Exceeded" |},
        {| pb.StartInspectionResponse.result := proto.Result_default;
           pb.StartInspectionResponse.task_id := "" |}))
    (fun _ _ =>
       ({| grpc.error_code := grpc.OK; grpc.error_message := "" |},
        {| pb.ControlTaskResponse.result := proto.Result_default |}))
    (fun _ _ =>
       ({| grpc.error_code := grpc.OK; grpc.error_message := "" |},
        {| pb.GetNavMapResponse.result := proto.Result_default;
           pb.GetNavMapResponse.map := None |}))
    (fun _ _ =>
       ({| grpc.error_code := grpc.OK; grpc.error_message := "" |},
        {| pb.ListCapturesResponse.result := proto.Result_default;
           pb.ListCapturesResponse.captures := [] |}))
    "" "" "plan-7" "" "" "" "" [] hmi.CaptureConfig.init hmi.PlanOptions.init
    false 0) as (_ & _ & _ & H & _).
  exact H.
Defined.

(** X8.  The status poll has no [Result] to answer with: its thread queues
    exactly one signal, [taskStatusReceived] with the converted status
    after a call that went through, and otherwise [errorOccurred] with
    "GetTaskStatus: " and the transport's message, a cancellation
    included. *)
Theorem getTaskStatus_thread_outcome :
  forall (to_float : Cxx.double -> Cxx.float)
    (GetTaskStatus :
       Method pb.GetTaskStatusRequest.t pb.GetTaskStatusResponse.t)
    (taskId : Qt.QString),
    (grpc.error_code
       (fst (GetTaskStatus (deadline_context 15)
               (getTaskStatus_request taskId))) = grpc.OK ->
     getTaskStatus_thread to_float GetTaskStatus taskId
     = [taskStatusReceived
          (fromProtoTaskStatus to_float
             (pb.GetTaskStatusResponse.status
                (snd (GetTaskStatus (deadline_context 15)
                        (getTaskStatus_request taskId)))))]) /\
    (grpc.error_code
       (fst (GetTaskStatus (deadline_context 15)
               (getTaskStatus_request taskId))) <> grpc.OK ->
     getTaskStatus_thread to_float GetTaskStatus taskId
     = [errorOccurred
          ("GetTaskStatus: "
           ++ grpc.error_message
                (fst (GetTaskStatus (deadline_context 15)
                        (getTaskStatus_request taskId))))%string]) /\
    (exists sig : Signal,
       getTaskStatus_thread to_float GetTaskStatus taskId = [sig] /\
       result_of sig = None).
Proof.
  intros. unfold getTaskStatus_thread.
  destruct (GetTaskStatus (deadline_context 15) (getTaskStatus_request taskId))
    as [st resp]; simpl.
  destruct (grpc.ok st) eqn:Eok; simpl.
  - apply grpc_ok_iff in Eok.
    split; [intros _; reflexivity |].
    split; [intros H; contradiction |].
    eexists; split; reflexivity.
  - apply grpc_not_ok in Eok.
    split; [intros H; contradiction |].
    split; [intros _; reflexivity |].
    eexists; split; reflexivity.
Qed.

Lemma getTaskStatus_thread_outcome_witness :
  getTaskStatus_thread Cxx.to_float
    (fun _ _ =>
       ({| grpc.error_code := grpc.CANCELLED;
           grpc.error_message := "Cancelled" |},
        {| pb.GetTaskStatusResponse.status := pb.TaskStatus.default |}))
    "task-1"
  = [errorOccurred "GetTaskStatus: Cancelled"].
Proof.
  apply (getTaskStatus_thread_outcome Cxx.to_float
           (fun _ _ =>
              ({| grpc.error_code := grpc.CANCELLED;
                  grpc.error_message := "Cancelled" |},
               {| pb.GetTaskStatusResponse.status := pb.TaskStatus.default |}))
           "task-1").
  simpl. discriminate.
Defined.

(* ====================================================================== *)
(** * The connection monitor *)
(* ====================================================================== *)

#[local] Arguments last : simpl never.

Lemma negb_eqb_flip (a b : bool) : negb (Bool.eqb a b) = true -> a = negb b.
Proof. destruct a, b; simpl; intros H; try reflexivity; discriminate H. Qed.

Lemma monitor_loop_spec (polls : list Poll) :
  forall lastReady connected : bool,
    alternates (negb lastReady)
      (state_changes (notified (monitor_loop polls lastReady connected))) /\
    notified (monitor_loop polls lastReady connected)
    = map connectionStateChanged
        (state_changes (notified (monitor_loop polls lastReady connected))) /\
    connected_after (monitor_loop polls lastReady connected)
    = last (state_changes (notified (monitor_loop polls lastReady connected)))
        connected /\
    (List.length (notified (monitor_loop polls lastReady connected))
     <= List.length polls)%nat /\
    (connected = lastReady ->
     Forall (fun p => channel_read p <> None) polls ->
     connected_after (monitor_loop polls lastReady connected)
     = last (map (fun p => is_ready (state_read p)) polls) lastReady).
Proof.
  induction polls as [| poll rest IH]; intros lastReady connected; simpl.
  - repeat split; auto.
  - destruct (channel_read poll) as [ch |] eqn:Ech; simpl.
    + destruct (negb (Bool.eqb (is_ready (state_read poll)) lastReady)) eqn:E;
        simpl.
      * apply negb_eqb_flip in E.
        destruct (IH (is_ready (state_read poll)) (is_ready (state_read poll)))
          as (Ha & Hn & Hc & Hl & Hr).
        split; [split; [exact E | rewrite E in Ha |- *; exact Ha] |].
        split; [rewrite <- Hn; reflexivity |].
        split; [rewrite last_cons_default; exact Hc |].
        split; [lia |].
        intros _ F. inversion F; subst.
        rewrite Hr by (reflexivity || assumption).
        rewrite last_cons_default. reflexivity.
      * apply negb_false_iff, Bool.eqb_prop in E.
        destruct (IH lastReady connected) as (Ha & Hn & Hc & Hl & Hr).
        split; [exact Ha |]. split; [exact Hn |]. split; [exact Hc |].
        split; [lia |].
        intros Ec F. inversion F; subst.
        rewrite Hr by (reflexivity || assumption).
        rewrite last_cons_default. reflexivity.
    + repeat split; auto; try lia.
      intros _ F. inversion F; subst. contradiction.
Qed.

(** X9.  The monitor thread reports edges only: the values it notifies
    alternate, beginning with [true]; it queues nothing but
    [connectionStateChanged], at most one per poll; the value it leaves in
    [m_connected] is the last one it notified, or the one it found when it
    notified none.  Started on a flag that is false, as every connect
    leaves it, and polling a channel each time, it leaves the readiness of
    the last state it polled. *)
Theorem connectionMonitor_edges :
  forall (polls : list Poll) (connected : bool),
    alternates true
      (state_changes (notified (connectionMonitor_thread polls connected))) /\
    notified (connectionMonitor_thread polls connected)
    = map connectionStateChanged
        (state_changes (notified (connectionMonitor_thread polls connected))) /\
    connected_after (connectionMonitor_thread polls connected)
    = last (state_changes (notified (connectionMonitor_thread polls connected)))
        connected /\
    (List.length (notified (connectionMonitor_thread polls connected))
     <= List.length polls)%nat /\
    (connected = false ->
     Forall (fun p => channel_read p <> None) polls ->
     connected_after (connectionMonitor_thread polls connected)
     = last (map (fun p => is_ready (state_read p)) polls) false).
Proof.
  intros polls connected. unfold connectionMonitor_thread.
  exact (monitor_loop_spec polls false connected).
Qed.

Lemma connectionMonitor_edges_witness :
  connected_after
    (connectionMonitor_thread
       [ {| channel_read := Some {| grpc.target := "gateway:50051" |};
            state_read := GRPC_CHANNEL_CONNECTING |};
         {| channel_read := Some {| grpc.target := "gateway:50051" |};
            state_read := GRPC_CHANNEL_READY |};
         {| channel_read := Some {| grpc.target := "gateway:50051" |};
            state_read := GRPC_CHANNEL_READY |};
         {| channel_read := Some {| grpc.target := "gateway:50051" |};
            state_read := GRPC_CHANNEL_TRANSIENT_FAILURE |} ]
       false)
  = false.
Proof.
  apply (connectionMonitor_edges
           [ {| channel_read := Some {| grpc.target := "gateway:50051" |};
                state_read := GRPC_CHANNEL_CONNECTING |};
             {| channel_read := Some {| grpc.target := "gateway:50051" |};
                state_read := GRPC_CHANNEL_READY |};
             {| channel_read := Some {| grpc.target := "gateway:50051" |};
                state_read := GRPC_CHANNEL_READY |};
             {| channel_read := Some {| grpc.target := "gateway:50051" |};
                state_read := GRPC_CHANNEL_TRANSIENT_FAILURE |} ]
           false).
  - reflexivity.
  - repeat constructor; discriminate.
Defined.

(** The run of the witness: connecting, ready twice, then a failure. *)
Example monitor_ready_then_lost :
  notified
    (connectionMonitor_thread
       [ {| channel_read := Some {| grpc.target := "gateway:50051" |};
            state_read := GRPC_CHANNEL_CONNECTING |};
         {| channel_read := Some {| grpc.target := "gateway:50051" |};
            state_read := GRPC_CHANNEL_READY |};
         {| channel_read := Some {| grpc.target := "gateway:50051" |};
            state_read := GRPC_CHANNEL_READY |};
         {| channel_read := Some {| grpc.target := "gateway:50051" |};
            state_read := GRPC_CHANNEL_TRANSIENT_FAILURE |} ]
       false)
  = [connectionStateChanged true; connectionStateChanged false].
Proof. reflexivity. Qed.

(* ====================================================================== *)
(** * Connection management over the lifetime of the object *)
(* ====================================================================== *)

Lemma connect_trace (address : Qt.QString) (stores : list bool)
  (c : GatewayClient) :
  run (connectToGateway address stores) c
  = (tt, connected_to address c,
     actions_of (disconnectFromGateway stores) c
     ++ [Started Job_connectionMonitor]).
Proof.
  unfold run, connectToGateway, bind, actions_of.
  pose proof (disconnect_trace stores c) as E. unfold run in E. rewrite E.
  unfold startConnectionMonitor, std_thread, bind, modify, act, ret.
  cbn [app snd]. destruct c; reflexivity.
Qed.

Lemma stopSubscriptions_trace (c : GatewayClient) :
  run stopSubscriptions c
  = (tt, subscriptions_stopped c,
     map Joined
       (bodies [m_sysStateThread c; m_eventsThread c; m_downloadThread c])).
Proof.
  destruct c as [addr ch stub workers [sys] [ev] [dl] [mon] csys cev cdl stop
                   conn].
  unfold subscriptions_stopped. autounfold with gateway. simpl.
  destruct sys, ev, dl; reflexivity.
Qed.

Lemma subscribeSystemState_trace (taskId : Qt.QString) (c : GatewayClient) :
  run (subscribeSystemState taskId) c
  = (tt,
     set_m_sysStateThread
       (fst (restart (m_stub c) (fun s => Job_subscribeSystemState s taskId)
               "SubscribeSystemState: not connected"))
       (set_m_sysStateCtx (Some grpc.ClientContext_new) c),
     map Joined (bodies [m_sysStateThread c])
     ++ snd (restart (m_stub c) (fun s => Job_subscribeSystemState s taskId)
               "SubscribeSystemState: not connected")).
Proof.
  destruct c as [addr ch stub workers [sys] [ev] [dl] [mon] csys cev cdl stop
                   conn].
  unfold subscribeSystemState, std_thread. autounfold with gateway. simpl.
  destruct sys, stub; reflexivity.
Qed.

Lemma subscribeInspectionEvents_trace (taskId : Qt.QString)
  (c : GatewayClient) :
  run (subscribeInspectionEvents taskId) c
  = (tt,
     set_m_eventsThread
       (fst (restart (m_stub c)
               (fun s => Job_subscribeInspectionEvents s taskId)
               "SubscribeInspectionEvents: not connected"))
       (set_m_eventsCtx (Some grpc.ClientContext_new) c),
     map Joined (bodies [m_eventsThread c])
     ++ snd (restart (m_stub c)
               (fun s => Job_subscribeInspectionEvents s taskId)
               "SubscribeInspectionEvents: not connected")).
Proof.
  destruct c as [addr ch stub workers [sys] [ev] [dl] [mon] csys cev cdl stop
                   conn].
  unfold subscribeInspectionEvents, std_thread. autounfold with gateway. simpl.
  destruct ev, stub; reflexivity.
Qed.

Lemma downloadMedia_trace (mediaId : Qt.QString) (c : GatewayClient) :
  run (downloadMedia mediaId) c
  = (tt,
     set_m_downloadThread
       (fst (restart (m_stub c) (fun s => Job_downloadMedia s mediaId)
               "DownloadMedia: not connected"))
       (set_m_downloadCtx (Some grpc.ClientContext_new) c),
     map Joined (bodies [m_downloadThread c])
     ++ snd (restart (m_stub c) (fun s => Job_downloadMedia s mediaId)
               "DownloadMedia: not connected")).
Proof.
  destruct c as [addr ch stub workers [sys] [ev] [dl] [mon] csys cev cdl stop
                   conn].
  unfold downloadMedia, std_thread. autounfold with gateway. simpl.
  destruct dl, stub; reflexivity.
Qed.

(** A one-shot call made with a Session: a control call starts and
    detaches its thread, any other starts it and pushes it onto the
    workers left after reaping. *)
Lemma invoke_trace (call : OneShotCall) (stub : grpc.Stub)
  (c : GatewayClient) :
  m_stub c = Some stub ->
  run (invoke call) c
  = if is_control_call call then
      (tt, c, [Started (job_of call stub); Detached (job_of call stub)])
    else
      (tt,
       set_m_workers
         (reapFinishedWorkers (m_workers c)
          ++ [{| body := Some (job_of call stub) |}]) c,
       [Started (job_of call stub)]).
Proof.
  intros H.
  destruct call; unfold runControlRpc, track, std_thread, detach;
    autounfold with gateway; unfold runControlRpc, track, std_thread, detach;
    autounfold with gateway; rewrite H; simpl; reflexivity.
Qed.

Lemma reap_joinable (workers : list thread) :
  Forall (fun t => joinable t = true) workers ->
  reapFinishedWorkers workers = workers.
Proof.
  unfold reapFinishedWorkers.
  induction 1 as [| t rest Ht _ IH]; simpl; [reflexivity |].
  rewrite Ht, IH. reflexivity.
Qed.

Lemma invariant_workers (c : GatewayClient) :
  session_invariant c ->
  Forall (fun t => joinable t = true) (m_workers c) /\
  Forall (fun job => is_worker_job job = true /\ job_stub job = m_stub c)
    (bodies (m_workers c)).
Proof.
  intros (_ & W & _). induction W as [| t rest (job & Hb & Hw & Hs) _ IH].
  - split; constructor.
  - destruct IH as [IH1 IH2]. split.
    + constructor; [unfold joinable; rewrite Hb; reflexivity | exact IH1].
    + simpl. rewrite Hb. constructor; [split; assumption | exact IH2].
Qed.

Lemma streaming_slot_empty (stub : option grpc.Stub)
  (ctx : option grpc.ClientContext) (is_mine : Job -> bool) :
  streaming_slot_ok stub thread_default ctx is_mine.
Proof. exact I. Qed.

(** A slot that is not running stays fine whatever happens to its context;
    one that runs needs context and stub as they are. *)
Lemma streaming_slot_no_session (t : thread)
  (ctx : option grpc.ClientContext) (is_mine : Job -> bool) :
  streaming_slot_ok None t ctx is_mine -> body t = None.
Proof.
  unfold streaming_slot_ok. destruct (body t); [| reflexivity].
  intros (_ & _ & H & _). contradiction.
Qed.

Lemma invariant_init : session_invariant GatewayClient_init.
Proof. repeat split; constructor. Qed.

Lemma invariant_disconnected (c : GatewayClient) :
  session_invariant (disconnected c).
Proof. repeat split; constructor. Qed.

Lemma invariant_connected_to (address : Qt.QString) (c : GatewayClient) :
  session_invariant (connected_to address c).
Proof. repeat split; constructor. Qed.

Lemma state_after_run {A : Type} (m : M A) (c c' : GatewayClient) (a : A)
  (acts : list Action) :
  run m c = (a, c', acts) -> state_after m c = c'.
Proof. unfold run, state_after. intros E. rewrite E. reflexivity. Qed.

Lemma invariant_after (c : GatewayClient) (e : Event) :
  session_invariant c -> session_invariant (after c e).
Proof.
  intros Inv. destruct e as [s | nowReady]; simpl.
  - destruct s; simpl.
    + rewrite (state_after_run _ _ _ _ _ (connect_trace address stores c)).
      apply invariant_connected_to.
    + rewrite (state_after_run _ _ _ _ _ (disconnect_trace stores c)).
      apply invariant_disconnected.
    + destruct (m_stub c) as [stub |] eqn:Estub.
      * pose proof (invoke_trace call stub c Estub) as T.
        destruct (is_control_call call) eqn:Ectl;
          rewrite (state_after_run _ _ _ _ _ T); [exact Inv |].
        destruct (invariant_workers c Inv) as [Hj _].
        rewrite (reap_joinable _ Hj).
        destruct Inv as (S & W & Y1 & Y2 & Y3).
        destruct c; simpl in *. rewrite Estub in *.
        split; [exact S |]. split; [| repeat split; assumption].
        apply Forall_app. split; [exact W |].
        constructor; [| constructor].
        eexists. split; [reflexivity |].
        destruct call; simpl in *; try discriminate Ectl; split; reflexivity.
      * assert (E : state_after (invoke call) c = c).
        { destruct call; autounfold with gateway; rewrite Estub; reflexivity. }
        rewrite E. exact Inv.
    + rewrite (state_after_run _ _ _ _ _ (subscribeSystemState_trace taskId c)).
      destruct Inv as (S & W & Y1 & Y2 & Y3).
      destruct c; simpl in *.
      split; [exact S |]. split; [exact W |].
      split; [| split; assumption].
      destruct m_stub0; simpl; [| exact I].
      unfold streaming_slot_ok. simpl. repeat split. discriminate.
    + rewrite (state_after_run _ _ _ _ _
                 (subscribeInspectionEvents_trace taskId c)).
      destruct Inv as (S & W & Y1 & Y2 & Y3).
      destruct c; simpl in *.
      split; [exact S |]. split; [exact W |]. split; [exact Y1 |].
      split; [| exact Y3].
      destruct m_stub0; simpl; [| exact I].
      unfold streaming_slot_ok. simpl. repeat split. discriminate.
    + rewrite (state_after_run _ _ _ _ _ (downloadMedia_trace mediaId c)).
      destruct Inv as (S & W & Y1 & Y2 & Y3).
      destruct c; simpl in *.
      split; [exact S |]. split; [exact W |]. split; [exact Y1 |].
      split; [exact Y2 |].
      destruct m_stub0; simpl; [| exact I].
      unfold streaming_slot_ok. simpl. repeat split. discriminate.
    + rewrite (state_after_run _ _ _ _ _ (stopSubscriptions_trace c)).
      destruct Inv as (S & W & _).
      destruct c; simpl in *.
      split; [exact S |]. split; [exact W |]. repeat split.
  - destruct (joinable (m_connMonitorThread c)) eqn:Ej; [| exact Inv].
    destruct Inv as (S & W & Y1 & Y2 & Y3).
    destruct c; simpl in *.
    destruct m_stub0; simpl in *.
    + repeat split; try assumption; apply S.
    + destruct S as (_ & _ & _ & Hm & _). congruence.
Qed.

Lemma invariant_reachable (c : GatewayClient) :
  reachable c -> session_invariant c.
Proof.
  intros [events ->].
  assert (G : forall c0, session_invariant c0 ->
                         session_invariant (fold_left after events c0)).
  { induction events as [| e rest IH]; intros c0 H; simpl; [exact H |].
    apply IH, invariant_after, H. }
  apply G, invariant_init.
Qed.

Lemma actions_of_run {A : Type} (m : M A) (c c' : GatewayClient) (a : A)
  (acts : list Action) :
  run m c = (a, c', acts) -> actions_of m c = acts.
Proof. unfold run, actions_of. intros E. rewrite E. reflexivity. Qed.

(** X10.  From any state, and whatever the monitor thread of the previous
    Session stores meanwhile, [connectToGateway] ends with a Session for
    the address given: the address is stored, the stub is bound to a
    channel made for it, and the monitor is the only thread running.  On
    the way it joins every thread that ran before and starts nothing but
    the new monitor.  After the notifications of the old monitor it queues
    [connectionStateChanged(false)] exactly when the flag is true at the
    exchange: the value it held before the call if the old monitor stored
    nothing or was not running, the last value stored otherwise.  The flag
    is false afterwards: a new connection is reported only once the
    monitor has seen it ready. *)
Theorem connect_postcondition :
  forall (address : Qt.QString) (stores : list bool) (c : GatewayClient),
    currentAddress (state_after (connectToGateway address stores) c)
    = address /\
    m_stub (state_after (connectToGateway address stores) c)
    = Some {| grpc.stub_channel :=
                {| grpc.target := Qt.toStdString address |} |} /\
    m_channel (state_after (connectToGateway address stores) c)
    = Some {| grpc.target := Qt.toStdString address |} /\
    isConnected (state_after (connectToGateway address stores) c) = false /\
    bodies (threads_of (state_after (connectToGateway address stores) c))
    = [Job_connectionMonitor] /\
    joined (actions_of (connectToGateway address stores) c)
    = bodies (threads_of c) /\
    started (actions_of (connectToGateway address stores) c)
    = [Job_connectionMonitor] /\
    queued (actions_of (connectToGateway address stores) c)
    = (if joinable (m_connMonitorThread c)
       then map connectionStateChanged stores else [])
      ++ (if flag_at_exchange stores c then [connectionStateChanged false]
          else []) /\
    queued (actions_of (connectToGateway address []) c)
    = (if m_connected c then [connectionStateChanged false] else []).
Proof.
  intros address stores c.
  rewrite (state_after_run _ _ _ _ _ (connect_trace address stores c)).
  rewrite (actions_of_run _ _ _ _ _ (connect_trace address stores c)).
  rewrite (actions_of_run _ _ _ _ _ (connect_trace address [] c)).
  destruct (disconnect_actions stores c) as (J & S & Q).
  destruct (disconnect_actions [] c) as (_ & _ & Q0).
  rewrite !joined_app, !started_app, !queued_app.
  rewrite J, S, Q, Q0. simpl. rewrite !app_nil_r.
  repeat split.
  unfold monitor_reports, liveness_lost, flag_at_exchange.
  destruct (joinable _); reflexivity.
Qed.

Lemma slot_job_not_control (job : Job) :
  is_sysState_job job = true \/ is_events_job job = true \/
  is_download_job job = true \/ is_worker_job job = true \/
  job = Job_connectionMonitor ->
  is_control_job job = false.
Proof.
  destruct job; simpl; intros [H | [H | [H | [H | H]]]];
    try reflexivity; discriminate H.
Qed.

Lemma slot_bodies (stub : option grpc.Stub) (t : thread)
  (ctx : option grpc.ClientContext) (is_mine : Job -> bool) :
  streaming_slot_ok stub t ctx is_mine ->
  Forall (fun job => is_mine job = true /\ job_stub job = stub) (bodies [t]).
Proof.
  unfold streaming_slot_ok. simpl. destruct (body t) as [job |];
    [| constructor].
  intros (H1 & H2 & _). constructor; [split; assumption | constructor].
Qed.

(** In a state that satisfies the invariant every thread of the object
    runs a body that is no control call and that captured no stub but the
    current one. *)
Lemma invariant_bodies (c : GatewayClient) :
  session_invariant c ->
  Forall
    (fun job =>
       is_control_job job = false /\
       (job_stub job = None \/ job_stub job = m_stub c))
    (bodies (threads_of c)).
Proof.
  intros Inv. destruct (invariant_workers c Inv) as [_ Hw].
  destruct Inv as (S & _ & Y1 & Y2 & Y3).
  apply slot_bodies in Y1, Y2, Y3.
  assert (Hm : Forall (fun job => job = Job_connectionMonitor)
                 (bodies [m_connMonitorThread c])).
  { simpl. destruct (m_stub c).
    - destruct S as (_ & _ & -> & _). repeat constructor.
    - destruct S as (_ & _ & _ & Hj & _). unfold joinable in Hj.
      destruct (body (m_connMonitorThread c)); [discriminate | constructor]. }
  assert (E : bodies (threads_of c)
              = bodies [m_sysStateThread c] ++ bodies [m_eventsThread c]
                ++ bodies [m_downloadThread c]
                ++ bodies [m_connMonitorThread c] ++ bodies (m_workers c)).
  { unfold threads_of. simpl.
    destruct (body (m_sysStateThread c)), (body (m_eventsThread c)),
      (body (m_downloadThread c)), (body (m_connMonitorThread c));
      reflexivity. }
  rewrite E. repeat (apply Forall_app; split).
  - eapply Forall_impl; [| exact Y1]. simpl. intros job [H1 H2].
    split; [apply slot_job_not_control; auto | right; exact H2].
  - eapply Forall_impl; [| exact Y2]. simpl. intros job [H1 H2].
    split; [apply slot_job_not_control; auto | right; exact H2].
  - eapply Forall_impl; [| exact Y3]. simpl. intros job [H1 H2].
    split; [apply slot_job_not_control; auto | right; exact H2].
  - eapply Forall_impl; [| exact Hm]. simpl. intros job ->.
    split; [reflexivity | left; reflexivity].
  - eapply Forall_impl; [| exact Hw]. simpl. intros job [H1 H2].
    split; [apply slot_job_not_control; auto 6 | right; exact H2].
Qed.

(** X11.  Between two calls of its slots the object is always consistent.
    Stub and channel exist together, the stub bound to the channel made
    for the stored address, and then the monitor runs.  Without a Session
    nothing runs, the address is empty and the flag is false.  Every
    worker on [m_workers] is joinable, and no thread the object holds
    captured a stub other than the one it holds now: the stub is never
    reset under a thread that uses it. *)
Theorem session_invariant_holds :
  forall c : GatewayClient,
    reachable c ->
    session_invariant c /\
    (m_stub c = None <-> m_channel c = None) /\
    (m_stub c = None ->
     isConnected c = false /\ currentAddress c = "" /\
     bodies (threads_of c) = []) /\
    (m_stub c <> None -> joinable (m_connMonitorThread c) = true) /\
    Forall (fun t => joinable t = true) (m_workers c) /\
    Forall
      (fun job => job_stub job = None \/ job_stub job = m_stub c)
      (bodies (threads_of c)).
Proof.
  intros c R. pose proof (invariant_reachable c R) as Inv.
  pose proof (invariant_bodies c Inv) as B.
  destruct (invariant_workers c Inv) as [Hj _].
  split; [exact Inv |].
  destruct Inv as (S & W & Y1 & Y2 & Y3).
  split; [| split; [| split; [| split]]].
  - destruct (m_stub c) as [stub |].
    + destruct S as (-> & _). split; discriminate.
    + destruct S as (-> & _). split; reflexivity.
  - intros E. rewrite E in *. destruct S as (_ & Ha & Hw & Hm & Hc).
    split; [exact Hc |]. split; [exact Ha |].
    apply streaming_slot_no_session in Y1, Y2, Y3.
    unfold threads_of. simpl. unfold joinable in Hm.
    rewrite Y1, Y2, Y3, Hw.
    destruct (body (m_connMonitorThread c)); [discriminate | reflexivity].
  - intros N. destruct (m_stub c) as [stub |]; [| contradiction].
    destruct S as (_ & _ & Hm & _). unfold joinable. rewrite Hm. reflexivity.
  - exact Hj.
  - eapply Forall_impl; [| exact B]. simpl. intros job [_ H]. exact H.
Qed.

Lemma session_invariant_holds_witness :
  session_invariant
    (fold_left after
       [Called (Slot_connectToGateway "gateway:50051" []);
        Called (Slot_subscribeSystemState "task-1");
        Called (Slot_call (Call_getPlan "plan-7"));
        MonitorStored true;
        Called (Slot_call (Call_pauseInspection "task-1" "operator"))]
       GatewayClient_init).
Proof.
  apply (session_invariant_holds
           (fold_left after
              [Called (Slot_connectToGateway "gateway:50051" []);
               Called (Slot_subscribeSystemState "task-1");
               Called (Slot_call (Call_getPlan "plan-7"));
               MonitorStored true;
               Called (Slot_call (Call_pauseInspection "task-1" "operator"))]
              GatewayClient_init)).
  eexists. reflexivity.
Defined.

(** The state of the witness: connected, with one subscription and one
    worker; the detached pause thread is nowhere in the object. *)
Example reachable_state_threads :
  bodies
    (threads_of
       (fold_left after
          [Called (Slot_connectToGateway "gateway:50051" []);
           Called (Slot_subscribeSystemState "task-1");
           Called (Slot_call (Call_getPlan "plan-7"));
           MonitorStored true;
           Called (Slot_call (Call_pauseInspection "task-1" "operator"))]
          GatewayClient_init))
  = let stub :=
      {| grpc.stub_channel := {| grpc.target := "gateway:50051" |} |} in
    [Job_subscribeSystemState stub "task-1"; Job_connectionMonitor;
     Job_getPlan stub "plan-7"].
Proof. reflexivity. Qed.

Lemma cancel_cancel (ctx : option grpc.ClientContext) :
  cancel (cancel ctx) = cancel ctx.
Proof. destruct ctx as [[d x] |]; reflexivity. Qed.

(** X12.  [stopSubscriptions] does not disconnect: address, channel, stub,
    liveness flag, workers and monitor are as before.  It cancels the three
    contexts and joins the three streaming threads, queues no signal and
    starts nothing; called again at once it does nothing at all. *)
Theorem stopSubscriptions_keeps_session :
  forall c : GatewayClient,
    m_address (state_after stopSubscriptions c) = m_address c /\
    m_channel (state_after stopSubscriptions c) = m_channel c /\
    m_stub (state_after stopSubscriptions c) = m_stub c /\
    m_connected (state_after stopSubscriptions c) = m_connected c /\
    m_workers (state_after stopSubscriptions c) = m_workers c /\
    m_connMonitorThread (state_after stopSubscriptions c)
    = m_connMonitorThread c /\
    bodies
      [m_sysStateThread (state_after stopSubscriptions c);
       m_eventsThread (state_after stopSubscriptions c);
       m_downloadThread (state_after stopSubscriptions c)] = [] /\
    m_sysStateCtx (state_after stopSubscriptions c) = cancel (m_sysStateCtx c) /\
    m_eventsCtx (state_after stopSubscriptions c) = cancel (m_eventsCtx c) /\
    m_downloadCtx (state_after stopSubscriptions c)
    = cancel (m_downloadCtx c) /\
    actions_of stopSubscriptions c
    = map Joined
        (bodies [m_sysStateThread c; m_eventsThread c; m_downloadThread c]) /\
    run stopSubscriptions (state_after stopSubscriptions c)
    = (tt, state_after stopSubscriptions c, []).
Proof.
  intros c.
  rewrite (state_after_run _ _ _ _ _ (stopSubscriptions_trace c)).
  rewrite (actions_of_run _ _ _ _ _ (stopSubscriptions_trace c)).
  rewrite stopSubscriptions_trace.
  destruct c as [addr ch stub workers sys ev dl mon csys cev cdl stop conn].
  unfold subscriptions_stopped. simpl. rewrite !cancel_cancel.
  repeat split.
Qed.

(** X13.  A streaming call replaces the instance of its own kind and
    touches no other: it joins the thread of that kind, if one runs,
    before it starts the new one, and leaves a fresh context for it.
    Without a Session it still joins the old thread and renews the
    context, then queues its "not connected" text and starts nothing.  The
    threads and contexts of the two other kinds, the workers and the
    Session are as before. *)
Theorem subscription_replacement :
  forall (taskId mediaId : Qt.QString) (c : GatewayClient),
    (actions_of (subscribeSystemState taskId) c
     = map Joined (bodies [m_sysStateThread c])
       ++ match m_stub c with
          | Some stub => [Started (Job_subscribeSystemState stub taskId)]
          | None =>
              [Queued (errorOccurred "SubscribeSystemState: not connected")]
          end /\
     m_sysStateCtx (state_after (subscribeSystemState taskId) c)
     = Some grpc.ClientContext_new /\
     set_m_sysStateThread (m_sysStateThread c)
       (set_m_sysStateCtx (m_sysStateCtx c)
          (state_after (subscribeSystemState taskId) c)) = c) /\
    (actions_of (subscribeInspectionEvents taskId) c
     = map Joined (bodies [m_eventsThread c])
       ++ match m_stub c with
          | Some stub => [Started (Job_subscribeInspectionEvents stub taskId)]
          | None =>
              [Queued
                 (errorOccurred "SubscribeInspectionEvents: not connected")]
          end /\
     m_eventsCtx (state_after (subscribeInspectionEvents taskId) c)
     = Some grpc.ClientContext_new /\
     set_m_eventsThread (m_eventsThread c)
       (set_m_eventsCtx (m_eventsCtx c)
          (state_after (subscribeInspectionEvents taskId) c)) = c) /\
    (actions_of (downloadMedia mediaId) c
     = map Joined (bodies [m_downloadThread c])
       ++ match m_stub c with
          | Some stub => [Started (Job_downloadMedia stub mediaId)]
          | None => [Queued (errorOccurred "DownloadMedia: not connected")]
          end /\
     m_downloadCtx (state_after (downloadMedia mediaId) c)
     = Some grpc.ClientContext_new /\
     set_m_downloadThread (m_downloadThread c)
       (set_m_downloadCtx (m_downloadCtx c)
          (state_after (downloadMedia mediaId) c)) = c).
Proof.
  intros taskId mediaId c.
  rewrite (state_after_run _ _ _ _ _ (subscribeSystemState_trace taskId c)).
  rewrite (actions_of_run _ _ _ _ _ (subscribeSystemState_trace taskId c)).
  rewrite (state_after_run _ _ _ _ _
             (subscribeInspectionEvents_trace taskId c)).
  rewrite (actions_of_run _ _ _ _ _
             (subscribeInspectionEvents_trace taskId c)).
  rewrite (state_after_run _ _ _ _ _ (downloadMedia_trace mediaId c)).
  rewrite (actions_of_run _ _ _ _ _ (downloadMedia_trace mediaId c)).
  destruct c as [addr ch stub workers sys ev dl mon csys cev cdl stop conn].
  destruct stub; simpl; repeat split.
Qed.

(** X14.  In every state the object can be in, a one-shot call made with a
    Session queues nothing itself and starts exactly one thread.  A call
    other than pause, resume and stop pushes that thread onto [m_workers]
    and removes none: the workers pushed before are all still joinable, so
    nothing is reaped until a disconnect.  Pause, resume and stop detach
    their thread and leave the object as it was. *)
Theorem one_shot_with_session :
  forall (call : OneShotCall) (stub : grpc.Stub) (c : GatewayClient),
    reachable c ->
    m_stub c = Some stub ->
    queued (actions_of (invoke call) c) = [] /\
    started (actions_of (invoke call) c) = [job_of call stub] /\
    (is_control_call call = false ->
     state_after (invoke call) c
     = set_m_workers (m_workers c ++ [{| body := Some (job_of call stub) |}])
         c /\
     actions_of (invoke call) c = [Started (job_of call stub)]) /\
    (is_control_call call = true ->
     state_after (invoke call) c = c /\
     actions_of (invoke call) c
     = [Started (job_of call stub); Detached (job_of call stub)]).
Proof.
  intros call stub c R Estub.
  pose proof (invariant_reachable c R) as Inv.
  destruct (invariant_workers c Inv) as [Hj _].
  pose proof (invoke_trace call stub c Estub) as T.
  rewrite (reap_joinable _ Hj) in T.
  destruct (is_control_call call);
    rewrite (state_after_run _ _ _ _ _ T), (actions_of_run _ _ _ _ _ T);
    simpl; (split; [reflexivity |]); (split; [reflexivity |]);
    split; intros E; try discriminate E; split; reflexivity.
Qed.

Lemma one_shot_with_session_witness :
  started
    (actions_of (invoke (Call_getNavMap "map-1"))
       (fold_left after
          [Called (Slot_connectToGateway "gateway:50051" []);
           Called (Slot_call (Call_getPlan "plan-7"))]
          GatewayClient_init))
  = [Job_getNavMap
       {| grpc.stub_channel := {| grpc.target := "gateway:50051" |} |}
       "map-1"].
Proof.
  apply (one_shot_with_session (Call_getNavMap "map-1")
           {| grpc.stub_channel := {| grpc.target := "gateway:50051" |} |}
           (fold_left after
              [Called (Slot_connectToGateway "gateway:50051" []);
               Called (Slot_call (Call_getPlan "plan-7"))]
              GatewayClient_init)).
  - eexists. reflexivity.
  - reflexivity.
Defined.

(** X15.  [disconnectFromGateway] joins every thread the object holds, the
    streaming threads first, then the monitor, then the workers in the
    order they were pushed, and starts none.  In every state the object
    can be in, none of the threads it joins is a pause, resume or stop
    thread: the thread of a tracked call is joined by the disconnect that
    follows the call, the detached thread of a control call never is. *)
Theorem disconnect_joins :
  forall (call : OneShotCall) (stub : grpc.Stub) (c : GatewayClient)
    (stores : list bool),
    joined (actions_of (disconnectFromGateway stores) c)
    = bodies (threads_of c) /\
    started (actions_of (disconnectFromGateway stores) c) = [] /\
    (reachable c ->
     Forall (fun job => is_control_job job = false)
       (joined (actions_of (disconnectFromGateway stores) c))) /\
    (reachable c ->
     m_stub c = Some stub ->
     (In (job_of call stub)
         (joined
            (actions_of (disconnectFromGateway stores)
               (state_after (invoke call) c)))
      <-> is_control_call call = false)).
Proof.
  intros call stub c stores.
  assert (J : forall c0,
    joined (actions_of (disconnectFromGateway stores) c0)
    = bodies (threads_of c0)).
  { intros c0. apply disconnect_actions. }
  split; [apply J |]. split; [apply disconnect_actions |].
  split.
  - intros R. rewrite J.
    eapply Forall_impl; [| exact (invariant_bodies c (invariant_reachable c R))].
    simpl. intros job [H _]. exact H.
  - intros R Estub. rewrite J.
    pose proof (invariant_reachable c R) as Inv.
    destruct (invariant_workers c Inv) as [Hj _].
    pose proof (invoke_trace call stub c Estub) as T.
    rewrite (reap_joinable _ Hj) in T.
    destruct (is_control_call call) eqn:Ectl;
      rewrite (state_after_run _ _ _ _ _ T).
    + split; [| discriminate].
      intros Hin. exfalso.
      pose proof (invariant_bodies c Inv) as B.
      rewrite Forall_forall in B. destruct (B _ Hin) as [Hc _].
      destruct call; simpl in *; discriminate.
    + split; [reflexivity |]. intros _.
      destruct c as [addr ch st workers [sys] [ev] [dl] [mon] csys cev cdl
                       stop conn].
      unfold threads_of. simpl.
      assert (G : forall ws, In (job_of call stub)
                    (bodies (ws ++ [{| body := Some (job_of call stub) |}]))).
      { induction ws as [| [[j |]] ws IH]; simpl; auto. }
      destruct sys, ev, dl, mon; simpl; auto 6.
Qed.

Lemma disconnect_joins_witness :
  In (Job_getPlan
        {| grpc.stub_channel := {| grpc.target := "gateway:50051" |} |}
        "plan-7")
    (joined
       (actions_of (disconnectFromGateway [true; false])
          (state_after (invoke (Call_getPlan "plan-7"))
             (fold_left after
                [Called (Slot_connectToGateway "gateway:50051" [])]
                GatewayClient_init)))).
Proof.
  apply (disconnect_joins (Call_getPlan "plan-7")
           {| grpc.stub_channel := {| grpc.target := "gateway:50051" |} |}
           (fold_left after
              [Called (Slot_connectToGateway "gateway:50051" [])]
              GatewayClient_init)
           [true; false]).
  - eexists. reflexivity.
  - reflexivity.
  - reflexivity.
Defined.

(* ====================================================================== *)
(** * Further properties of the upload thread *)
(* ====================================================================== *)

Lemma prefix_bound (len : Z) (buf : list byte) :
  0 <= len -> Z.of_nat (List.length (Qt.prefix len buf)) <= len.
Proof.
  revert len. induction buf as [| b rest IH]; intros len H; simpl; [lia |].
  destruct (Z.leb_spec len 0); simpl; [lia |].
  specialize (IH (len - 1)). lia.
Qed.

Lemma to_uint32_succ (k : nat) :
  Cxx.to_uint32 (Cxx.to_uint32 (Z.of_nat k) + 1)
  = Cxx.to_uint32 (Z.of_nat (S k)).
Proof.
  unfold Cxx.to_uint32, Cxx.wrap_unsigned.
  rewrite Zplus_mod_idemp_l. f_equal. lia.
Qed.

Lemma upload_loop_chunks (writer : ClientWriter) (uploadId filename : string)
  (totalBytes : Z) (to_read : list Qt.QByteArray) :
  forall (bytesSent lastPercent : Z) (k : nat),
    let run :=
      upload_loop writer uploadId filename totalBytes to_read bytesSent
        (Cxx.to_uint32 (Z.of_nat k)) lastPercent in
    map proto.data (sent run)
    = firstn (List.length (sent run)) (map (Qt.read CHUNK_SIZE) to_read) /\
    map proto.chunk_index (sent run)
    = map (fun i => Cxx.to_uint32 (Z.of_nat i))
        (seq k (List.length (sent run))) /\
    map proto.eof (sent run)
    = map (fun i => Nat.eqb (S i) (List.length to_read))
        (seq 0 (List.length (sent run))) /\
    Forall (well_formed_chunk uploadId filename) (sent run) /\
    (exit run = AtEnd -> List.length (sent run) = List.length to_read) /\
    (exit run = AtEnd ->
     Forall (fun chunk => Write writer chunk = true) (sent run)).
Proof.
  induction to_read as [| next rest IH]; intros bytesSent lastPercent k; simpl.
  - repeat split; auto; constructor.
  - destruct (Qt.isEmpty (Qt.read CHUNK_SIZE next)) eqn:Eempty; simpl.
    + repeat split; auto; try constructor; discriminate.
    + assert (Hsize : 0 < Qt.size (Qt.read CHUNK_SIZE next) <= CHUNK_SIZE).
      { unfold Qt.size, Qt.read in *. split.
        - destruct (Qt.prefix CHUNK_SIZE next); [discriminate | simpl; lia].
        - apply prefix_bound. unfold CHUNK_SIZE. lia. }
      assert (Hend : Qt.atEnd rest = Nat.eqb 1 (S (List.length rest))).
      { destruct rest; reflexivity. }
      match goal with
      | |- context [Write writer ?c] => destruct (Write writer c) eqn:Ew
      end; simpl.
      * rewrite to_uint32_succ.
        match goal with
        | |- context [upload_loop writer uploadId filename totalBytes rest
                        ?b ?i ?l] =>
            destruct (IH b l (S k)) as (Hd & Hi & He & Hw & Hn & Ha)
        end.
        split; [rewrite Hd; reflexivity |].
        split; [rewrite Hi; reflexivity |].
        split.
        { rewrite He, <- seq_shift, map_map, Hend. reflexivity. }
        split; [constructor; [repeat split; auto; apply Hsize | exact Hw] |].
        split; [intros E; rewrite (Hn E); reflexivity |].
        intros E. constructor; [exact Ew | exact (Ha E)].
      * split; [reflexivity |]. split; [reflexivity |].
        split; [rewrite Hend; reflexivity |].
        split; [repeat constructor; simpl; apply Hsize |].
        split; discriminate.
Qed.


Lemma upload_loop_no_progress (writer : ClientWriter)
  (uploadId filename : string) (totalBytes : Z)
  (to_read : list Qt.QByteArray) :
  totalBytes <= 0 ->
  forall bytesSent chunkIndex lastPercent : Z,
    progress_of
      (signals
         (upload_loop writer uploadId filename totalBytes to_read bytesSent
            chunkIndex lastPercent)) = [].
Proof.
  intros Ht.
  induction to_read as [| next rest IH]; intros bytesSent chunkIndex lastPercent;
    simpl; [reflexivity |].
  destruct (Qt.isEmpty (Qt.read CHUNK_SIZE next)); simpl; [reflexivity |].
  match goal with
  | |- context [Write writer ?c] => destruct (Write writer c)
  end; simpl; [| reflexivity].
  replace (0 <? totalBytes) with false by (symmetry; apply Z.ltb_ge; exact Ht).
  simpl. apply IH.
Qed.

(** The signals of a run: progress reports, then one outcome. *)
Lemma uploadCad_signals_shape (path : Qt.QString) (uploadId : string)
  (file : Qt.QFile) (writer : ClientWriter) :
  exists (r : hmi.Result.t) (modelId : Qt.QString),
    signals (uploadCad_thread path uploadId file writer)
    = map uploadCadProgress
        (progress_of (signals (uploadCad_thread path uploadId file writer)))
      ++ [uploadCadFinished r modelId].
Proof.
  unfold uploadCad_thread. destruct (Qt.opens file); simpl;
    [| eexists; eexists; reflexivity].
  pose proof (upload_loop_signals writer uploadId
                (Qt.toStdString (Qt.fileName path)) (Qt.file_size file)
                (Qt.pending file) 0 0 (-1)) as L.
  simpl in L.
  destruct (exit (upload_loop writer uploadId
                    (Qt.toStdString (Qt.fileName path))
                    (Qt.file_size file) (Qt.pending file) 0 0 (-1)))
    eqn:Eexit; [contradiction | | |].
  - destruct (finish_upload writer) as [r modelId]. simpl.
    exists r, modelId. rewrite progress_of_app, app_nil_r, <- L. reflexivity.
  - destruct L as [L _]. destruct (finish_upload writer) as [r modelId]. simpl.
    exists r, modelId. rewrite progress_of_app, app_nil_r, <- L. reflexivity.
  - destruct L as (r & refused & Hs & _).
    exists r, "". rewrite Hs at 1.
    rewrite Hs, progress_of_app, map_app. simpl. rewrite app_nil_r.
    reflexivity.
Qed.

(** X17.  A file that reports no size gets no progress report, whatever is
    read from it and sent: the thread queues one signal only, the
    [uploadCadFinished] that carries its outcome. *)
Theorem upload_without_size :
  forall (path : Qt.QString) (uploadId : string) (file : Qt.QFile)
    (writer : ClientWriter),
    Qt.file_size file <= 0 ->
    progress_of (signals (uploadCad_thread path uploadId file writer)) = [] /\
    exists (r : hmi.Result.t) (modelId : Qt.QString),
      signals (uploadCad_thread path uploadId file writer)
      = [uploadCadFinished r modelId].
Proof.
  intros path uploadId file writer Ht.
  assert (P :
    progress_of (signals (uploadCad_thread path uploadId file writer)) = []).
  { unfold uploadCad_thread. destruct (Qt.opens file); simpl; [| reflexivity].
    pose proof (upload_loop_no_progress writer uploadId
                  (Qt.toStdString (Qt.fileName path)) (Qt.file_size file)
                  (Qt.pending file) Ht 0 0 (-1)) as L.
    destruct (exit (upload_loop writer uploadId
                      (Qt.toStdString (Qt.fileName path))
                      (Qt.file_size file) (Qt.pending file) 0 0 (-1)));
      try destruct (finish_upload writer) as [r modelId]; simpl;
      rewrite ?progress_of_app, L; reflexivity. }
  split; [exact P |].
  pose proof (uploadCad_signals_shape path uploadId file writer) as (r & m & S).
  exists r, m. rewrite S, P. reflexivity.
Qed.

Lemma upload_without_size_witness :
  progress_of
    (signals
       (uploadCad_thread "/proc/version" "upload-1"
          {| Qt.opens := true; Qt.file_size := 0;
             Qt.pending := [[x4c; x69]; [x6e]] |}
          accepting_writer)) = [] /\
  exists (r : hmi.Result.t) (modelId : Qt.QString),
    signals
      (uploadCad_thread "/proc/version" "upload-1"
         {| Qt.opens := true; Qt.file_size := 0;
            Qt.pending := [[x4c; x69]; [x6e]] |}
         accepting_writer)
    = [uploadCadFinished r modelId].
Proof.
  apply (upload_without_size "/proc/version" "upload-1"
           {| Qt.opens := true; Qt.file_size := 0;
              Qt.pending := [[x4c; x69]; [x6e]] |}
           accepting_writer).
  simpl. lia.
Defined.

(** The run of the witness: two reads sent, no report, the server's answer. *)
Example upload_of_unsized_file :
  signals
    (uploadCad_thread "/proc/version" "upload-1"
       {| Qt.opens := true; Qt.file_size := 0;
          Qt.pending := [[x4c; x69]; [x6e]] |}
       accepting_writer)
  = [uploadCadFinished
       {| hmi.Result.code := hmi.ErrorCode.Ok; hmi.Result.message := "" |}
       "model-42"].
Proof. vm_compute. reflexivity. Qed.

(** The last value reported by a loop that reaches the end of the file is
    the percentage of all the bytes read. *)
Lemma upload_loop_last_progress (writer : ClientWriter)
  (uploadId filename : string) (totalBytes limit : Z) :
  0 < totalBytes -> limit * 100 <= Cxx.INT64_MAX ->
  limit * 100 / totalBytes <= Cxx.INT_MAX ->
  forall (to_read : list Qt.QByteArray) (bytesSent chunkIndex lastPercent : Z),
    0 <= bytesSent ->
    bytesSent + bytes_of to_read <= limit ->
    exit (upload_loop writer uploadId filename totalBytes to_read bytesSent
            chunkIndex lastPercent) = AtEnd ->
    last
      (progress_of
         (signals
            (upload_loop writer uploadId filename totalBytes to_read
               bytesSent chunkIndex lastPercent)))
      lastPercent
    = match to_read with
      | [] => lastPercent
      | _ :: _ => (bytesSent + bytes_of to_read) * 100 / totalBytes
      end.
Proof.
  intros Ht Hmax Hint.
  induction to_read as [| next rest IH];
    intros bytesSent chunkIndex lastPercent Hb Hsum; simpl.
  - reflexivity.
  - destruct (Qt.isEmpty (Qt.read CHUNK_SIZE next)); simpl;
      [discriminate |].
    match goal with
    | |- context [Write writer ?c] => destruct (Write writer c)
    end; simpl; [| discriminate].
    simpl in Hsum.
    pose proof (read_size CHUNK_SIZE next) as Hn.
    pose proof (bytes_of_nonneg rest) as Hrest.
    set (n := Qt.size (Qt.read CHUNK_SIZE next)) in *.
    assert (Hmax' : limit * 100 <= 9223372036854775807) by (exact Hmax).
    rewrite (to_qint64_id (bytesSent + n))
      by (unfold int64_range; change (2 ^ 63) with 9223372036854775808; lia).
    destruct (percent_exact totalBytes limit (bytesSent + n) Ht Hmax Hint)
      as [Epct _]; [lia |].
    rewrite Epct. set (pct := (bytesSent + n) * 100 / totalBytes) in *.
    replace (0 <? totalBytes) with true by (symmetry; apply Z.ltb_lt; exact Ht).
    simpl. intros Eexit.
    assert (Hrec : forall l : Z,
      exit (upload_loop writer uploadId filename totalBytes rest
              (bytesSent + n) (Cxx.to_uint32 (chunkIndex + 1)) l) = AtEnd ->
      last
        (progress_of
           (signals
              (upload_loop writer uploadId filename totalBytes rest
                 (bytesSent + n) (Cxx.to_uint32 (chunkIndex + 1)) l))) l
      = match rest with
        | [] => l
        | _ :: _ => (bytesSent + n + bytes_of rest) * 100 / totalBytes
        end).
    { intros l El. apply IH; [lia | lia | exact El]. }
    destruct (Z.eqb_spec pct lastPercent) as [Eq | Neq]; simpl in *.
    + rewrite (Hrec lastPercent Eexit).
      destruct rest; [| f_equal; lia].
      simpl. rewrite <- Eq. unfold pct. f_equal. lia.
    + rewrite last_cons_default, (Hrec pct Eexit).
      destruct rest; [| f_equal; lia].
      simpl. unfold pct. f_equal. lia.
Qed.

(** X18.  An upload that reaches the end of a file of positive size whose
    reads handed out exactly the bytes it reported ends its progress
    reports with 100. *)
Theorem upload_completes_at_100 :
  forall (path : Qt.QString) (uploadId : string) (file : Qt.QFile)
    (writer : ClientWriter),
    0 < Qt.file_size file ->
    Qt.file_size file * 100 <= Cxx.INT64_MAX ->
    bytes_of (Qt.pending file) = Qt.file_size file ->
    exit (uploadCad_thread path uploadId file writer) = AtEnd ->
    last (progress_of (signals (uploadCad_thread path uploadId file writer)))
      (-1)
    = 100.
Proof.
  intros path uploadId file writer Ht Hmax Hsum.
  unfold uploadCad_thread. destruct (Qt.opens file); simpl; [| discriminate].
  assert (Hint : Qt.file_size file * 100 / Qt.file_size file <= Cxx.INT_MAX).
  { rewrite Z.mul_comm, Z.div_mul by lia. vm_compute. discriminate. }
  pose proof (upload_loop_last_progress writer uploadId
                (Qt.toStdString (Qt.fileName path)) (Qt.file_size file)
                (Qt.file_size file) Ht Hmax Hint (Qt.pending file) 0 0 (-1))
    as L.
  destruct (exit (upload_loop writer uploadId
                    (Qt.toStdString (Qt.fileName path)) (Qt.file_size file)
                    (Qt.pending file) 0 0 (-1))) eqn:Eexit;
    try destruct (finish_upload writer) as [r modelId]; simpl;
    rewrite ?Eexit; intros E; try discriminate E.
  rewrite progress_of_app. simpl. rewrite app_nil_r.
  rewrite L by (lia || reflexivity).
  destruct (Qt.pending file) as [| b rest] eqn:Ep.
  - simpl in Hsum. lia.
  - rewrite Hsum. simpl.
    rewrite Z.mul_comm, Z.div_mul by lia. reflexivity.
Qed.

Lemma upload_completes_at_100_witness :
  last
    (progress_of
       (signals
          (uploadCad_thread "/tmp/part.step" "upload-1"
             {| Qt.opens := true; Qt.file_size := 3;
                Qt.pending := [[x01]; [x02]; [x03]] |}
             accepting_writer)))
    (-1)
  = 100.
Proof.
  apply (upload_completes_at_100 "/tmp/part.step" "upload-1"
           {| Qt.opens := true; Qt.file_size := 3;
              Qt.pending := [[x01]; [x02]; [x03]] |}
           accepting_writer).
  - simpl; lia.
  - vm_compute; discriminate.
  - vm_compute; reflexivity.
  - vm_compute; reflexivity.
Defined.

Lemma to_uint32_pred_succ (k : nat) :
  Cxx.to_uint32 (Cxx.to_uint32 (Cxx.to_uint32 (Z.of_nat k) + 1) - 1)
  = Cxx.to_uint32 (Z.of_nat k).
Proof.
  unfold Cxx.to_uint32, Cxx.wrap_unsigned.
  rewrite Zplus_mod_idemp_l, Zminus_mod_idemp_l. f_equal. lia.
Qed.

Lemma upload_loop_broken (writer : ClientWriter) (uploadId filename : string)
  (totalBytes : Z) (to_read : list Qt.QByteArray) :
  forall (bytesSent lastPercent : Z) (k : nat),
    exit (upload_loop writer uploadId filename totalBytes to_read bytesSent
            (Cxx.to_uint32 (Z.of_nat k)) lastPercent) = StreamBroken ->
    exists (accepted : list proto.UploadCadChunk)
      (refused : proto.UploadCadChunk),
      sent (upload_loop writer uploadId filename totalBytes to_read bytesSent
              (Cxx.to_uint32 (Z.of_nat k)) lastPercent)
      = accepted ++ [refused] /\
      Forall (fun chunk => Write writer chunk = true) accepted /\
      Write writer refused = false /\
      finished_of
        (signals
           (upload_loop writer uploadId filename totalBytes to_read bytesSent
              (Cxx.to_uint32 (Z.of_nat k)) lastPercent))
      = [({| hmi.Result.code := hmi.ErrorCode.Internal;
             hmi.Result.message :=
               ("Stream write failed at chunk "
                ++ Qt.number (proto.chunk_index refused))%string |}, "")].
Proof.
  induction to_read as [| next rest IH]; intros bytesSent lastPercent k; simpl;
    [discriminate |].
  destruct (Qt.isEmpty (Qt.read CHUNK_SIZE next)); simpl; [discriminate |].
  match goal with
  | |- context [Write writer ?c] => destruct (Write writer c) eqn:Ew
  end; simpl.
  - rewrite to_uint32_succ. intros E.
    match goal with
    | |- context [upload_loop writer uploadId filename totalBytes rest
                    ?b ?i ?l] =>
        destruct (IH b l (S k) E) as (accepted & refused & Hs & Ha & Hw & Hf)
    end.
    eexists (_ :: accepted), refused.
    split; [rewrite Hs; reflexivity |].
    split; [constructor; [exact Ew | exact Ha] |].
    split; [exact Hw |].
    rewrite finished_of_app, Hf.
    match goal with |- context [if ?b then _ else _] => destruct b end;
      reflexivity.
  - intros _. eexists [], _. split; [reflexivity |].
    split; [constructor |]. split; [exact Ew |].
    simpl. rewrite to_uint32_pred_succ. reflexivity.
Qed.

(** X19.  When [Write] refuses a chunk the upload stops there: the run
    ends on the refused write, every chunk before was accepted, the refused
    chunk is the last one handed over, and the one outcome is [Internal]
    with the text "Stream write failed at chunk " followed by the number
    the chunk carried, which is the number of chunks accepted before it. *)
Theorem upload_broken_names_chunk :
  forall (path : Qt.QString) (uploadId : string) (file : Qt.QFile)
    (writer : ClientWriter) (refused : proto.UploadCadChunk),
    In refused (sent (uploadCad_thread path uploadId file writer)) ->
    Write writer refused = false ->
    exit (uploadCad_thread path uploadId file writer) = StreamBroken /\
    exists accepted : list proto.UploadCadChunk,
      sent (uploadCad_thread path uploadId file writer)
      = accepted ++ [refused] /\
      Forall (fun chunk => Write writer chunk = true) accepted /\
      proto.chunk_index refused
      = Cxx.to_uint32 (Z.of_nat (List.length accepted)) /\
      finished_of (signals (uploadCad_thread path uploadId file writer))
      = [({| hmi.Result.code := hmi.ErrorCode.Internal;
             hmi.Result.message :=
               ("Stream write failed at chunk "
                ++ Qt.number (proto.chunk_index refused))%string |}, "")].
Proof.
  intros path uploadId file writer refused Hin Hrefused.
  assert (B : exit (uploadCad_thread path uploadId file writer) = StreamBroken).
  { apply refused_iff_broken. exists refused. split; assumption. }
  split; [exact B |].
  revert Hin B. unfold uploadCad_thread.
  destruct (Qt.opens file); simpl; [| discriminate].
  pose proof (upload_loop_chunks writer uploadId
                (Qt.toStdString (Qt.fileName path)) (Qt.file_size file)
                (Qt.pending file) 0 (-1) 0%nat) as (_ & Hi & _).
  pose proof (upload_loop_broken writer uploadId
                (Qt.toStdString (Qt.fileName path)) (Qt.file_size file)
                (Qt.pending file) 0 (-1) 0%nat) as L.
  simpl in L, Hi. change (Cxx.to_uint32 0) with 0 in L, Hi.
  destruct (exit (upload_loop writer uploadId
                    (Qt.toStdString (Qt.fileName path)) (Qt.file_size file)
                    (Qt.pending file) 0 0 (-1))) eqn:Eexit;
    try destruct (finish_upload writer) as [r modelId]; simpl;
    rewrite ?Eexit; intros Hin E; try discriminate E.
  destruct (L eq_refl) as (accepted & last_sent & Hs & Ha & Hw & Hf).
  assert (Elast : last_sent = refused).
  { rewrite Hs in Hin. apply in_app_or in Hin. destruct Hin as [Hin | Hin].
    - rewrite Forall_forall in Ha. rewrite (Ha _ Hin) in Hrefused.
      discriminate Hrefused.
    - destruct Hin as [Hin | []]. exact Hin. }
  subst last_sent.
  exists accepted.
  split; [exact Hs |]. split; [exact Ha |].
  split; [| exact Hf].
  rewrite Hs in Hi. rewrite map_app, length_app in Hi. simpl in Hi.
  rewrite Nat.add_1_r, seq_S, map_app in Hi. simpl in Hi.
  apply app_inj_tail in Hi. destruct Hi as [_ Hi]. exact Hi.
Qed.

Lemma upload_broken_names_chunk_witness :
  exit
    (uploadCad_thread "/tmp/part.step" "upload-1"
       {| Qt.opens := true; Qt.file_size := 3;
          Qt.pending := [[x01]; [x02]; [x03]] |} refusing_second)
  = StreamBroken /\
  exists accepted : list proto.UploadCadChunk,
    sent
      (uploadCad_thread "/tmp/part.step" "upload-1"
         {| Qt.opens := true; Qt.file_size := 3;
            Qt.pending := [[x01]; [x02]; [x03]] |} refusing_second)
    = accepted
      ++ [{| proto.upload_id := "upload-1"; proto.filename := "part.step";
             proto.data := [x02]; proto.chunk_index := 1;
             proto.eof := false |}] /\
    Forall (fun chunk => Write refusing_second chunk = true) accepted /\
    1 = Cxx.to_uint32 (Z.of_nat (List.length accepted)) /\
    finished_of
      (signals
         (uploadCad_thread "/tmp/part.step" "upload-1"
            {| Qt.opens := true; Qt.file_size := 3;
               Qt.pending := [[x01]; [x02]; [x03]] |} refusing_second))
    = [({| hmi.Result.code := hmi.ErrorCode.Internal;
           hmi.Result.message :=
             ("Stream write failed at chunk " ++ Qt.number 1)%string |}, "")].
Proof.
  apply (upload_broken_names_chunk "/tmp/part.step" "upload-1"
           {| Qt.opens := true; Qt.file_size := 3;
              Qt.pending := [[x01]; [x02]; [x03]] |} refusing_second
           {| proto.upload_id := "upload-1"; proto.filename := "part.step";
              proto.data := [x02]; proto.chunk_index := 1;
              proto.eof := false |}).
  - vm_compute. right. left. reflexivity.
  - reflexivity.
Defined.

(** The run of the witness: the second chunk is refused. *)
Example upload_second_chunk_refused :
  signals
    (uploadCad_thread "/tmp/part.step" "upload-1"
       {| Qt.opens := true; Qt.file_size := 3;
          Qt.pending := [[x01]; [x02]; [x03]] |}
       refusing_second)
  = [uploadCadProgress 33;
     uploadCadFinished
       {| hmi.Result.code := hmi.ErrorCode.Internal;
          hmi.Result.message := "Stream write failed at chunk 1" |} ""].
Proof. vm_compute. reflexivity. Qed.
